(** * Alpha Vantage MCP server: the handlers of [handlers.py]

    A shallow embedding of the request routers, the aggregator packs, the
    tabular decoders and the key normalizers of
    [src/alpha_vantage_mcp_server/handlers.py], with the properties that the
    design document states about them.

    Conventions of the embedding.
    - A Python [str] is a [string]; an [ascii] stands for one character
      (a code point below 256), so [String.length] is Python's [len] and
      the order of strings is Python's.
    - A Python value that can travel through the handlers (None, bool, int,
      float, str, list, dict) is a [value].  A [dict] is an association
      list in insertion order, which is the order Python iterates in; the
      keys of a Python dict are distinct, and no property below needs more
      than that.
    - An exception is an [error]; pure code that may raise returns a
      [result]; a coroutine that awaits the helpers of [api_helpers] is a
      [prog], a tree whose nodes are the awaited calls.  The helpers
      themselves are the Data Source: any function from calls to payloads
      or failures.
    - [json.loads], of Python's standard library, is a parameter of the
      code that calls it.

    The file has two parts: the definitions (the code, then the vocabulary
    of the properties and some sample payloads), and the properties. *)

From Stdlib Require Import String Ascii List Bool ZArith Arith Lia.
From Stdlib Require Import Sorted Permutation DecimalString.
Import ListNotations.
Local Open Scope string_scope.
Local Open Scope list_scope.

(** ** Python strings *)

Module PyStr.

(** [s in l] for a list of strings. *)
Definition str_in (s : string) (l : list string) : bool :=
  existsb (String.eqb s) l.

(** [sub in s] for two strings: [sub] occurs in [s] as a substring. *)
Fixpoint contains (sub s : string) : bool :=
  if String.prefix sub s then true
  else match s with
       | EmptyString => false
       | String _ s' => contains sub s'
       end.

Definition code (c : ascii) : nat := nat_of_ascii c.

(** Characters with an upper-case form below 256: A-Z, and the Latin-1
    capitals 192-222 without the multiplication sign 215. *)
Definition is_upper (c : ascii) : bool :=
  let n := code c in
  (((65 <=? n) && (n <=? 90)) ||
   ((192 <=? n) && (n <=? 222) && negb (n =? 215)))%nat.

Definition lower_char (c : ascii) : ascii :=
  if is_upper c then ascii_of_nat (code c + 32) else c.

(** [s.lower()]. *)
Fixpoint lower (s : string) : string :=
  match s with
  | EmptyString => EmptyString
  | String c s' => String (lower_char c) (lower s')
  end.

(** [c.isspace()] below 256: tab, line feed, vertical tab, form feed,
    carriage return, the four separators 28-31, space, NEL and the
    no-break space. *)
Definition is_space (c : ascii) : bool :=
  let n := code c in
  (((9 <=? n) && (n <=? 13)) || ((28 <=? n) && (n <=? 32)) ||
   (n =? 133) || (n =? 160))%nat.

Fixpoint lstrip_by (drop : ascii -> bool) (s : string) : string :=
  match s with
  | EmptyString => EmptyString
  | String c s' => if drop c then lstrip_by drop s' else s
  end.

Fixpoint rstrip_by (drop : ascii -> bool) (s : string) : string :=
  match s with
  | EmptyString => EmptyString
  | String c s' =>
      match rstrip_by drop s' with
      | EmptyString => if drop c then EmptyString else String c EmptyString
      | r => String c r
      end
  end.

(** [s.strip()], [s.rstrip(chars)]. *)
Definition strip (s : string) : string :=
  rstrip_by is_space (lstrip_by is_space s).

Definition rstrip_chars (chars : list ascii) (s : string) : string :=
  rstrip_by (fun c => existsb (Ascii.eqb c) chars) s.

(** [s.split(sep)] for a separator of one character. *)
Fixpoint split (sep : ascii) (s : string) : list string :=
  match s with
  | EmptyString => [EmptyString]
  | String c s' =>
      if Ascii.eqb c sep then EmptyString :: split sep s'
      else match split sep s' with
           | h :: t => String c h :: t
           | [] => [String c EmptyString]
           end
  end.

(** [sep.join(l)]. *)
Definition join (sep : string) (l : list string) : string :=
  String.concat sep l.

Definition newline : ascii := ascii_of_nat 10.
Definition carriage_return : ascii := ascii_of_nat 13.
Definition comma : ascii := ","%char.

End PyStr.
Import PyStr.

(** ** Python values, dictionaries, exceptions *)

#[warnings="-register-all"]
Inductive value : Type :=
| VNone
| VBool (b : bool)
| VInt (z : Z)
| VFloat (mantissa exponent : Z)   (* a float literal: mantissa * 10^exponent *)
| VStr (s : string)
| VList (l : list value)
| VDict (d : list (string * value)).

Definition dict : Type := list (string * value).

Module Dict.

(** The operations that do not look at the values are stated for any
    type of values: the handlers also keep dicts of dicts. *)

(** [d.get(k)], with [None] for Python's missing key. *)
Fixpoint get {A} (k : string) (d : list (string * A)) : option A :=
  match d with
  | [] => None
  | (k', v) :: d' => if String.eqb k k' then Some v else get k d'
  end.

(** [k in d]. *)
Definition has {A} (k : string) (d : list (string * A)) : bool :=
  match get k d with Some _ => true | None => false end.

(** [d[k] = v]: an existing key keeps its place, a new key goes last. *)
Fixpoint set {A} (k : string) (v : A) (d : list (string * A))
  : list (string * A) :=
  match d with
  | [] => [(k, v)]
  | (k', v') :: d' =>
      if String.eqb k k' then (k', v) :: d' else (k', v') :: set k v d'
  end.

(** [d.update(u)]. *)
Definition update {A} (u d : list (string * A)) : list (string * A) :=
  fold_left (fun acc kv => set (fst kv) (snd kv) acc) u d.

(** [d.get(k, default)]. *)
Definition get_default (k : string) (default : value) (d : dict) : value :=
  match get k d with Some v => v | None => default end.

(** [d.get(k)] as a Python value. *)
Definition get_or_none (k : string) (d : dict) : value :=
  get_default k VNone d.

Definition keys {A} (d : list (string * A)) : list string := map fst d.

End Dict.

Definition opt_str (o : option string) : value :=
  match o with Some s => VStr s | None => VNone end.

(** Python's truth value of an object, as [x or y] and [if x] use it. *)
Definition truthy (v : value) : bool :=
  match v with
  | VNone => false
  | VBool b => b
  | VInt z => negb (Z.eqb z 0)
  | VFloat m _ => negb (Z.eqb m 0)
  | VStr s => negb (String.eqb s EmptyString)
  | VList l => match l with [] => false | _ => true end
  | VDict d => match d with [] => false | _ => true end
  end.

Definition py_or (x y : value) : value := if truthy x then x else y.

Definition is_none (v : value) : bool :=
  match v with VNone => true | _ => false end.

Inductive error : Type :=
| ValueError (msg : string)
| TypeError
| AttributeError
| KeyError (key : string)
| UpstreamFailure (msg : string).

Inductive result (A : Type) : Type :=
| Ok (a : A)
| Err (e : error).
Arguments Ok {A} a.
Arguments Err {A} e.

Definition rbind {A B} (r : result A) (f : A -> result B) : result B :=
  match r with Ok a => f a | Err e => Err e end.

(** ** The Data Source port and coroutines over it *)

(** The helpers of [api_helpers] that the handlers await. *)
Inductive ds_op : Type :=
| fetch_intraday
| fetch_time_series_daily | fetch_time_series_daily_adjusted
| fetch_time_series_weekly | fetch_time_series_weekly_adjusted
| fetch_time_series_monthly | fetch_time_series_monthly_adjusted
| fetch_income_statement | fetch_balance_sheet | fetch_cash_flow
| fetch_sma | fetch_ema | fetch_wma | fetch_macd
| fetch_rsi | fetch_stoch | fetch_cci | fetch_mfi
| fetch_bbands | fetch_atr | fetch_sar
| fetch_obv | fetch_ad | fetch_adosc
| fetch_analytics_fixed_window | fetch_analytics_sliding_window
| fetch_company_overview | fetch_etf_profile
| fetch_earnings_calendar | fetch_ipo_calendar | fetch_listing_status
| fetch_exchange_rate | fetch_digital_currency_daily.

(** One awaited call: the helper, its positional and its keyword
    arguments. *)
Record ds_call : Type := Call {
  call_op : ds_op;
  call_args : list value;
  call_kwargs : dict
}.

Inductive prog (A : Type) : Type :=
| Ret (a : A)
| Raise (e : error)
| Await (c : ds_call) (k : value -> prog A).
Arguments Ret {A} a.
Arguments Raise {A} e.
Arguments Await {A} c k.

Fixpoint bind {A B} (p : prog A) (f : A -> prog B) : prog B :=
  match p with
  | Ret a => f a
  | Raise e => Raise e
  | Await c k => Await c (fun v => bind (k v) f)
  end.

Definition lift {A} (r : result A) : prog A :=
  match r with Ok a => Ret a | Err e => Raise e end.

Notation "x <- p ;; q" := (bind p (fun x => q))
  (at level 61, p at next level, right associativity).
Notation "'await' c" := (Await c Ret) (at level 60).

(** A Data Source answers a call, given the calls already answered, with a
    payload or with a failure of its own. *)
Definition data_source : Type := list ds_call -> ds_call -> result value.

(** [run ds hist p]: the calls [p] issues against [ds], in order, and the
    outcome.  A failing call ends the run: nothing catches it. *)
Fixpoint run {A} (ds : data_source) (hist : list ds_call) (p : prog A)
  : list ds_call * result A :=
  match p with
  | Ret a => ([], Ok a)
  | Raise e => ([], Err e)
  | Await c k =>
      match ds hist c with
      | Ok v => let '(t, r) := run ds (hist ++ [c]) (k v) in (c :: t, r)
      | Err e => ([c], Err e)
      end
  end.

Definition calls {A} (ds : data_source) (p : prog A) : list ds_call :=
  fst (run ds [] p).

Definition outcome {A} (ds : data_source) (p : prog A) : result A :=
  snd (run ds [] p).

(** ** Sorting by key, as [sorted(d.items())] and [sorted(d.keys())] do *)

Module Sorting.

(** Stable insertion of one pair into a list sorted by key. *)
Fixpoint insert_item {A} (k : string) (a : A) (l : list (string * A))
  : list (string * A) :=
  match l with
  | [] => [(k, a)]
  | (k', a') :: l' =>
      if String.leb k k' then (k, a) :: l
      else (k', a') :: insert_item k a l'
  end.

(** [sorted(d.items())]: the keys of a dict are distinct, so the pairs
    are ordered by key alone. *)
Definition sorted_items {A} (l : list (string * A)) : list (string * A) :=
  fold_right (fun kv acc => insert_item (fst kv) (snd kv) acc) [] l.

Fixpoint insert_desc (k : string) (l : list string) : list string :=
  match l with
  | [] => [k]
  | k' :: l' => if String.leb k' k then k :: l else k' :: insert_desc k l'
  end.

(** [sorted(keys, reverse=True)]. *)
Definition sorted_desc (l : list string) : list string :=
  fold_right insert_desc [] l.

End Sorting.

(** ** The time-series router *)

Definition intraday_intervals : list string :=
  ["1min"; "5min"; "15min"; "30min"; "60min"].

(** [function_map] of [fetch_time_series], keyed by (interval, adjusted). *)
Definition function_map : list ((string * bool) * ds_op) :=
  [ (("daily", false), fetch_time_series_daily);
    (("daily", true), fetch_time_series_daily_adjusted);
    (("weekly", false), fetch_time_series_weekly);
    (("weekly", true), fetch_time_series_weekly_adjusted);
    (("monthly", false), fetch_time_series_monthly);
    (("monthly", true), fetch_time_series_monthly_adjusted) ].

Fixpoint function_map_get (key : string * bool)
  (m : list ((string * bool) * ds_op)) : option ds_op :=
  match m with
  | [] => None
  | ((i, a), f) :: m' =>
      if String.eqb (fst key) i && Bool.eqb (snd key) a then Some f
      else function_map_get key m'
  end.

Definition fetch_time_series (symbol interval : string) (adjusted : bool)
  (outputsize : string) (month : option string) (extended_hours : bool)
  : prog value :=
  if str_in interval intraday_intervals then
    await (Call fetch_intraday []
             [ ("symbol", VStr symbol);
               ("interval", VStr interval);
               ("datatype", VStr "json");
               ("adjusted", VBool adjusted);
               ("extended_hours", VBool extended_hours);
               ("outputsize", VStr outputsize);
               ("month", opt_str month) ])
  else
    match function_map_get (interval, adjusted) function_map with
    | None => Raise (ValueError ("Unsupported interval: " ++ interval))
    | Some func =>
        if String.eqb interval "daily" then
          await (Call func []
                   [ ("symbol", VStr symbol);
                     ("datatype", VStr "json");
                     ("outputsize", VStr outputsize) ])
        else
          await (Call func []
                   [ ("symbol", VStr symbol); ("datatype", VStr "json") ])
    end.

(** [v.items()] on an arbitrary object. *)
Definition value_items (v : value) : result dict :=
  match v with
  | VDict d => Ok d
  | _ => Err AttributeError
  end.

(** [{k: v for k, v in d.items() if v is not None}]. *)
Definition drop_none (d : dict) : dict :=
  filter (fun kv => negb (is_none (snd kv))) d.

(** The first key, in the order of the dict, that passes a test: the
    loops [for key in data.keys(): if ...: time_series_key = key; break]. *)
Definition find_key (p : string -> bool) (d : dict) : option string :=
  find p (Dict.keys d).

Module StockSeries.

Definition clean_metadata (interval : string) (meta : value) : result dict :=
  match meta with
  | VDict m =>
      Ok (drop_none
            [ ("information", Dict.get_or_none "1. Information" m);
              ("symbol", Dict.get_or_none "2. Symbol" m);
              ("last_refreshed", Dict.get_or_none "3. Last Refreshed" m);
              ("output_size", Dict.get_or_none "4. Output Size" m);
              ("time_zone", Dict.get_or_none "5. Time Zone" m);
              ("interval",
                py_or (Dict.get_or_none "4. Interval" m) (VStr interval)) ])
  | _ => Err AttributeError
  end.

Definition clean_point (data : value) : result dict :=
  match data with
  | VDict d =>
      Ok (drop_none
            [ ("open", Dict.get_or_none "1. open" d);
              ("high", Dict.get_or_none "2. high" d);
              ("low", Dict.get_or_none "3. low" d);
              ("close", Dict.get_or_none "4. close" d);
              ("adjusted_close", Dict.get_or_none "5. adjusted close" d);
              ("volume",
                py_or (Dict.get_or_none "5. volume" d)
                      (Dict.get_or_none "6. volume" d));
              ("dividend_amount", Dict.get_or_none "7. dividend amount" d);
              ("split_coefficient",
                Dict.get_or_none "8. split coefficient" d) ])
  | _ => Err AttributeError
  end.

(** The loop that fills [cleaned_time_series]. *)
Fixpoint clean_series (entries : dict) (cleaned : list (string * dict))
  : result (list (string * dict)) :=
  match entries with
  | [] => Ok cleaned
  | (date, data) :: rest =>
      rbind (clean_point data) (fun point =>
        clean_series rest (Dict.set date point cleaned))
  end.

(** [item = {"date": date}; item.update(values)]. *)
Definition dated_item (kv : string * dict) : value :=
  VDict (Dict.update (snd kv) [("date", VStr (fst kv))]).

Definition clean (interval : string) (raw_data : value) : result value :=
  match raw_data with
  | VDict raw =>
      rbind
        (match Dict.get "Meta Data" raw with
         | Some meta =>
             rbind (clean_metadata interval meta) (fun metadata =>
               Ok (Dict.set "metadata" (VDict metadata) []))
         | None => Ok []
         end)
        (fun cleaned_data =>
           match find_key (contains "Time Series") raw with
           | Some time_series_key =>
               rbind (value_items
                        (Dict.get_or_none time_series_key raw))
                 (fun time_series =>
                    rbind (clean_series time_series [])
                      (fun cleaned_time_series =>
                         Ok (VDict
                               (Dict.set "items"
                                  (VList
                                     (map dated_item
                                        (Sorting.sorted_items
                                           cleaned_time_series)))
                                  cleaned_data))))
           | None => Ok (VDict cleaned_data)
           end)
  | _ => Ok raw_data
  end.

End StockSeries.

(** [get_stock_time_series]: the keyword arguments the caller may add are
    the three that [fetch_time_series] reads. *)
Definition get_stock_time_series (symbol interval : string) (adjusted : bool)
  (outputsize : string) (month : option string) (extended_hours : bool)
  : prog value :=
  raw_data <- fetch_time_series symbol interval adjusted outputsize month
                extended_hours ;;
  lift (StockSeries.clean interval raw_data).

(** ** Aggregator packs *)

Definition _normalize_timestamp (timestamp interval : string) : string :=
  if str_in interval ["daily"; "weekly"; "monthly"] then
    if Nat.eqb (String.length timestamp) 10 then timestamp ++ " 00:00:00"
    else timestamp
  else
    if Nat.eqb (String.length timestamp) 16 then timestamp ++ ":00"
    else if Nat.eqb (String.length timestamp) 19 then timestamp
    else timestamp ++ " 00:00:00".

(** One appended row, an IndicatorObservation. *)
Definition observation (timestamp indicator component : string) (v : value)
  : value :=
  VDict [ ("timestamp", VStr timestamp);
          ("indicator", VStr indicator);
          ("component", VStr component);
          ("value", v) ].

(** The row a pack appends for the field [key], [v] of the entry at
    [timestamp] of the indicator [indicator_name]. *)
Definition row_builder : Type := string -> string -> string -> value -> value.

(** Rows of one multi-component indicator, named [multi] upstream and
    [tag] in the output; every other indicator has the single component
    "value". *)
Definition pack_row (multi tag interval : string) : row_builder :=
  fun indicator_name timestamp key v =>
    if String.eqb indicator_name multi then
      observation (_normalize_timestamp timestamp interval) tag (lower key) v
    else
      observation (_normalize_timestamp timestamp interval)
        (lower indicator_name) "value" v.

Definition trend_row : string -> row_builder := pack_row "MACD" "macd".
Definition momentum_row : string -> row_builder := pack_row "STOCH" "stoch".
Definition volatility_row : string -> row_builder := pack_row "BBANDS" "bbands".

(** The volume pack has no multi-component indicator. *)
Definition volume_row (interval : string) : row_builder :=
  fun indicator_name timestamp key v =>
    observation (_normalize_timestamp timestamp interval)
      (lower indicator_name) "value" v.

(** [for key, value in values.items(): items.append(...)]. *)
Definition expand_entry (row : string -> string -> value -> value)
  (timestamp : string) (fields : dict) : list value :=
  map (fun kv => row timestamp (fst kv) (snd kv)) fields.

(** The loop over [data["items"].items()] with its counter: it stops at
    the entry that would be the 21st and never looks at it. *)
Fixpoint capped_loop (row : string -> string -> value -> value)
  (entries : dict) (count : nat) (items : list value)
  : result (list value) :=
  match entries with
  | [] => Ok items
  | (timestamp, values) :: rest =>
      if Nat.leb 20 count then Ok items
      else
        rbind (value_items values) (fun fields =>
          capped_loop row rest (S count)
            (items ++ expand_entry row timestamp fields))
  end.

(** The loop over [indicators.items()]. *)
Fixpoint unify (row : row_builder) (indicators : dict) (items : list value)
  : result (list value) :=
  match indicators with
  | [] => Ok items
  | (indicator_name, data) :: rest =>
      match data with
      | VDict d =>
          if Dict.has "items" d then
            rbind (value_items (Dict.get_or_none "items" d)) (fun entries =>
              rbind (capped_loop (row indicator_name) entries 0 items)
                (fun items' => unify row rest items'))
          else unify row rest items
      | _ => unify row rest items
      end
  end.

Definition pack_result (symbol interval preset : string) (items : list value)
  : value :=
  VDict [ ("metadata",
            VDict [ ("symbol", VStr symbol);
                    ("interval", VStr interval);
                    ("preset", VStr preset) ]);
          ("items", VList items) ].

(** Preset tables: preset name, then indicator name, then the keyword
    arguments of that indicator's helper. *)
Definition preset_table : Type := list (string * list (string * dict)).

(** [presets.get(preset, presets["standard"])]. *)
Definition preset_config (presets : preset_table) (preset : string)
  : list (string * dict) :=
  match Dict.get preset presets with
  | Some cfg => cfg
  | None => match Dict.get "standard" presets with
            | Some cfg => cfg
            | None => []
            end
  end.

(** [preset_config[name]]. *)
Definition config_of (cfg : list (string * dict)) (name : string) : dict :=
  match Dict.get name cfg with Some kw => kw | None => [] end.

Definition common : dict := [("series_type", VStr "close")].

Definition indicator_call (op : ds_op) (symbol interval : string)
  (extra : dict) : ds_call :=
  Call op [] ([("symbol", VStr symbol); ("interval", VStr interval)] ++ extra).

Definition period (n : Z) : dict := [("time_period", VInt n)].

Definition trend_presets : preset_table :=
  let macd f s g :=
    [("fastperiod", VInt f); ("slowperiod", VInt s); ("signalperiod", VInt g)]
  in
  [ ("fast", [ ("SMA", period 10); ("EMA", period 10); ("WMA", period 10);
               ("MACD", macd 8 17 5) ]);
    ("standard", [ ("SMA", period 20); ("EMA", period 20); ("WMA", period 20);
                   ("MACD", macd 12 26 9) ]);
    ("slow", [ ("SMA", period 50); ("EMA", period 50); ("WMA", period 50);
               ("MACD", macd 19 39 9) ]) ]%Z.

Definition get_trend_indicators (symbol interval preset : string)
  : prog value :=
  let cfg := preset_config trend_presets preset in
  sma <- await (indicator_call fetch_sma symbol interval
                  (config_of cfg "SMA" ++ common)) ;;
  ema <- await (indicator_call fetch_ema symbol interval
                  (config_of cfg "EMA" ++ common)) ;;
  wma <- await (indicator_call fetch_wma symbol interval
                  (config_of cfg "WMA" ++ common)) ;;
  macd <- await (indicator_call fetch_macd symbol interval
                   (config_of cfg "MACD" ++ common)) ;;
  items <- lift (unify (trend_row interval)
                   [("SMA", sma); ("EMA", ema); ("WMA", wma); ("MACD", macd)]
                   []) ;;
  Ret (pack_result symbol interval preset items).

Definition momentum_presets : preset_table :=
  let stoch fk sk sd :=
    [ ("fastkperiod", VInt fk); ("slowkperiod", VInt sk);
      ("slowdperiod", VInt sd); ("slowkmatype", VInt 0);
      ("slowdmatype", VInt 0) ]
  in
  [ ("fast", [ ("RSI", period 7); ("STOCH", stoch 5 3 3);
               ("CCI", period 10); ("MFI", period 7) ]);
    ("standard", [ ("RSI", period 14); ("STOCH", stoch 14 3 3);
                   ("CCI", period 20); ("MFI", period 14) ]);
    ("slow", [ ("RSI", period 21); ("STOCH", stoch 21 5 5);
               ("CCI", period 30); ("MFI", period 21) ]) ]%Z.

Definition get_momentum_indicators (symbol interval preset : string)
  : prog value :=
  let cfg := preset_config momentum_presets preset in
  rsi <- await (indicator_call fetch_rsi symbol interval
                  (config_of cfg "RSI" ++ common)) ;;
  stoch <- await (indicator_call fetch_stoch symbol interval
                    (config_of cfg "STOCH")) ;;
  cci <- await (indicator_call fetch_cci symbol interval
                  (config_of cfg "CCI")) ;;
  mfi <- await (indicator_call fetch_mfi symbol interval
                  (config_of cfg "MFI")) ;;
  items <- lift (unify (momentum_row interval)
                   [("RSI", rsi); ("STOCH", stoch); ("CCI", cci); ("MFI", mfi)]
                   []) ;;
  Ret (pack_result symbol interval preset items).

Definition volatility_presets : preset_table :=
  let bbands n :=
    [ ("time_period", VInt n); ("nbdevup", VInt 2); ("nbdevdn", VInt 2);
      ("matype", VInt 0) ]
  in
  let sar a m :=
    [ ("acceleration", VFloat a (-2)); ("maximum", VFloat m (-2)) ]
  in
  [ ("fast", [ ("BBANDS", bbands 14); ("ATR", period 7); ("SAR", sar 3 30) ]);
    ("standard", [ ("BBANDS", bbands 20); ("ATR", period 14);
                   ("SAR", sar 2 20) ]);
    ("slow", [ ("BBANDS", bbands 30); ("ATR", period 21);
               ("SAR", sar 1 10) ]) ]%Z.

Definition get_volatility_indicators (symbol interval preset : string)
  : prog value :=
  let cfg := preset_config volatility_presets preset in
  bbands <- await (indicator_call fetch_bbands symbol interval
                     (config_of cfg "BBANDS" ++ common)) ;;
  atr <- await (indicator_call fetch_atr symbol interval
                  (config_of cfg "ATR")) ;;
  sar <- await (indicator_call fetch_sar symbol interval
                  (config_of cfg "SAR")) ;;
  items <- lift (unify (volatility_row interval)
                   [("BBANDS", bbands); ("ATR", atr); ("SAR", sar)] []) ;;
  Ret (pack_result symbol interval preset items).

Definition volume_presets : preset_table :=
  let adosc f s := [("fastperiod", VInt f); ("slowperiod", VInt s)] in
  [ ("fast", [("ADOSC", adosc 2 7)]);
    ("standard", [("ADOSC", adosc 3 10)]);
    ("slow", [("ADOSC", adosc 5 20)]) ]%Z.

Definition get_volume_indicators (symbol interval preset : string)
  : prog value :=
  let cfg := preset_config volume_presets preset in
  obv <- await (indicator_call fetch_obv symbol interval []) ;;
  ad <- await (indicator_call fetch_ad symbol interval []) ;;
  adosc <- await (indicator_call fetch_adosc symbol interval
                    (config_of cfg "ADOSC")) ;;
  items <- lift (unify (volume_row interval)
                   [("OBV", obv); ("AD", ad); ("ADOSC", adosc)] []) ;;
  Ret (pack_result symbol interval preset items).

(** ** Statement-type, analytics and profile-type routers *)

Definition get_financial_statements (symbol statement_type : string)
  : prog value :=
  let statement_type := lower statement_type in
  if String.eqb statement_type "all" then
    income <- await (Call fetch_income_statement [VStr symbol] []) ;;
    balance <- await (Call fetch_balance_sheet [VStr symbol] []) ;;
    cash <- await (Call fetch_cash_flow [VStr symbol] []) ;;
    Ret (VDict [ ("symbol", VStr symbol);
                 ("income_statement", income);
                 ("balance_sheet", balance);
                 ("cash_flow", cash) ])
  else if String.eqb statement_type "income" then
    await (Call fetch_income_statement [VStr symbol] [])
  else if String.eqb statement_type "balance" then
    await (Call fetch_balance_sheet [VStr symbol] [])
  else if String.eqb statement_type "cash_flow" then
    await (Call fetch_cash_flow [VStr symbol] [])
  else
    Raise (ValueError
             ("Unsupported statement type: " ++ statement_type ++
              ". Supported types: 'income', 'balance', 'cash_flow', 'all'")).

Definition get_symbol_overview (symbol profile_type : string) : prog value :=
  if String.eqb profile_type "company" then
    await (Call fetch_company_overview [VStr symbol] [])
  else if String.eqb profile_type "etf" then
    await (Call fetch_etf_profile [VStr symbol] [])
  else
    Raise (ValueError ("Unsupported profile type: " ++ profile_type)).

Module Analytics.

Definition str_list (l : list string) : value := VList (map VStr l).

Definition opt_int (o : option Z) : value :=
  match o with Some z => VInt z | None => VNone end.

(** The placeholder rows, one per symbol and calculation. *)
Definition placeholder_results (symbols calculations : list string)
  : list value :=
  flat_map
    (fun symbol =>
       map (fun calc =>
              VDict [ ("symbol", VStr symbol);
                      ("calculation", VStr calc);
                      ("value", VFloat 0 0);
                      ("date", VStr "2024-01-01") ])
           calculations)
    symbols.

(** [if "results" not in result: result["results"] = ...]. *)
Definition ensure_results (symbols calculations : list string)
  (res : dict) : dict :=
  if Dict.has "results" res then res
  else Dict.set "results"
         (VList (placeholder_results symbols calculations)) res.

(** [if "metadata" not in result: result["metadata"] = {}], then
    [result["metadata"].update(echo)]: the block is changed in place, so
    it keeps its position in [result] (here [res]). *)
Definition echo_metadata (echo : dict) (res : dict) : result dict :=
  let res :=
    if Dict.has "metadata" res then res
    else Dict.set "metadata" (VDict []) res in
  match Dict.get_or_none "metadata" res with
  | VDict m => Ok (Dict.set "metadata" (VDict (Dict.update echo m)) res)
  | _ => Err AttributeError
  end.

Definition request_echo (interval series_range ohlc : string)
  (window_size : value) (calculations : list string) : dict :=
  [ ("interval", VStr interval);
    ("series_range", VStr series_range);
    ("ohlc", VStr ohlc);
    ("window_size", window_size);
    ("calculations", str_list calculations) ].

(** [window_size is not None and window_size >= 10]. *)
Definition use_sliding (window_size : option Z) : bool :=
  match window_size with
  | Some w => Z.leb 10 w
  | None => false
  end.

End Analytics.

Definition analyze_stocks (symbols : list string) (interval : string)
  (calculations : list string) (series_range ohlc : string)
  (window_size : option Z) : prog value :=
  let request :=
    [ ("symbols", Analytics.str_list symbols);
      ("interval", VStr interval);
      ("calculations", Analytics.str_list calculations);
      ("series_range", VStr series_range);
      ("ohlc", VStr ohlc) ] in
  if Analytics.use_sliding window_size then
    res <- await (Call fetch_analytics_sliding_window []
                       (request ++
                        [("window_size", Analytics.opt_int window_size)])) ;;
    match res with
    | VDict r =>
        let r := Dict.set "window_type" (VStr "sliding") r in
        let r := Dict.set "symbols" (Analytics.str_list symbols) r in
        let r := Analytics.ensure_results symbols calculations r in
        r <- lift (Analytics.echo_metadata
                     (Analytics.request_echo interval series_range ohlc
                        (Analytics.opt_int window_size) calculations) r) ;;
        Ret (VDict r)
    | _ => Ret res
    end
  else
    res <- await (Call fetch_analytics_fixed_window [] request) ;;
    match res with
    | VDict r =>
        let r := Dict.set "window_type" (VStr "fixed") r in
        let r := Dict.set "symbols" (Analytics.str_list symbols) r in
        let r := if Dict.has "data_format" r then r
                 else Dict.set "data_format" (VStr "json") r in
        let r := Analytics.ensure_results symbols calculations r in
        r <- lift (Analytics.echo_metadata
                     (Analytics.request_echo interval series_range ohlc
                        VNone calculations) r) ;;
        Ret (VDict r)
    | _ => Ret res
    end.

(** ** Tabular decoders *)

Module Csv.

(** [csv_data.strip().split("\n")]. *)
Definition lines_of (csv_data : string) : list string :=
  split newline (strip csv_data).

(** [[val.strip().rstrip("\r") for val in line.split(",")]]. *)
Definition fields_of (line : string) : list string :=
  map (fun val => rstrip_chars [carriage_return] (strip val))
      (split comma line).

(** [for i, header in enumerate(headers): item[header] = values[i]],
    run only when the two lists have the same length. *)
Fixpoint fill_item (headers values : list string) (item : dict) : dict :=
  match headers, values with
  | header :: headers', v :: values' =>
      fill_item headers' values' (Dict.set header (VStr v) item)
  | _, _ => item
  end.

(** One turn of the loop of [csv_to_list]. *)
Definition list_step (headers : list string) (data : list value)
  (line : string) : list value :=
  let values := fields_of line in
  if Nat.eqb (List.length values) (List.length headers) then
    data ++ [VDict (fill_item headers values [])]
  else data.

Definition csv_to_list (csv_data : string) (headers : list string)
  : list value :=
  let lines := lines_of csv_data in
  if Nat.leb (List.length lines) 1 then []
  else fold_left (list_step headers) (tl lines) [].

Definition listing_of (values : list string) : value :=
  let at_ i := VStr (nth i values EmptyString) in
  VDict [ ("symbol", at_ 0); ("name", at_ 1); ("exchange", at_ 2);
          ("asset_type", at_ 3); ("ipo_date", at_ 4);
          ("delisting_date", at_ 5); ("status", at_ 6) ].

(** One turn of the loop of [csv_to_listings]. *)
Definition listings_step (listings : list value) (line : string)
  : list value :=
  let values := fields_of line in
  if Nat.leb 7 (List.length values) then listings ++ [listing_of values]
  else listings.

Definition csv_to_listings (csv_data : string) : list value :=
  let lines := lines_of csv_data in
  if Nat.leb (List.length lines) 1 then []
  else fold_left listings_step (tl lines) [].

Definition earnings_headers : list string :=
  [ "symbol"; "name"; "report_date"; "fiscal_date_ending"; "estimate";
    "currency" ].

Definition ipo_headers : list string :=
  [ "symbol"; "name"; "ipo_date"; "price_range_low"; "price_range_high";
    "currency"; "exchange" ].

(** The decoders call [csv_data.strip()]: anything but a string raises. *)
Definition as_text (v : value) : result string :=
  match v with VStr s => Ok s | _ => Err AttributeError end.

End Csv.

Definition get_market_calendar (symbol : option string) (horizon : string)
  (with_ipos : bool) : prog value :=
  earnings_csv <- await (Call fetch_earnings_calendar
                           [opt_str symbol; VStr horizon] []) ;;
  earnings_text <- lift (Csv.as_text earnings_csv) ;;
  let earnings_data := Csv.csv_to_list earnings_text Csv.earnings_headers in
  let res :=
    [ ("horizon", VStr horizon);
      ("with_ipos", VBool with_ipos);
      ("earnings", VList earnings_data) ] in
  let res :=
    if truthy (opt_str symbol) then Dict.set "symbol" (opt_str symbol) res
    else res in
  if with_ipos then
    ipo_csv <- await (Call fetch_ipo_calendar [] []) ;;
    ipo_text <- lift (Csv.as_text ipo_csv) ;;
    Ret (VDict (Dict.set "ipos"
                  (VList (Csv.csv_to_list ipo_text Csv.ipo_headers)) res))
  else
    Ret (VDict (Dict.set "ipos" (VList []) res)).

Definition get_listing_status (date : option string) (state : string)
  : prog value :=
  csv_data <- await (Call fetch_listing_status
                       [opt_str date; VStr state] []) ;;
  csv_text <- lift (Csv.as_text csv_data) ;;
  let res :=
    [ ("state", VStr state);
      ("listings", VList (Csv.csv_to_listings csv_text)) ] in
  if truthy (opt_str date) then Ret (VDict (Dict.set "date" (opt_str date) res))
  else Ret (VDict res).

(** ** Key normalizers *)

(** [key in container] for a string key and an arbitrary object. *)
Definition py_contains (key : string) (container : value) : result bool :=
  match container with
  | VDict d => Ok (Dict.has key d)
  | VList l =>
      Ok (existsb (fun x => match x with
                            | VStr s => String.eqb s key
                            | _ => false
                            end) l)
  | VStr s => Ok (contains key s)
  | _ => Err TypeError
  end.

(** [container[key]] for a string key: only a dict can be indexed so. *)
Definition py_getitem (key : string) (container : value) : result value :=
  match container with
  | VDict d => match Dict.get key d with
               | Some v => Ok v
               | None => Err (KeyError key)
               end
  | _ => Err TypeError
  end.

Module FxRate.

Definition container_key : string := "Realtime Currency Exchange Rate".

Definition key_mappings : list (string * string) :=
  [ ("1. From_Currency Code", "from_currency_code");
    ("2. From_Currency Name", "from_currency_name");
    ("3. To_Currency Code", "to_currency_code");
    ("4. To_Currency Name", "to_currency_name");
    ("5. Exchange Rate", "exchange_rate");
    ("6. Last Refreshed", "last_refreshed");
    ("7. Time Zone", "time_zone");
    ("8. Bid Price", "bid_price");
    ("9. Ask Price", "ask_price") ].

(** [for old_key, new_key in key_mappings.items(): if old_key in
    rate_data: normalized_rate[new_key] = rate_data[old_key]]. *)
Fixpoint rename_present (mappings : list (string * string))
  (rate_data : value) (normalized_rate : dict) : result dict :=
  match mappings with
  | [] => Ok normalized_rate
  | (old_key, new_key) :: rest =>
      rbind (py_contains old_key rate_data) (fun present =>
        if present then
          rbind (py_getitem old_key rate_data) (fun v =>
            rename_present rest rate_data
              (Dict.set new_key v normalized_rate))
        else rename_present rest rate_data normalized_rate)
  end.

Definition normalize_fx_rate_keys (data : value) : result value :=
  match data with
  | VDict d =>
      match Dict.get container_key d with
      | Some rate_data =>
          rbind (rename_present key_mappings rate_data [])
            (fun normalized_rate => Ok (VDict normalized_rate))
      | None => Ok data
      end
  | _ => Ok data
  end.

End FxRate.

Definition get_current_fx_rate (from_currency to_currency : string)
  : prog value :=
  raw_data <- await (Call fetch_exchange_rate
                       [VStr from_currency; VStr to_currency] []) ;;
  lift (FxRate.normalize_fx_rate_keys raw_data).

Section CryptoQuote.

(** [json.loads], the decoder of Python's standard library. *)
Variable json_loads : string -> result value.

Definition is_series_key (key : string) : bool :=
  contains "Time Series" key && contains "Digital Currency" key.

(** [d.get(k, default)] on an arbitrary object. *)
Definition value_get_default (k : string) (default : value) (v : value)
  : result value :=
  match v with
  | VDict d => Ok (Dict.get_default k default d)
  | _ => Err AttributeError
  end.

(** The two dict displays of [normalize_crypto_quote]; their entries are
    evaluated in order, and each [.get] raises on anything but a dict. *)
Fixpoint build_with_defaults (source : value)
  (entries : list (string * (string * value))) : result dict :=
  match entries with
  | [] => Ok []
  | (new_key, (old_key, default)) :: rest =>
      rbind (value_get_default old_key default source) (fun v =>
        rbind (build_with_defaults source rest) (fun d =>
          Ok ((new_key, v) :: d)))
  end.

Definition quote_fields (symbol market : string)
  : list (string * (string * value)) :=
  [ ("symbol", ("2. Digital Currency Code", VStr symbol));
    ("name", ("3. Digital Currency Name", VStr EmptyString));
    ("market", ("4. Market Code", VStr market));
    ("market_name", ("5. Market Name", VStr EmptyString));
    ("last_refreshed", ("6. Last Refreshed", VStr EmptyString));
    ("time_zone", ("7. Time Zone", VStr EmptyString)) ].

Definition price_fields : list (string * (string * value)) :=
  [ ("open", ("1. open", VStr EmptyString));
    ("high", ("2. high", VStr EmptyString));
    ("low", ("3. low", VStr EmptyString));
    ("close", ("4. close", VStr EmptyString));
    ("volume", ("5. volume", VStr EmptyString)) ].

(** [normalize_crypto_quote] after [json.loads]. *)
Definition normalize_decoded (symbol market : string) (data : value)
  : result value :=
  match data with
  | VDict d =>
      let metadata := Dict.get_default "Meta Data" (VDict []) d in
      match find_key is_series_key d with
      | None => Err (ValueError "Time series data not found in response")
      | Some time_series_key =>
          rbind (value_items (Dict.get_or_none time_series_key d))
            (fun time_series =>
               match Sorting.sorted_desc (Dict.keys time_series) with
               | [] => Err (ValueError "No time series data available")
               | latest_date :: _ =>
                   let latest_data :=
                     Dict.get_or_none latest_date time_series in
                   rbind (build_with_defaults metadata
                            (quote_fields symbol market))
                     (fun normalized_quote =>
                        rbind (build_with_defaults latest_data price_fields)
                          (fun prices =>
                             Ok (VDict
                                   (Dict.set "current_quote"
                                      (VDict (("date", VStr latest_date)
                                              :: prices))
                                      normalized_quote))))
               end)
      end
  | _ => Err AttributeError
  end.

Definition normalize_crypto_quote (symbol market : string)
  (data_str : value) : result value :=
  match data_str with
  | VStr s => rbind (json_loads s) (normalize_decoded symbol market)
  | _ => Err TypeError
  end.

Definition get_current_crypto_quote (symbol market : string) : prog value :=
  raw_data <- await (Call fetch_digital_currency_daily
                       [VStr symbol; VStr market] []) ;;
  lift (normalize_crypto_quote symbol market raw_data).

End CryptoQuote.

(** ** Vocabulary of the properties *)

(** The Data Source answers the calls [cs], issued in this order after
    [hist], with the payloads [vs]. *)
Fixpoint answers (ds : data_source) (hist cs : list ds_call)
  (vs : list value) : Prop :=
  match cs, vs with
  | [], [] => True
  | c :: cs', v :: vs' => ds hist c = Ok v /\ answers ds (hist ++ [c]) cs' vs'
  | _, _ => False
  end.

(** The four packs: the row builder, the indicator names in the order they
    are stored in [indicators], the calls in the order they are awaited,
    and the handler. *)
Record pack : Type := Pack {
  pack_rows : string -> row_builder;
  pack_names : list string;
  pack_calls : string -> string -> string -> list ds_call;
  pack_handler : string -> string -> string -> prog value
}.

Definition trend_pack : pack :=
  Pack trend_row ["SMA"; "EMA"; "WMA"; "MACD"]
    (fun symbol interval preset =>
       let cfg := preset_config trend_presets preset in
       [ indicator_call fetch_sma symbol interval
           (config_of cfg "SMA" ++ common);
         indicator_call fetch_ema symbol interval
           (config_of cfg "EMA" ++ common);
         indicator_call fetch_wma symbol interval
           (config_of cfg "WMA" ++ common);
         indicator_call fetch_macd symbol interval
           (config_of cfg "MACD" ++ common) ])
    get_trend_indicators.

Definition momentum_pack : pack :=
  Pack momentum_row ["RSI"; "STOCH"; "CCI"; "MFI"]
    (fun symbol interval preset =>
       let cfg := preset_config momentum_presets preset in
       [ indicator_call fetch_rsi symbol interval
           (config_of cfg "RSI" ++ common);
         indicator_call fetch_stoch symbol interval (config_of cfg "STOCH");
         indicator_call fetch_cci symbol interval (config_of cfg "CCI");
         indicator_call fetch_mfi symbol interval (config_of cfg "MFI") ])
    get_momentum_indicators.

Definition volatility_pack : pack :=
  Pack volatility_row ["BBANDS"; "ATR"; "SAR"]
    (fun symbol interval preset =>
       let cfg := preset_config volatility_presets preset in
       [ indicator_call fetch_bbands symbol interval
           (config_of cfg "BBANDS" ++ common);
         indicator_call fetch_atr symbol interval (config_of cfg "ATR");
         indicator_call fetch_sar symbol interval (config_of cfg "SAR") ])
    get_volatility_indicators.

Definition volume_pack : pack :=
  Pack volume_row ["OBV"; "AD"; "ADOSC"]
    (fun symbol interval preset =>
       let cfg := preset_config volume_presets preset in
       [ indicator_call fetch_obv symbol interval [];
         indicator_call fetch_ad symbol interval [];
         indicator_call fetch_adosc symbol interval (config_of cfg "ADOSC") ])
    get_volume_indicators.

Definition all_packs : list pack :=
  [trend_pack; momentum_pack; volatility_pack; volume_pack].

(** The [indicators] dict of a pack once its calls are answered, and the
    rows the pack makes of it. *)
Definition indicators_of (P : pack) (responses : list value) : dict :=
  combine (pack_names P) responses.

Definition pack_items (P : pack) (interval : string) (responses : list value)
  : result (list value) :=
  unify (pack_rows P interval) (indicators_of P responses) [].

(** [v.get(k)] when [v] is a mapping, for reading a returned value. *)
Definition get_field (k : string) (row : value) : value :=
  match row with VDict d => Dict.get_or_none k d | _ => VNone end.

Definition row_is (indicator : string) (row : value) : bool :=
  match get_field "indicator" row with
  | VStr s => String.eqb s indicator
  | _ => false
  end.

(** The rows of one indicator in the items of a pack. *)
Definition rows_of (indicator : string) (items : list value) : list value :=
  filter (row_is indicator) items.

Definition row_timestamp (row : value) : string :=
  match get_field "timestamp" row with VStr s => s | _ => EmptyString end.

(** The distinct timestamps of a list of rows. *)
Definition timestamps (rows : list value) : list string :=
  nodup string_dec (map row_timestamp rows).

Definition is_dict (v : value) : bool :=
  match v with VDict _ => true | _ => false end.

(** A result that contributes rows: a dict with the key "items". *)
Definition has_items (data : value) : bool :=
  match data with VDict d => Dict.has "items" d | _ => false end.

(** The shape the loops can walk without raising: whenever "items" is
    there it is a dict, and the entries that the cap retains are dicts. *)
Definition walkable (data : value) : Prop :=
  match data with
  | VDict d =>
      match Dict.get "items" d with
      | Some (VDict entries) =>
          Forall (fun kv => is_dict (snd kv) = true) (firstn 20 entries)
      | Some _ => False
      | None => True
      end
  | _ => True
  end.

(** The fields of an entry, empty for anything but a dict. *)
Definition fields_of_entry (values : value) : dict :=
  match values with VDict fields => fields | _ => [] end.

(** The rows of the retained entries: the first 20, each expanded. *)
Definition expansion (row : string -> string -> value -> value)
  (entries : dict) : list value :=
  flat_map (fun kv => expand_entry row (fst kv) (fields_of_entry (snd kv)))
           (firstn 20 entries).

(** The rows one indicator contributes to a pack. *)
Definition contribution (row : row_builder) (name : string) (data : value)
  : list value :=
  match data with
  | VDict d =>
      match Dict.get "items" d with
      | Some (VDict entries) => expansion (row name) entries
      | _ => []
      end
  | _ => []
  end.

(** The indicators whose entries carry several components, and the
    component a row shows for the field [key] of an entry of the
    indicator [name]: the lower-cased field for these, "value" for every
    other indicator. *)
Definition multi_component : list string := ["MACD"; "STOCH"; "BBANDS"].

Definition component_of (name key : string) : string :=
  if str_in name multi_component then lower key else "value".

(** The [results] of a returned mapping is a list with an element. *)
Definition nonempty_results (out : value) : bool :=
  match get_field "results" out with
  | VList (_ :: _) => true
  | _ => false
  end.

(** The [metadata] of an analytics result can be updated: it is absent, or
    it is a mapping. *)
Definition metadata_updatable (r : dict) : bool :=
  match Dict.get "metadata" r with
  | Some (VDict _) => true
  | Some _ => false
  | None => true
  end.

(** The record of a line under a list of headers, field by field. *)
Definition record_of (headers : list string) (line : string) : value :=
  VDict (combine headers (map VStr (Csv.fields_of line))).

Definition field_count (line : string) : nat :=
  List.length (Csv.fields_of line).

(** ["\n"], the one-character string. *)
Definition nl : string := String newline EmptyString.

(** The first character, if any, is one that is kept. *)
Definition head_kept (drop : ascii -> bool) (s : string) : Prop :=
  match s with
  | EmptyString => True
  | String c _ => drop c = false
  end.

(** The pairs a renaming gives for the keys that are present, in the
    order of the mapping table. *)
Definition renamed (mappings : list (string * string)) (source : dict)
  : dict :=
  flat_map (fun m => match Dict.get (fst m) source with
                     | Some v => [(snd m, v)]
                     | None => []
                     end) mappings.

(** The pairs a dict display with defaults gives: every key, with the
    default where the source has nothing. *)
Definition defaulted (entries : list (string * (string * value)))
  (source : dict) : dict :=
  map (fun e => (fst e, Dict.get_default (fst (snd e)) (snd (snd e)) source))
      entries.

(** A line of text: no line break in it. *)
Definition one_line (s : string) : Prop := contains nl s = false.

(** A string that does not end in white space, the empty string apart. *)
Definition tail_kept (s : string) : Prop :=
  s <> EmptyString /\ rstrip_by is_space s = s.

(** ** Sample payloads *)

Module Samples.

(** The i-th day of January 2024, for i below 100. *)
Definition day (i : nat) : string :=
  "2024-01-" ++
  String (ascii_of_nat (48 + i / 10))
    (String (ascii_of_nat (48 + i mod 10)) EmptyString).

Definition indicator_payload (entries : dict) : value :=
  VDict [("metadata", VDict []); ("items", VDict entries)].

(** 22 daily readings of a single-valued indicator. *)
Definition obv_entries : dict :=
  map (fun i => (day i, VDict [("OBV", VStr "1200.0")])) (seq 1 22).

(** 22 daily readings of MACD, three components each. *)
Definition macd_entries : dict :=
  map (fun i => (day i,
                 VDict [ ("MACD", VStr "1.5");
                         ("MACD_Signal", VStr "1.0");
                         ("MACD_Hist", VStr "0.5") ]))
      (seq 1 22).

(** A Data Source that answers by the helper alone. *)
Definition by_helper (answer : ds_op -> value) : data_source :=
  fun _ c => Ok (answer (call_op c)).

Definition volume_source : data_source :=
  by_helper (fun op => match op with
                       | fetch_obv => indicator_payload obv_entries
                       | fetch_ad => VDict [("Information", VStr "limit")]
                       | _ => indicator_payload []
                       end).

Definition trend_source : data_source :=
  by_helper (fun op => match op with
                       | fetch_macd => indicator_payload macd_entries
                       | fetch_sma => VNone
                       | _ => indicator_payload []
                       end).

(** The listing of the design document: a header and one data row. *)
Definition listing_csv : string :=
  "symbol,name,exchange,asset_type,ipo_date,delisting_date,status" ++ nl ++
  "AAPL,Apple Inc,NASDAQ,Stock,1980-12-12,,Active" ++ nl.


(** An earnings calendar with a short row between two full rows, and
    carriage returns at the line ends. *)
Definition earnings_csv : string :=
  "symbol,name,reportDate,fiscalDateEnding,estimate,currency" ++
  String carriage_return nl ++
  "IBM,International Business Machines,2024-04-17,2024-03-31,1.59,USD" ++
  String carriage_return nl ++
  "BAD,row" ++ String carriage_return nl ++
  "MSFT, Microsoft Corp ,2024-04-23,2024-03-31,2.81,USD" ++
  String carriage_return nl.

(** The payload of the FX example of the design document. *)
Definition fx_payload : value :=
  VDict [ ("Realtime Currency Exchange Rate",
            VDict [ ("1. From_Currency Code", VStr "USD");
                    ("5. Exchange Rate", VStr "0.92") ]) ].

(** A decoded daily crypto payload without the currency name. *)
Definition crypto_metadata : dict :=
  [ ("1. Information", VStr "Daily Prices and Volumes");
    ("2. Digital Currency Code", VStr "BTC");
    ("4. Market Code", VStr "EUR") ].

Definition crypto_series : dict :=
  [ ("2024-01-02",
      VDict [ ("1. open", VStr "40000.0"); ("4. close", VStr "41000.0") ]);
    ("2024-01-03",
      VDict [ ("1. open", VStr "41000.0");
              ("2. high", VStr "42500.0");
              ("3. low", VStr "40500.0");
              ("4. close", VStr "42000.0");
              ("5. volume", VStr "1234.5") ]);
    ("2024-01-01", VDict [ ("1. open", VStr "39000.0") ]) ].

Definition crypto_dict : dict :=
  [ ("Meta Data", VDict crypto_metadata);
    ("Time Series (Digital Currency Daily)", VDict crypto_series) ].

Definition crypto_payload : value := VDict crypto_dict.


(** A decoded payload that only carries a note. *)
Definition note_payload : value :=
  VDict [ ("Information", VStr "API rate limit reached") ].

(** A decoder that knows two texts. *)
Definition decode (s : string) : result value :=
  if String.eqb s "quote" then Ok crypto_payload
  else if String.eqb s "note" then Ok note_payload
  else Err (ValueError "Expecting value").

(** A daily stock payload, newest day first as the upstream sends it. *)
Definition stock_payload : value :=
  VDict [ ("Meta Data",
            VDict [ ("1. Information", VStr "Daily Prices");
                    ("2. Symbol", VStr "IBM");
                    ("3. Last Refreshed", VStr "2024-01-03");
                    ("4. Output Size", VStr "Compact");
                    ("5. Time Zone", VStr "US/Eastern") ]);
          ("Time Series (Daily)",
            VDict [ ("2024-01-03",
                      VDict [ ("1. open", VStr "161.0");
                              ("2. high", VStr "163.0");
                              ("3. low", VStr "160.5");
                              ("4. close", VStr "162.5");
                              ("5. volume", VStr "4100000") ]);
                    ("2024-01-02",
                      VDict [ ("1. open", VStr "160.0");
                              ("4. close", VStr "161.2");
                              ("6. volume", VStr "3900000");
                              ("9. unknown", VStr "x") ]) ]) ].

End Samples.

(** ** Vocabulary of the further properties *)

(** The date of an item of a series. *)
Definition item_date (item : value) : string :=
  match get_field "date" item with VStr s => s | _ => EmptyString end.

(** Ascending order of strings, as Python compares them. *)
Definition ascending (l : list string) : Prop :=
  StronglySorted (fun a b => String.leb a b = true) l.

(** What a payload holds under a key, a null counting as nothing. *)
Definition non_null (o : option value) : option value :=
  match o with Some VNone => None | _ => o end.

(** The names a cleaned point of a stock series can carry. *)
Definition stock_point_keys : list string :=
  [ "open"; "high"; "low"; "close"; "adjusted_close"; "volume";
    "dividend_amount"; "split_coefficient" ].

(** The point that [get_stock_time_series] makes of an entry. *)
Definition cleaned_point (data : value) : dict :=
  match StockSeries.clean_point data with Ok point => point | Err _ => [] end.

(** The "Meta Data" of a payload can be cleaned: it is absent, or it is a
    mapping. *)
Definition metadata_cleanable (raw : dict) : bool :=
  match Dict.get "Meta Data" raw with
  | Some (VDict _) => true
  | Some _ => false
  | None => true
  end.

(** The items of a returned pack. *)
Definition result_items (out : value) : list value :=
  match get_field "items" out with VList l => l | _ => [] end.

(** The names of the presets of every pack. *)
Definition preset_names : list string := ["fast"; "standard"; "slow"].

(** ** The remaining handlers and the helpers they await *)

(** Every helper of [api_helpers] that a handler below awaits: the ones
    of the port above, and the FX, crypto, commodity, macro-economic,
    quote, search and corporate-action endpoints. *)
Inductive helper : Type :=
| core (op : ds_op)
| fetch_fx_intraday | fetch_fx_daily | fetch_fx_weekly | fetch_fx_monthly
| fetch_digital_currency_intraday
| fetch_digital_currency_weekly | fetch_digital_currency_monthly
| fetch_all_commodities
| fetch_real_gdp | fetch_real_gdp_per_capita
| fetch_treasury_yield | fetch_federal_funds_rate
| fetch_cpi | fetch_inflation
| fetch_retail_sales | fetch_durables
| fetch_unemployment | fetch_nonfarm_payrolls
| fetch_quote | fetch_realtime_bulk_quotes | search_endpoint
| fetch_earnings | company_dividends | fetch_company_splits.

Record request : Type := Request {
  request_helper : helper;
  request_args : list value;
  request_kwargs : dict
}.

(** A coroutine over the wider port. *)
Inductive task (A : Type) : Type :=
| Done (a : A)
| Raised (e : error)
| Pending (r : request) (k : value -> task A).
Arguments Done {A} a.
Arguments Raised {A} e.
Arguments Pending {A} r k.

Fixpoint task_bind {A B} (t : task A) (f : A -> task B) : task B :=
  match t with
  | Done a => f a
  | Raised e => Raised e
  | Pending r k => Pending r (fun v => task_bind (k v) f)
  end.

Definition task_lift {A} (r : result A) : task A :=
  match r with Ok a => Done a | Err e => Raised e end.

Notation "x <~ t ;; u" := (task_bind t (fun x => u))
  (at level 61, t at next level, right associativity).
Notation "'wait' r" := (Pending r Done) (at level 60).

(** The endpoints behind the helpers: a request is answered, given the
    requests already answered, with a payload or with a failure. *)
Definition endpoint : Type := list request -> request -> result value.

(** [perform ep hist t]: the requests [t] sends, in order, and the
    outcome. *)
Fixpoint perform {A} (ep : endpoint) (hist : list request) (t : task A)
  : list request * result A :=
  match t with
  | Done a => ([], Ok a)
  | Raised e => ([], Err e)
  | Pending r k =>
      match ep hist r with
      | Ok v => let '(rs, out) := perform ep (hist ++ [r]) (k v) in
                (r :: rs, out)
      | Err e => ([r], Err e)
      end
  end.

Definition requests {A} (ep : endpoint) (t : task A) : list request :=
  fst (perform ep [] t).

Definition returned {A} (ep : endpoint) (t : task A) : result A :=
  snd (perform ep [] t).

(** [await helper(name=value, ..., **params)]: a keyword that is given
    twice is a TypeError, raised before the helper is entered. *)
Definition wait_with (h : helper) (named params : dict) : task value :=
  if existsb (fun k => Dict.has k params) (Dict.keys named)
  then Raised TypeError
  else wait (Request h [] (named ++ params)).

(** [for x in v]: the elements of a list, the keys of a dict, the
    characters of a string; nothing else that travels here is iterable. *)
Definition py_iter (v : value) : result (list value) :=
  match v with
  | VList l => Ok l
  | VDict d => Ok (map VStr (Dict.keys d))
  | VStr s =>
      Ok (map (fun c => VStr (String c EmptyString)) (list_ascii_of_string s))
  | _ => Err TypeError
  end.

(** *** Commodities *)




(** *** Economic indicators *)

Definition metric (name : string) (raw_data : value) (type : string)
  : value :=
  VDict [ ("metric", VStr name); ("raw_data", raw_data); ("type", VStr type) ].

Definition get_growth_metrics (frequency : string)
  (seasonally_adjusted : bool) (params : dict) : task value :=
  gdp_data <~ wait_with fetch_real_gdp [] params ;;
  gdp_per_capita_data <~ wait_with fetch_real_gdp_per_capita [] params ;;
  Done (VDict
          [ ("frequency", VStr frequency);
            ("seasonally_adjusted", VBool seasonally_adjusted);
            ("data",
              VList [ metric "real_gdp" gdp_data "Real GDP";
                      metric "real_gdp_per_capita" gdp_per_capita_data
                        "Real GDP per capita" ]) ]).

(** The loop of [get_rates_yields] over the maturities. *)
Fixpoint treasury_yields (maturities : list string) (params : dict)
  (results : list value) : task (list value) :=
  match maturities with
  | [] => Done results
  | maturity :: rest =>
      treasury_data <~ wait_with fetch_treasury_yield
                         [("maturity", VStr maturity)] params ;;
      treasury_yields rest params
        (results ++
         [VDict [ ("metric", VStr ("treasury_yield_" ++ maturity));
                  ("raw_data", treasury_data);
                  ("type", VStr ("Treasury Yield " ++ maturity));
                  ("maturity", VStr maturity) ]])
  end.

Definition get_rates_yields (maturities : option (list string))
  (yield_basis : string) (include_target_range : bool) (frequency : string)
  (params : dict) : task value :=
  let maturities :=
    match maturities with None => ["10year"] | Some l => l end in
  results <~ (if include_target_range then
                fed_rate_data <~ wait_with fetch_federal_funds_rate []
                                   params ;;
                Done [metric "federal_funds_rate" fed_rate_data
                        "Federal Funds Rate"]
              else Done []) ;;
  results <~ treasury_yields maturities params results ;;
  Done (VDict [ ("frequency", VStr frequency);
                ("yield_basis", VStr yield_basis);
                ("maturities", VList (map VStr maturities));
                ("data", VList results) ]).

Definition get_prices_inflation (include_core annualized : bool)
  (frequency : string) (seasonally_adjusted : bool) (params : dict)
  : task value :=
  cpi_data <~ wait_with fetch_cpi [] params ;;
  inflation_data <~ wait_with fetch_inflation [] params ;;
  Done (VDict
          [ ("frequency", VStr frequency);
            ("seasonally_adjusted", VBool seasonally_adjusted);
            ("include_core", VBool include_core);
            ("annualized", VBool annualized);
            ("data",
              VList [ metric "cpi" cpi_data "Consumer Price Index";
                      metric "inflation" inflation_data
                        "Inflation Rate" ]) ]).

Definition get_labor_activity (include_demand : bool) (frequency : string)
  (seasonally_adjusted : bool) (params : dict) : task value :=
  unemployment_data <~ wait_with fetch_unemployment [] params ;;
  payrolls_data <~ wait_with fetch_nonfarm_payrolls [] params ;;
  let results :=
    [ metric "unemployment" unemployment_data "Unemployment Rate";
      metric "nonfarm_payrolls" payrolls_data "Nonfarm Payrolls" ] in
  results <~ (if include_demand then
                retail_data <~ wait_with fetch_retail_sales [] params ;;
                durables_data <~ wait_with fetch_durables [] params ;;
                Done (results ++
                      [ metric "retail_sales" retail_data "Retail Sales";
                        metric "durables" durables_data
                          "Durable Goods Orders" ])
              else Done results) ;;
  Done (VDict [ ("frequency", VStr frequency);
                ("seasonally_adjusted", VBool seasonally_adjusted);
                ("include_demand", VBool include_demand);
                ("data", VList results) ]).

(** *** Quotes and symbol search *)

Definition global_quote_fields : list (string * (string * value)) :=
  [ ("symbol", ("01. symbol", VNone));
    ("open", ("02. open", VNone));
    ("high", ("03. high", VNone));
    ("low", ("04. low", VNone));
    ("price", ("05. price", VNone));
    ("volume", ("06. volume", VNone));
    ("latest_trading_day", ("07. latest trading day", VNone));
    ("previous_close", ("08. previous close", VNone));
    ("change", ("09. change", VNone));
    ("change_percent", ("10. change percent", VNone)) ].

Definition get_current_stock_quote (symbol : string) : task value :=
  raw_data <~ wait (Request fetch_quote []
                      [("symbol", VStr symbol); ("datatype", VStr "json")]) ;;
  task_lift
    (rbind (py_contains "Global Quote" raw_data) (fun present =>
       if present then
         rbind (py_getitem "Global Quote" raw_data) (fun global_quote =>
           rbind (build_with_defaults global_quote global_quote_fields)
             (fun clean_quote => Ok (VDict [("quote", VDict clean_quote)])))
       else Ok raw_data)).

Definition match_fields : list (string * (string * value)) :=
  [ ("symbol", ("1. symbol", VNone));
    ("name", ("2. name", VNone));
    ("type", ("3. type", VNone));
    ("region", ("4. region", VNone));
    ("market_open", ("5. marketOpen", VNone));
    ("market_close", ("6. marketClose", VNone));
    ("timezone", ("7. timezone", VNone));
    ("currency", ("8. currency", VNone));
    ("match_score", ("9. matchScore", VNone)) ].

(** The loop of [lookup_stock_symbol] over the matches. *)
Fixpoint clean_matches (matches cleaned_matches : list value)
  : result (list value) :=
  match matches with
  | [] => Ok cleaned_matches
  | match_ :: rest =>
      rbind (build_with_defaults match_ match_fields) (fun cleaned_match =>
        clean_matches rest
          (cleaned_matches ++ [VDict (drop_none cleaned_match)]))
  end.

Definition get_len (l : list value) : value :=
  VInt (Z.of_nat (List.length l)).

Definition lookup_stock_symbol (keywords : string) : task value :=
  raw_data <~ wait (Request search_endpoint []
                      [ ("keywords", VStr keywords);
                        ("datatype", VStr "json") ]) ;;
  match raw_data with
  | VDict raw =>
      if Dict.has "bestMatches" raw then
        task_lift
          (rbind (py_iter (Dict.get_or_none "bestMatches" raw))
             (fun matches =>
                rbind (clean_matches matches []) (fun cleaned_matches =>
                  Ok (VDict [ ("keywords", VStr keywords);
                              ("total_matches", get_len cleaned_matches);
                              ("matches", VList cleaned_matches) ]))))
      else Done raw_data
  | _ => Done raw_data
  end.

Section BulkQuotes.

(** [str(x)], Python's builtin, for an object that is not a string. *)
Variable py_str : value -> string.

Definition csv_format_info : string :=
  "CSV format uses comma separators, newline (\n) for row separation".

Definition bulk_result (symbols : list string) (headers body : string)
  : value :=
  VDict [ ("symbols_requested", VList (map VStr symbols));
          ("total_symbols", VInt (Z.of_nat (List.length symbols)));
          ("data_format", VStr "csv");
          ("csv_format_info", VStr csv_format_info);
          ("csv_headers", VStr headers);
          ("csv_body", VStr body) ].

Definition fetch_bulk_quotes (symbols : list string) : task value :=
  csv_data <~ wait (Request fetch_realtime_bulk_quotes []
                      [ ("symbols", VList (map VStr symbols));
                        ("datatype", VStr "csv");
                        ("entitlement", VStr "delayed") ]) ;;
  match csv_data with
  | VStr s =>
      let lines := split newline (strip s) in
      match lines with
      | [] => Done (bulk_result symbols EmptyString s)
      | headers :: _ =>
          let body :=
            if Nat.ltb 1 (List.length lines)
            then join nl (tl lines) else EmptyString in
          Done (bulk_result symbols headers body)
      end
  | _ => Done (bulk_result symbols EmptyString (py_str csv_data))
  end.

End BulkQuotes.

(** *** Corporate actions *)

Definition dividend_fields : list (string * (string * value)) :=
  [ ("ex_dividend_date", ("ex_dividend_date", VNone));
    ("dividend_amount", ("amount", VNone));
    ("record_date", ("record_date", VNone));
    ("payment_date", ("payment_date", VNone));
    ("declaration_date", ("declaration_date", VNone)) ].

Definition split_fields : list (string * (string * value)) :=
  [ ("date", ("effective_date", VNone));
    ("split_coefficient", ("split_factor", VNone)) ].

(** The two loops of [get_corporate_actions]. *)
Fixpoint format_each (fields : list (string * (string * value)))
  (items formatted : list value) : result (list value) :=
  match items with
  | [] => Ok formatted
  | item :: rest =>
      rbind (build_with_defaults item fields) (fun entry =>
        format_each fields rest (formatted ++ [VDict entry]))
  end.

Definition get_corporate_actions (symbol : string) : task value :=
  dividends_response <~ wait (Request company_dividends [VStr symbol] []) ;;
  splits_response <~ wait (Request fetch_company_splits [VStr symbol] []) ;;
  task_lift
    (rbind (value_get_default "data" (VList []) dividends_response)
       (fun dividends_data =>
    rbind (value_get_default "data" (VList []) splits_response)
       (fun splits_data =>
    rbind (py_iter dividends_data) (fun dividends =>
    rbind (format_each dividend_fields dividends [])
       (fun formatted_dividends =>
    rbind (py_iter splits_data) (fun splits =>
    rbind (format_each split_fields splits []) (fun formatted_splits =>
      Ok (VDict [ ("symbol", VStr symbol);
                  ("dividends", VList formatted_dividends);
                  ("splits", VList formatted_splits) ])))))))).

(** ** FX and crypto time series *)

(** [for old_key, new_key in mappings.items(): if old_key in metadata and
    metadata[old_key] is not None: normalized[new_key] =
    metadata[old_key]]. *)
Fixpoint rename_non_null (mappings : list (string * string))
  (metadata : value) (normalized_metadata : dict) : result dict :=
  match mappings with
  | [] => Ok normalized_metadata
  | (old_key, new_key) :: rest =>
      rbind (py_contains old_key metadata) (fun present =>
        if present then
          rbind (py_getitem old_key metadata) (fun v =>
            if is_none v then
              rename_non_null rest metadata normalized_metadata
            else
              rename_non_null rest metadata
                (Dict.set new_key v normalized_metadata))
        else rename_non_null rest metadata normalized_metadata)
  end.

(** [for old_key, new_key in mappings.items(): if old_key in values:
    normalized_values[new_key] = convert(values[old_key])], on a dict. *)
Fixpoint rename_fields (convert : value -> value)
  (mappings : list (string * string)) (values normalized_values : dict)
  : dict :=
  match mappings with
  | [] => normalized_values
  | (old_key, new_key) :: rest =>
      match Dict.get old_key values with
      | Some v =>
          rename_fields convert rest values
            (Dict.set new_key (convert v) normalized_values)
      | None => rename_fields convert rest values normalized_values
      end
  end.

(** The loop over the entries of a series: an entry that is a dict is
    renamed, any other is kept as it is. *)
Fixpoint normalize_entries (rename : dict -> dict) (entries : dict)
  (normalized_time_series : dict) : dict :=
  match entries with
  | [] => normalized_time_series
  | (date, values) :: rest =>
      normalize_entries rename rest
        (Dict.set date
           (match values with
            | VDict v => VDict (rename v)
            | _ => values
            end)
           normalized_time_series)
  end.

Section Series.

(** [json.loads] and [str], of Python's standard library, and what
    [dict.update] does with an argument that is not a dict. *)
Variable json_loads : string -> result value.
Variable py_str : value -> string.
Variable update_from : dict -> value -> result dict.

(** [item = {"date": date}; item.update(values)]. *)
Definition dated (date : string) (values : value) : result dict :=
  match values with
  | VDict v => Ok (Dict.update v [("date", VStr date)])
  | _ => update_from [("date", VStr date)] values
  end.

(** The loop that fills [items_array]. *)
Fixpoint dated_items (entries : dict) (items_array : list value)
  : result (list value) :=
  match entries with
  | [] => Ok items_array
  | (date, values) :: rest =>
      rbind (dated date values) (fun item =>
        dated_items rest (items_array ++ [VDict item]))
  end.

(** The part of both normalizers that handles the series. *)
Definition series_items (is_series_key : string -> bool)
  (rename : dict -> dict) (data normalized : dict) : result value :=
  match find_key is_series_key data with
  | Some time_series_key =>
      rbind (value_items (Dict.get_or_none time_series_key data))
        (fun time_series_data =>
           let normalized_time_series :=
             normalize_entries rename time_series_data [] in
           rbind (dated_items (Sorting.sorted_items normalized_time_series) [])
             (fun items_array =>
                Ok (VDict (Dict.set "items" (VList items_array) normalized))))
  | None => Ok (VDict normalized)
  end.

Definition fx_metadata_key_mappings : list (string * string) :=
  [ ("1. Information", "information");
    ("2. From Symbol", "from_symbol");
    ("3. To Symbol", "to_symbol");
    ("4. Output Size", "output_size");
    ("5. Last Refreshed", "last_refreshed");
    ("6. Time Zone", "time_zone");
    ("7. Interval", "interval") ].

Definition fx_value_key_mappings : list (string * string) :=
  [ ("1. open", "open"); ("2. high", "high");
    ("3. low", "low"); ("4. close", "close") ].

Definition normalize_fx_series_keys (data : value) : result value :=
  match data with
  | VDict d =>
      rbind
        (match Dict.get "Meta Data" d with
         | Some metadata =>
             rbind (rename_non_null fx_metadata_key_mappings metadata [])
               (fun normalized_metadata =>
                  Ok (Dict.set "metadata" (VDict normalized_metadata) []))
         | None => Ok []
         end)
        (series_items (String.prefix "Time Series")
           (fun values =>
              rename_fields (fun v => v) fx_value_key_mappings values [])
           d)
  | _ => Ok data
  end.

Definition get_fx_time_series (from_symbol to_symbol interval : string)
  (params : dict) : task value :=
  raw_data <~ (if str_in interval intraday_intervals then
                 wait (Request fetch_fx_intraday
                         [VStr from_symbol; VStr to_symbol; VStr interval]
                         params)
               else if String.eqb interval "daily" then
                 wait (Request fetch_fx_daily
                         [VStr from_symbol; VStr to_symbol] params)
               else if String.eqb interval "weekly" then
                 wait (Request fetch_fx_weekly
                         [VStr from_symbol; VStr to_symbol] params)
               else if String.eqb interval "monthly" then
                 wait (Request fetch_fx_monthly
                         [VStr from_symbol; VStr to_symbol] params)
               else
                 Raised (ValueError ("Unsupported interval: " ++ interval))) ;;
  task_lift (normalize_fx_series_keys raw_data).

Definition crypto_metadata_key_mappings : list (string * string) :=
  [ ("1. Information", "information");
    ("2. Digital Currency Code", "symbol");
    ("3. Digital Currency Name", "name");
    ("4. Market Code", "market");
    ("5. Market Name", "market_name");
    ("6. Last Refreshed", "last_refreshed");
    ("7. Interval", "interval");
    ("8. Output Size", "output_size");
    ("9. Time Zone", "time_zone") ].

Definition crypto_value_key_mappings : list (string * string) :=
  [ ("1. open", "open"); ("2. high", "high"); ("3. low", "low");
    ("4. close", "close"); ("5. volume", "volume") ].

(** [normalize_crypto_series] once the text, if any, is decoded. *)
Definition normalize_crypto_decoded (data : value) : result value :=
  rbind (py_contains "Meta Data" data) (fun present =>
    rbind
      (if present then
         rbind (py_getitem "Meta Data" data) (fun metadata =>
           rbind (rename_non_null crypto_metadata_key_mappings metadata [])
             (fun normalized_metadata =>
                Ok (Dict.set "metadata" (VDict normalized_metadata) [])))
       else Ok [])
      (fun normalized =>
         match data with
         | VDict d =>
             series_items (contains "Time Series")
               (fun values =>
                  rename_fields (fun v => VStr (py_str v))
                    crypto_value_key_mappings values [])
               d normalized
         | _ => Err AttributeError
         end)).

Definition normalize_crypto_series (data : value) (is_from_string : bool)
  : result value :=
  if is_from_string then
    match data with
    | VStr s => rbind (json_loads s) normalize_crypto_decoded
    | _ => Err TypeError
    end
  else normalize_crypto_decoded data.

Definition get_crypto_time_series (symbol market interval : string)
  (params : dict) : task value :=
  if str_in interval intraday_intervals then
    raw_data <~ wait (Request fetch_digital_currency_intraday
                        [VStr symbol; VStr market; VStr interval] params) ;;
    task_lift (normalize_crypto_series raw_data false)
  else if String.eqb interval "daily" then
    raw_data <~ wait (Request (core fetch_digital_currency_daily)
                        [VStr symbol; VStr market] []) ;;
    task_lift (normalize_crypto_series raw_data true)
  else if String.eqb interval "weekly" then
    raw_data <~ wait (Request fetch_digital_currency_weekly
                        [VStr symbol; VStr market] []) ;;
    task_lift (normalize_crypto_series raw_data true)
  else if String.eqb interval "monthly" then
    raw_data <~ wait (Request fetch_digital_currency_monthly
                        [VStr symbol; VStr market] []) ;;
    task_lift (normalize_crypto_series raw_data true)
  else
    Raised (ValueError ("Unsupported interval: " ++ interval)).

End Series.

(** ** Earnings *)

Module Earnings.

Definition is_upper_az (c : ascii) : bool :=
  ((65 <=? code c) && (code c <=? 90))%nat.

Definition is_lower_az (c : ascii) : bool :=
  ((97 <=? code c) && (code c <=? 122))%nat.

Definition is_digit (c : ascii) : bool :=
  ((48 <=? code c) && (code c <=? 57))%nat.

Definition underscore : ascii := "_"%char.

(** [re.sub("(.)([A-Z][a-z]+)", r"\1_\2", name)], read from left to
    right: a match is any character but a line break, a capital and the
    longest run of small letters after it; the search goes on behind the
    match.  [in_run] says that the characters read are still part of the
    run of small letters of the last match. *)
Fixpoint split_words (in_run : bool) (name : string) : string :=
  match name with
  | EmptyString => EmptyString
  | String c rest =>
      if in_run && is_lower_az c then String c (split_words true rest)
      else
        match rest with
        | String u (String l rest') =>
            if negb (Ascii.eqb c newline) && is_upper_az u && is_lower_az l
            then String c (String underscore
                             (String u (String l (split_words true rest'))))
            else String c (split_words false rest)
        | _ => String c (split_words false rest)
        end
  end.

(** [re.sub("([a-z0-9])([A-Z])", r"\1_\2", s1)]. *)
Fixpoint split_humps (s1 : string) : string :=
  match s1 with
  | EmptyString => EmptyString
  | String c rest =>
      match rest with
      | String u rest' =>
          if (is_lower_az c || is_digit c) && is_upper_az u
          then String c (String underscore (String u (split_humps rest')))
          else String c (split_humps rest)
      | EmptyString => String c EmptyString
      end
  end.

Definition camel_to_snake (name : string) : string :=
  lower (split_humps (split_words false name)).

(** *** [datetime.strptime(fiscal_date, "%Y-%m-%d")]

    The format is matched as the regular expression
    [(\d\d\d\d)-(1[0-2]|0[1-9]|[1-9])-(3[01]|[12]\d|0[1-9]|[1-9]| [1-9])];
    the whole text must be used up, and the three numbers must be a date
    of the calendar. *)

Definition digit (c : ascii) : option nat :=
  if is_digit c then Some (code c - 48) else None.

Definition digit_in (lo hi : nat) (c : ascii) : option nat :=
  match digit c with
  | Some n => if ((lo <=? n) && (n <=? hi))%nat then Some n else None
  | None => None
  end.

Definition dash : ascii := "-"%char.

(** [%Y-]: four digits and the dash. *)
Definition scan_year (s : string) : option (nat * string) :=
  match s with
  | String a (String b (String c (String d (String sep rest)))) =>
      match digit a, digit b, digit c, digit d with
      | Some a, Some b, Some c, Some d =>
          if Ascii.eqb sep dash
          then Some (1000 * a + 100 * b + 10 * c + d, rest)
          else None
      | _, _, _, _ => None
      end
  | _ => None
  end.

(** [%m-]: the alternatives in turn, each followed by the dash. *)
Definition scan_month (s : string) : option (nat * string) :=
  let two :=
    match s with
    | String a (String b (String sep rest)) =>
        if Ascii.eqb sep dash then
          match digit_in 1 1 a, digit_in 0 2 b with
          | Some _, Some n => Some (10 + n, rest)
          | _, _ =>
              match digit_in 0 0 a, digit_in 1 9 b with
              | Some _, Some n => Some (n, rest)
              | _, _ => None
              end
          end
        else None
    | _ => None
    end in
  match two with
  | Some found => Some found
  | None =>
      match s with
      | String a (String sep rest) =>
          if Ascii.eqb sep dash then
            match digit_in 1 9 a with
            | Some n => Some (n, rest)
            | None => None
            end
          else None
      | _ => None
      end
  end.

(** [%d]: the first alternative that matches, and what is left. *)
Definition scan_day (s : string) : option (nat * string) :=
  let two (lo hi lo' hi' : nat) :=
    match s with
    | String a (String b rest) =>
        match digit_in lo hi a, digit_in lo' hi' b with
        | Some m, Some n => Some (10 * m + n, rest)
        | _, _ => None
        end
    | _ => None
    end in
  match two 3 3 0 1 with
  | Some found => Some found
  | None =>
      match two 1 2 0 9 with
      | Some found => Some found
      | None =>
          match two 0 0 1 9 with
          | Some found => Some found
          | None =>
              match s with
              | String a rest =>
                  match digit_in 1 9 a with
                  | Some n => Some (n, rest)
                  | None =>
                      if Ascii.eqb a " "%char then
                        match rest with
                        | String b rest' =>
                            match digit_in 1 9 b with
                            | Some n => Some (n, rest')
                            | None => None
                            end
                        | EmptyString => None
                        end
                      else None
                  end
              | EmptyString => None
              end
          end
      end
  end.

Definition is_leap (year : nat) : bool :=
  ((year mod 4 =? 0) && (negb (year mod 100 =? 0) || (year mod 400 =? 0)))%nat.

Definition days_in_month (year month : nat) : nat :=
  match month with
  | 2 => if is_leap year then 29 else 28
  | 4 | 6 | 9 | 11 => 30
  | _ => 31
  end.

(** The year and the month of the date, when the text is one. *)
Definition strptime (fiscal_date : string) : option (nat * nat) :=
  match scan_year fiscal_date with
  | Some (year, s) =>
      match scan_month s with
      | Some (month, s) =>
          match scan_day s with
          | Some (day, EmptyString) =>
              if ((1 <=? year) && (day <=? days_in_month year month))%nat
              then Some (year, month)
              else None
          | _ => None
          end
      | None => None
      end
  | None => None
  end.

Definition quarter_num (month : nat) : string :=
  if (month <=? 3)%nat then "Q1"
  else if (month <=? 6)%nat then "Q2"
  else if (month <=? 9)%nat then "Q3"
  else "Q4".

(** [f"{year}"]. *)
Definition str_of_nat (n : nat) : string :=
  NilZero.string_of_uint (Nat.to_uint n).

(** Whatever [strptime] raises, also for an argument that is no string,
    is caught. *)
Definition fiscal_date_to_quarter (fiscal_date : value) : string :=
  match fiscal_date with
  | VStr s =>
      match strptime s with
      | Some (year, month) => str_of_nat year ++ "-" ++ quarter_num month
      | None => "Unknown"
      end
  | _ => "Unknown"
  end.

(** [for key, value in item.items(): transformed_item[camel_to_snake(key)]
    = value]. *)
Definition snake_keys (item : dict) : dict :=
  fold_left (fun transformed_item kv =>
               Dict.set (camel_to_snake (fst kv)) (snd kv) transformed_item)
            item [].

Definition transform_item (with_quarter : bool) (item : value)
  : result value :=
  rbind (value_items item) (fun fields =>
    let transformed_item := snake_keys fields in
    if with_quarter && Dict.has "fiscalDateEnding" fields then
      Ok (VDict (Dict.set "quarter"
                   (VStr (fiscal_date_to_quarter
                            (Dict.get_or_none "fiscalDateEnding" fields)))
                   transformed_item))
    else Ok (VDict transformed_item)).

(** The loops over the annual and the quarterly earnings. *)
Fixpoint transform_items (with_quarter : bool) (items earnings : list value)
  : result (list value) :=
  match items with
  | [] => Ok earnings
  | item :: rest =>
      rbind (transform_item with_quarter item) (fun transformed_item =>
        transform_items with_quarter rest (earnings ++ [transformed_item]))
  end.

(** [transformed_data[new_key] = [...]] for the list under [old_key],
    when the payload has it. *)
Definition transform_list (with_quarter : bool) (old_key new_key : string)
  (earnings_data transformed_data : dict) : result dict :=
  if Dict.has old_key earnings_data then
    rbind (py_iter (Dict.get_or_none old_key earnings_data)) (fun items =>
      rbind (transform_items with_quarter items []) (fun earnings =>
        Ok (Dict.set new_key (VList earnings) transformed_data)))
  else Ok transformed_data.

(** [q.get("quarter") == quarter]. *)
Definition in_quarter (quarter : string) (q : value) : result bool :=
  rbind (value_get_default "quarter" VNone q) (fun v =>
    Ok (match v with VStr s => String.eqb s quarter | _ => false end)).

(** [[q for q in quarterly_earnings if q.get("quarter") == quarter]]. *)
Fixpoint keep_quarter (quarter : string) (quarterly_earnings : list value)
  : result (list value) :=
  match quarterly_earnings with
  | [] => Ok []
  | q :: rest =>
      rbind (in_quarter quarter q) (fun keep =>
        rbind (keep_quarter quarter rest) (fun kept =>
          Ok (if keep then q :: kept else kept)))
  end.

Definition filter_quarter (quarter : option string) (transformed_data : dict)
  : result dict :=
  match quarter with
  | Some q =>
      if negb (String.eqb q EmptyString)
         && Dict.has "quarterly_earnings" transformed_data then
        rbind (py_iter (Dict.get_or_none "quarterly_earnings"
                          transformed_data)) (fun quarterly_earnings =>
          rbind (keep_quarter q quarterly_earnings) (fun filtered_quarterly =>
            Ok (Dict.set "quarterly_earnings" (VList filtered_quarterly)
                  transformed_data)))
      else Ok transformed_data
  | None => Ok transformed_data
  end.

Definition transform (quarter : option string) (earnings_data : value)
  : result value :=
  match earnings_data with
  | VDict data =>
      let transformed_data :=
        [("symbol", Dict.get_default "symbol" (VStr EmptyString) data)] in
      rbind (transform_list false "annualEarnings" "annual_earnings"
               data transformed_data) (fun transformed_data =>
        rbind (transform_list true "quarterlyEarnings" "quarterly_earnings"
                 data transformed_data) (fun transformed_data =>
          rbind (filter_quarter quarter transformed_data)
            (fun transformed_data => Ok (VDict transformed_data))))
  | _ => Err AttributeError
  end.

End Earnings.

Definition get_earning_data (symbol : string) (quarter : option string)
  : task value :=
  earnings_data <~ wait (Request fetch_earnings [VStr symbol] []) ;;
  task_lift (Earnings.transform quarter earnings_data).

(** ** Vocabulary of the properties of the remaining handlers *)

(** The endpoints answer the requests [rs], sent in this order after
    [hist], with the payloads [vs]. *)
Fixpoint replies (ep : endpoint) (hist rs : list request) (vs : list value)
  : Prop :=
  match rs, vs with
  | [], [] => True
  | r :: rs', v :: vs' => ep hist r = Ok v /\ replies ep (hist ++ [r]) rs' vs'
  | _, _ => False
  end.

(** The "data" of a returned bundle. *)
Definition data_of (r : result value) : result value :=
  rbind r (fun out => Ok (get_field "data" out)).

(** [item.get(k, default)] where [item] is a mapping. *)
Definition field_or (k : string) (default item : value) : value :=
  match item with VDict d => Dict.get_default k default d | _ => default end.

(** The request of one treasury yield and the entry made of its answer. *)
Definition yield_request (params : dict) (maturity : string) : request :=
  Request fetch_treasury_yield [] (("maturity", VStr maturity) :: params).

Definition yield_entry (answered : string * value) : value :=
  VDict [ ("metric", VStr ("treasury_yield_" ++ fst answered));
          ("raw_data", snd answered);
          ("type", VStr ("Treasury Yield " ++ fst answered));
          ("maturity", VStr (fst answered)) ].

(** The maturities in force: the default is the ten-year yield. *)
Definition maturities_in_force (maturities : option (list string))
  : list string :=
  match maturities with None => ["10year"] | Some l => l end.


(** A dict display whose entries are read off a mapping with [.get]. *)
Definition display (fields : list (string * (string * value)))
  (item : value) : value :=
  VDict (map (fun f => (fst f, field_or (fst (snd f)) (snd (snd f)) item))
             fields).

Definition all_dicts (l : list value) : Prop :=
  Forall (fun v => is_dict v = true) l.

(** A dict without its null entries. *)
Definition without_nulls (v : value) : value :=
  match v with VDict d => VDict (drop_none d) | _ => v end.



(** The metadata that the series normalizers make of a "Meta Data"
    mapping: the renamed fields that are not null. *)
Definition normalized_metadata_of (mappings : list (string * string))
  (metadata : dict) : dict :=
  drop_none (renamed mappings metadata).


(** A name without its underscores. *)
Fixpoint without_underscores (s : string) : string :=
  match s with
  | EmptyString => EmptyString
  | String c s' =>
      if Ascii.eqb c Earnings.underscore then without_underscores s'
      else String c (without_underscores s')
  end.

(** A date written as YYYY-MM-DD. *)
Definition digit_char (n : nat) : ascii := ascii_of_nat (48 + n).

Definition two_digits (n : nat) : string :=
  String (digit_char (n / 10)) (String (digit_char (n mod 10)) EmptyString).

Definition four_digits (n : nat) : string :=
  (two_digits (n / 100) ++ two_digits (n mod 100))%string.

Definition iso_date (year month day : nat) : string :=
  (four_digits year ++ "-" ++ two_digits month ++ "-" ++ two_digits day)%string.

(** A day of the calendar, in a year of at most four digits. *)
Definition calendar_day (year month day : nat) : Prop :=
  (1 <= year /\ year / 1000 <= 9 /\ 1 <= month <= 12 /\
   1 <= day <= Earnings.days_in_month year month)%nat.


(** The records of a returned list in the quarter [quarter]. *)
Definition of_quarter (quarter : string) (items : list value) : list value :=
  filter (fun item => match get_field "quarter" item with
                      | VStr s => String.eqb s quarter
                      | _ => false
                      end) items.


(** ** More sample payloads *)

Module MoreSamples.

(** A daily series, newest day first, the older day with a volume under
    the key of the adjusted payloads and a null dividend. *)
Definition stock_series : dict :=
  [ ("2024-01-03",
      VDict [ ("1. open", VStr "161.0");
              ("2. high", VStr "163.0");
              ("3. low", VStr "160.5");
              ("4. close", VStr "162.5");
              ("5. volume", VStr "4100000") ]);
    ("2024-01-02",
      VDict [ ("1. open", VStr "160.0");
              ("4. close", VStr "161.2");
              ("6. volume", VStr "3900000");
              ("7. dividend amount", VNone);
              ("9. unknown", VStr "x") ]) ].

Definition stock_raw : dict :=
  [ ("Meta Data",
      VDict [ ("1. Information", VStr "Daily Prices");
              ("2. Symbol", VStr "IBM");
              ("3. Last Refreshed", VStr "2024-01-03") ]);
    ("Time Series (Daily)", VDict stock_series) ].

(** Endpoints that answer by the helper alone. *)
Definition endpoint_of (answer : helper -> value) : endpoint :=
  fun _ r => Ok (answer (request_helper r)).



(** A search payload with two matches, the second without any field. *)
Definition search_matches : list value :=
  [ VDict [ ("1. symbol", VStr "TSCO.LON");
            ("2. name", VNone);
            ("9. matchScore", VStr "0.7273") ];
    VDict [] ].

Definition search_payload : dict := [("bestMatches", VList search_matches)].

(** A bulk-quote text of two rows, with a final line break. *)
Definition bulk_csv : string :=
  "symbol,close" ++ nl ++ "IBM,1.5" ++ nl ++ "MSFT,2.5" ++ nl.

(** An earnings payload with two quarters. *)
Definition earnings : dict :=
  [ ("symbol", VStr "IBM");
    ("quarterlyEarnings",
      VList [ VDict [("fiscalDateEnding", VStr "2024-09-30")];
              VDict [("fiscalDateEnding", VStr "2024-06-30")] ]) ].

End MoreSamples.

(** * Properties *)

(** ** Strings and dictionaries *)

(** Case analysis on the test of the conditional at the head of the goal. *)
Ltac case_test :=
  match goal with
  | |- context [if ?t then _ else _] => destruct t
  end.

Lemma str_in_In (s : string) (l : list string) :
  str_in s l = true <-> In s l.
Proof.
  unfold str_in. rewrite existsb_exists. split.
  - intros [x [Hx He]]. apply String.eqb_eq in He. now subst.
  - intros H. exists s. split; [assumption | apply String.eqb_refl].
Qed.

Lemma str_in_not_In (s : string) (l : list string) :
  str_in s l = false <-> ~ In s l.
Proof.
  rewrite <- str_in_In. destruct (str_in s l); split; intros H;
    try reflexivity; try discriminate; try (intros H'; discriminate).
  exfalso. now apply H.
Qed.

Lemma get_set_same {A} (k : string) (v : A) (d : list (string * A)) :
  Dict.get k (Dict.set k v d) = Some v.
Proof.
  induction d as [| [k' v'] d IH]; simpl.
  - now rewrite String.eqb_refl.
  - destruct (String.eqb k k') eqn:E; simpl; rewrite E;
      [reflexivity | exact IH].
Qed.

Lemma get_set_other {A} (k k' : string) (v : A) (d : list (string * A)) :
  k <> k' -> Dict.get k (Dict.set k' v d) = Dict.get k d.
Proof.
  intros Hne. induction d as [| [k0 v0] d IH]; simpl.
  - destruct (String.eqb_spec k k'); [contradiction | reflexivity].
  - destruct (String.eqb k' k0) eqn:E'; simpl.
    + apply String.eqb_eq in E'. subst k0.
      destruct (String.eqb_spec k k'); [contradiction | reflexivity].
    + destruct (String.eqb k k0); [reflexivity | exact IH].
Qed.

Lemma keys_set {A} (k : string) (v : A) (d : list (string * A)) :
  Dict.keys (Dict.set k v d) =
  if Dict.has k d then Dict.keys d else Dict.keys d ++ [k].
Proof.
  unfold Dict.has. induction d as [| [k' v'] d IH]; simpl.
  - reflexivity.
  - destruct (String.eqb k k') eqn:E; simpl.
    + reflexivity.
    + rewrite IH. now destruct (Dict.get k d).
Qed.

Lemma has_In_keys {A} (k : string) (d : list (string * A)) :
  Dict.has k d = true <-> In k (Dict.keys d).
Proof.
  unfold Dict.has. induction d as [| [k' v'] d IH]; simpl.
  - split; [discriminate | contradiction].
  - destruct (String.eqb k k') eqn:E.
    + apply String.eqb_eq in E. subst. split; auto.
    + rewrite IH. apply String.eqb_neq in E.
      split; [auto | intros [H | H]; congruence].
Qed.

(** ** The coroutine monad *)

Lemma bind_await {A} (c : ds_call) (f : value -> prog A) :
  (x <- await c ;; f x) = Await c f.
Proof. reflexivity. Qed.

(** A coroutine that raises at once issues no call, whatever the Data
    Source is. *)
Lemma raise_no_call {A} (ds : data_source) (e : error) :
  calls ds (@Raise A e) = [] /\ outcome ds (@Raise A e) = Err e.
Proof. split; reflexivity. Qed.

(** ** C1: the time-series router *)

Lemma function_map_unsupported (interval : string) (adjusted : bool) :
  ~ In interval ["daily"; "weekly"; "monthly"] ->
  function_map_get (interval, adjusted) function_map = None.
Proof.
  intros H. simpl.
  destruct (String.eqb interval "daily") eqn:Ed;
    [apply String.eqb_eq in Ed; subst; exfalso; apply H; simpl; auto |].
  destruct (String.eqb interval "weekly") eqn:Ew;
    [apply String.eqb_eq in Ew; subst; exfalso; apply H; simpl; auto |].
  destruct (String.eqb interval "monthly") eqn:Em;
    [apply String.eqb_eq in Em; subst; exfalso; apply H; simpl; auto |].
  reflexivity.
Qed.

Lemma fetch_time_series_unsupported
  (symbol interval : string) (adjusted : bool) (outputsize : string)
  (month : option string) (extended_hours : bool) :
  ~ In interval (intraday_intervals ++ ["daily"; "weekly"; "monthly"]) ->
  fetch_time_series symbol interval adjusted outputsize month extended_hours
  = Raise (ValueError ("Unsupported interval: " ++ interval)).
Proof.
  intros H. unfold fetch_time_series.
  assert (H1 : str_in interval intraday_intervals = false).
  { apply str_in_not_In. intros Hin. apply H. apply in_or_app. now left. }
  rewrite H1, function_map_unsupported; [reflexivity |].
  intros Hin. apply H. apply in_or_app. now right.
Qed.

(** C1. The unified time-series router: an intraday tag selects the intraday
    operation whatever the adjusted flag is; each of the six pairs over
    daily, weekly, monthly and the flag selects its own operation (daily
    forwards the output size, weekly and monthly do not); any other
    interval raises ValueError without a call.  [get_stock_time_series]
    routes through [fetch_time_series] and then only cleans the payload. *)
Theorem fetch_time_series_routing :
  forall (symbol interval : string) (adjusted : bool) (outputsize : string)
         (month : option string) (extended_hours : bool),
    let routed := fetch_time_series symbol interval adjusted outputsize
                    month extended_hours in
    let cleaned := get_stock_time_series symbol interval adjusted outputsize
                     month extended_hours in
    let then_clean c :=
      Await c (fun raw => lift (StockSeries.clean interval raw)) in
    (In interval intraday_intervals ->
     let c := Call fetch_intraday []
                [ ("symbol", VStr symbol); ("interval", VStr interval);
                  ("datatype", VStr "json"); ("adjusted", VBool adjusted);
                  ("extended_hours", VBool extended_hours);
                  ("outputsize", VStr outputsize);
                  ("month", opt_str month) ] in
     routed = await c /\ cleaned = then_clean c) /\
    (interval = "daily" ->
     let c := Call (if adjusted then fetch_time_series_daily_adjusted
                    else fetch_time_series_daily) []
                [ ("symbol", VStr symbol); ("datatype", VStr "json");
                  ("outputsize", VStr outputsize) ] in
     routed = await c /\ cleaned = then_clean c) /\
    (interval = "weekly" ->
     let c := Call (if adjusted then fetch_time_series_weekly_adjusted
                    else fetch_time_series_weekly) []
                [ ("symbol", VStr symbol); ("datatype", VStr "json") ] in
     routed = await c /\ cleaned = then_clean c) /\
    (interval = "monthly" ->
     let c := Call (if adjusted then fetch_time_series_monthly_adjusted
                    else fetch_time_series_monthly) []
                [ ("symbol", VStr symbol); ("datatype", VStr "json") ] in
     routed = await c /\ cleaned = then_clean c) /\
    (~ In interval (intraday_intervals ++ ["daily"; "weekly"; "monthly"]) ->
     let e := ValueError ("Unsupported interval: " ++ interval) in
     routed = Raise e /\ cleaned = Raise e /\
     forall ds, calls ds routed = [] /\ calls ds cleaned = []).
Proof.
  intros symbol interval adjusted outputsize month extended_hours.
  cbv zeta. unfold get_stock_time_series.
  split; [| split; [| split; [| split]]].
  - intros H. apply str_in_In in H.
    unfold fetch_time_series. rewrite H. now split.
  - intros ->. now destruct adjusted.
  - intros ->. now destruct adjusted.
  - intros ->. now destruct adjusted.
  - intros H.
    rewrite (fetch_time_series_unsupported symbol interval adjusted
               outputsize month extended_hours H).
    repeat split.
Qed.

Lemma fetch_time_series_routing_witness :
  fetch_time_series "IBM" "5min" true "compact" None true
  = await (Call fetch_intraday []
             [ ("symbol", VStr "IBM"); ("interval", VStr "5min");
               ("datatype", VStr "json"); ("adjusted", VBool true);
               ("extended_hours", VBool true);
               ("outputsize", VStr "compact"); ("month", VNone) ]) /\
  fetch_time_series "IBM" "weekly" true "compact" None true
  = await (Call fetch_time_series_weekly_adjusted []
             [ ("symbol", VStr "IBM"); ("datatype", VStr "json") ]) /\
  get_stock_time_series "IBM" "hourly" false "compact" None true
  = Raise (ValueError "Unsupported interval: hourly").
Proof.
  split; [| split].
  - destruct (fetch_time_series_routing "IBM" "5min" true "compact" None true)
      as (H & _).
    apply H. simpl. auto.
  - destruct (fetch_time_series_routing "IBM" "weekly" true "compact" None
                true) as (_ & _ & H & _).
    apply H. reflexivity.
  - destruct (fetch_time_series_routing "IBM" "hourly" false "compact" None
                true) as (_ & _ & _ & _ & H).
    apply H. simpl. intros F.
    repeat (destruct F as [F | F]; [discriminate F |]). exact F.
Defined.

(** The router is case-sensitive: "Daily" is not "daily". *)
Example fetch_time_series_case_sensitive :
  fetch_time_series "IBM" "Daily" false "compact" None true
  = Raise (ValueError "Unsupported interval: Daily").
Proof. reflexivity. Qed.

(** The cleaning of [get_stock_time_series] on a daily payload: renamed
    metadata with the requested interval filled in, and the days in
    ascending order, each with its date and the fields it has. *)
Example get_stock_time_series_example :
  outcome (Samples.by_helper (fun _ => Samples.stock_payload))
    (get_stock_time_series "IBM" "daily" false "compact" None true)
  = Ok (VDict
          [ ("metadata",
              VDict [ ("information", VStr "Daily Prices");
                      ("symbol", VStr "IBM");
                      ("last_refreshed", VStr "2024-01-03");
                      ("output_size", VStr "Compact");
                      ("time_zone", VStr "US/Eastern");
                      ("interval", VStr "daily") ]);
            ("items",
              VList [ VDict [ ("date", VStr "2024-01-02");
                              ("open", VStr "160.0");
                              ("close", VStr "161.2");
                              ("volume", VStr "3900000") ];
                      VDict [ ("date", VStr "2024-01-03");
                              ("open", VStr "161.0");
                              ("high", VStr "163.0");
                              ("low", VStr "160.5");
                              ("close", VStr "162.5");
                              ("volume", VStr "4100000") ] ]) ]).
Proof. reflexivity. Qed.

(** ** C6: the timestamp normalizer *)

(** C6, as stated, fails: with a date-only interval a timestamp that is not
    10 characters long is returned as it is, no midnight suffix is added. *)
Lemma normalize_timestamp_date_only_counterexample :
  _normalize_timestamp "2024-01-15 16:00:00" "daily" = "2024-01-15 16:00:00" /\
  _normalize_timestamp "2024-01-15 16:00:00" "daily"
  <> "2024-01-15 16:00:00 00:00:00".
Proof. split; [reflexivity | discriminate]. Qed.

(** C6, amended.  With a date-only interval (daily, weekly, monthly) the
    suffix " 00:00:00" is appended to a timestamp of length 10 and any other
    timestamp is returned unchanged; with any other interval a timestamp of
    length 16 gets ":00", one of length 19 is unchanged, and any other
    gets " 00:00:00". *)
Theorem normalize_timestamp_cases :
  forall timestamp interval : string,
    let n := String.length timestamp in
    let out := _normalize_timestamp timestamp interval in
    (In interval ["daily"; "weekly"; "monthly"] ->
     (n = 10 -> out = (timestamp ++ " 00:00:00")%string) /\
     (n <> 10 -> out = timestamp)) /\
    (~ In interval ["daily"; "weekly"; "monthly"] ->
     (n = 16 -> out = (timestamp ++ ":00")%string) /\
     (n = 19 -> out = timestamp) /\
     (n <> 16 -> n <> 19 -> out = (timestamp ++ " 00:00:00")%string)).
Proof.
  intros timestamp interval n out. subst n out.
  unfold _normalize_timestamp. split; intros H.
  - apply str_in_In in H. rewrite H. split; intros Hn.
    + now rewrite Hn.
    + apply Nat.eqb_neq in Hn. now rewrite Hn.
  - apply str_in_not_In in H. rewrite H. repeat split.
    + intros Hn. now rewrite Hn.
    + intros Hn. now rewrite Hn.
    + intros H16 H19. apply Nat.eqb_neq in H16, H19. now rewrite H16, H19.
Qed.

Lemma normalize_timestamp_cases_witness :
  _normalize_timestamp "2024-01-15" "weekly" = "2024-01-15 00:00:00" /\
  _normalize_timestamp "2024-01-15 16:00" "5min" = "2024-01-15 16:00:00" /\
  _normalize_timestamp "2024-01-15" "5min" = "2024-01-15 00:00:00".
Proof.
  split; [| split].
  - destruct (normalize_timestamp_cases "2024-01-15" "weekly") as (H & _).
    apply H; [simpl; auto | reflexivity].
  - destruct (normalize_timestamp_cases "2024-01-15 16:00" "5min")
      as (_ & H).
    apply H; [| reflexivity].
    simpl. intros F.
    repeat (destruct F as [F | F]; [discriminate F |]). exact F.
  - destruct (normalize_timestamp_cases "2024-01-15" "5min") as (_ & H).
    apply H.
    + simpl. intros F.
      repeat (destruct F as [F | F]; [discriminate F |]). exact F.
    + simpl. discriminate.
    + simpl. discriminate.
Defined.

(** ** C8: unsupported discriminants *)

Lemma contains_app_r (x a q : string) :
  contains x q = true -> contains x (a ++ q) = true.
Proof.
  intros H. induction a as [| c a IH]; [exact H |].
  cbn [append contains]. rewrite IH. now destruct (String.prefix x _).
Qed.

Lemma contains_app_l (x q b : string) :
  contains x q = true -> contains x (q ++ b) = true.
Proof.
  revert x. induction q as [| c q IH]; intros x H.
  - destruct x; [now destruct b | discriminate H].
  - cbn [append contains]. cbn [contains] in H.
    destruct (String.prefix x (String c q)) eqn:Hp.
    + destruct x as [| c' x]; [reflexivity |].
      simpl in Hp. destruct (ascii_dec c' c); [| discriminate Hp].
      assert (Hq : String.prefix x (q ++ b) = true).
      { clear - Hp. revert q Hp. induction x as [| d x IHx]; intros q Hp.
        - now destruct (q ++ b)%string.
        - destruct q as [| d' q]; [discriminate Hp |]. simpl in *.
          destruct (ascii_dec d d'); [now apply IHx | discriminate Hp]. }
      simpl. destruct (ascii_dec c' c); [| contradiction].
      now rewrite Hq.
    + rewrite (IH x H). now case_test.
Qed.

Lemma contains_refl (x : string) : contains x x = true.
Proof.
  destruct x as [| c x]; [reflexivity |].
  cbn [contains].
  assert (H : String.prefix (String c x) (String c x) = true).
  { generalize (String c x). intros s. induction s as [| d s IH]; simpl.
    - reflexivity.
    - destruct (ascii_dec d d); [exact IH | contradiction]. }
  now rewrite H.
Qed.

(** C8, as stated, fails: the interval router and the profile-type router
    raise with a message that names the offending value only; no supported
    value is listed. *)
Lemma unsupported_message_counterexample :
  get_symbol_overview "IBM" "fund"
  = Raise (ValueError "Unsupported profile type: fund") /\
  contains "company" "Unsupported profile type: fund" = false /\
  contains "etf" "Unsupported profile type: fund" = false /\
  fetch_time_series "IBM" "hourly" false "compact" None true
  = Raise (ValueError "Unsupported interval: hourly") /\
  forallb (fun v => negb (contains v "Unsupported interval: hourly"))
    (intraday_intervals ++ ["daily"; "weekly"; "monthly"]) = true.
Proof. repeat split. Qed.

(** C8, amended.  An unsupported interval, statement type or profile type
    raises ValueError at once, before any Data Source call, and the message
    carries the offending value (the statement type in lower case, as it is
    compared).  Only the statement-type router also lists the supported
    values in the message. *)
Theorem unsupported_discriminant_raises :
  forall symbol : string,
    (forall interval adjusted outputsize month extended_hours,
        ~ In interval (intraday_intervals ++ ["daily"; "weekly"; "monthly"]) ->
        exists msg,
          fetch_time_series symbol interval adjusted outputsize month
            extended_hours = Raise (ValueError msg) /\
          contains interval msg = true) /\
    (forall statement_type,
        ~ In (lower statement_type) ["all"; "income"; "balance"; "cash_flow"] ->
        exists msg,
          get_financial_statements symbol statement_type
          = Raise (ValueError msg) /\
          contains (lower statement_type) msg = true /\
          Forall (fun v => contains v msg = true)
            ["'income'"; "'balance'"; "'cash_flow'"; "'all'"]) /\
    (forall profile_type,
        ~ In profile_type ["company"; "etf"] ->
        exists msg,
          get_symbol_overview symbol profile_type = Raise (ValueError msg) /\
          contains profile_type msg = true) /\
    (forall (e : error) (ds : data_source),
        calls ds (@Raise value e) = [] /\ outcome ds (@Raise value e) = Err e).
Proof.
  intros symbol. split; [| split; [| split]].
  - intros interval adjusted outputsize month extended_hours H.
    eexists. split.
    + now apply fetch_time_series_unsupported.
    + apply contains_app_r, contains_refl.
  - intros statement_type H. unfold get_financial_statements. cbv zeta.
    destruct (String.eqb (lower statement_type) "all") eqn:E1;
      [apply String.eqb_eq in E1; exfalso; apply H; rewrite E1; simpl; auto |].
    destruct (String.eqb (lower statement_type) "income") eqn:E2;
      [apply String.eqb_eq in E2; exfalso; apply H; rewrite E2; simpl; auto |].
    destruct (String.eqb (lower statement_type) "balance") eqn:E3;
      [apply String.eqb_eq in E3; exfalso; apply H; rewrite E3; simpl; auto |].
    destruct (String.eqb (lower statement_type) "cash_flow") eqn:E4;
      [apply String.eqb_eq in E4; exfalso; apply H; rewrite E4; simpl; auto |].
    eexists. split; [reflexivity |]. split.
    + apply contains_app_r, contains_app_l, contains_refl.
    + repeat constructor; apply contains_app_r, contains_app_r; reflexivity.
  - intros profile_type H. unfold get_symbol_overview.
    destruct (String.eqb profile_type "company") eqn:E1;
      [apply String.eqb_eq in E1; exfalso; apply H; rewrite E1; simpl; auto |].
    destruct (String.eqb profile_type "etf") eqn:E2;
      [apply String.eqb_eq in E2; exfalso; apply H; rewrite E2; simpl; auto |].
    eexists. split; [reflexivity |].
    apply contains_app_r, contains_refl.
  - intros e ds. apply raise_no_call.
Qed.

Lemma unsupported_discriminant_raises_witness :
  (exists msg,
      fetch_time_series "IBM" "hourly" false "compact" None true
      = Raise (ValueError msg) /\ contains "hourly" msg = true) /\
  (exists msg,
      get_financial_statements "IBM" "Equity" = Raise (ValueError msg) /\
      contains "equity" msg = true /\
      Forall (fun v => contains v msg = true)
        ["'income'"; "'balance'"; "'cash_flow'"; "'all'"]) /\
  (exists msg,
      get_symbol_overview "IBM" "Company" = Raise (ValueError msg) /\
      contains "Company" msg = true).
Proof.
  destruct (unsupported_discriminant_raises "IBM") as (H1 & H2 & H3 & _).
  split; [| split].
  - apply H1. simpl. intros F.
    repeat (destruct F as [F | F]; [discriminate F |]). exact F.
  - apply (H2 "Equity"). simpl. intros F.
    repeat (destruct F as [F | F]; [discriminate F |]). exact F.
  - apply H3. simpl. intros F.
    repeat (destruct F as [F | F]; [discriminate F |]). exact F.
Defined.

(** ** The loops of the aggregator packs *)

(** The counter loop is the expansion of a prefix of the entries: the cap
    is applied to the entries, before any of them is expanded. *)
Lemma capped_loop_prefix (row : string -> string -> value -> value) :
  forall (entries : dict) (count : nat) (items : list value),
    Forall (fun kv => is_dict (snd kv) = true) (firstn (20 - count) entries) ->
    capped_loop row entries count items
    = Ok (items ++
          flat_map (fun kv =>
                      expand_entry row (fst kv) (fields_of_entry (snd kv)))
                   (firstn (20 - count) entries)).
Proof.
  induction entries as [| [timestamp values] rest IH]; intros count items Hd.
  - simpl. rewrite firstn_nil. simpl. now rewrite app_nil_r.
  - cbn [capped_loop]. destruct (Nat.leb 20 count) eqn:Hc.
    + apply Nat.leb_le in Hc.
      replace (20 - count) with 0 by lia. simpl. now rewrite app_nil_r.
    + apply Nat.leb_gt in Hc.
      replace (20 - count) with (S (20 - S count)) in * by lia.
      cbn [firstn flat_map fst snd] in *.
      inversion Hd as [| x l Hv Hrest]; subst.
      destruct values; try discriminate Hv.
      cbn [value_items rbind fields_of_entry].
      rewrite (IH (S count) _ Hrest). now rewrite <- app_assoc.
Qed.

Lemma capped_loop_expansion (row : string -> string -> value -> value)
  (entries : dict) (items : list value) :
  Forall (fun kv => is_dict (snd kv) = true) (firstn 20 entries) ->
  capped_loop row entries 0 items = Ok (items ++ expansion row entries).
Proof. intros H. now rewrite capped_loop_prefix. Qed.

(** Over walkable results the outer loop appends, indicator by indicator,
    what each contributes. *)
Lemma unify_contributions (row : row_builder) :
  forall (indicators : dict) (items : list value),
    Forall walkable (map snd indicators) ->
    unify row indicators items
    = Ok (items ++
          flat_map (fun nd => contribution row (fst nd) (snd nd)) indicators).
Proof.
  induction indicators as [| [name data] rest IH]; intros items Hw.
  - simpl. now rewrite app_nil_r.
  - inversion Hw as [| x l Hdata Hrest]; subst.
    cbn [unify flat_map fst snd contribution].
    destruct data as [| | | | | | d]; try (now rewrite IH).
    unfold Dict.has, Dict.get_or_none, Dict.get_default.
    cbn [contribution]. simpl in Hdata.
    destruct (Dict.get "items" d) as [v |]; [| now rewrite IH].
    destruct v as [| | | | | | entries]; try contradiction.
    cbn [value_items rbind].
    rewrite (capped_loop_expansion _ _ _ Hdata). cbn [rbind].
    rewrite (IH _ Hrest). now rewrite <- app_assoc.
Qed.

(** A result without "items" is stepped over, wherever it stands. *)
Lemma unify_skip (row : row_builder) (name : string) (bad : value) :
  has_items bad = false ->
  forall (before after : dict) (items : list value),
    unify row (before ++ (name, bad) :: after) items
    = unify row (before ++ after) items.
Proof.
  intros Hbad. induction before as [| [n d] before IH]; intros after items.
  - simpl. destruct bad as [| | | | | | b]; try reflexivity.
    simpl in Hbad. now rewrite Hbad.
  - cbn [app unify].
    destruct d as [| | | | | | dd]; try apply IH.
    destruct (Dict.has "items" dd); [| apply IH].
    destruct (value_items (Dict.get_or_none "items" dd)) as [entries |];
      [| reflexivity].
    cbn [rbind].
    destruct (capped_loop (row n) entries 0 items); [| reflexivity].
    cbn [rbind]. apply IH.
Qed.

(** Walkable is also what it takes: a loop that returns has walked
    mappings only. *)
Lemma capped_loop_returns (row : string -> string -> value -> value) :
  forall (entries : dict) (count : nat) (items out : list value),
    capped_loop row entries count items = Ok out ->
    Forall (fun kv => is_dict (snd kv) = true) (firstn (20 - count) entries).
Proof.
  induction entries as [| [timestamp values] rest IH]; intros count items out H.
  - rewrite firstn_nil. constructor.
  - cbn [capped_loop] in H. destruct (Nat.leb 20 count) eqn:Hc.
    + apply Nat.leb_le in Hc. replace (20 - count) with 0 by lia. constructor.
    + apply Nat.leb_gt in Hc.
      replace (20 - count) with (S (20 - S count)) by lia.
      cbn [firstn].
      destruct values; try discriminate H.
      cbn [value_items rbind] in H. constructor; [reflexivity |].
      exact (IH _ _ _ H).
Qed.

Lemma unify_returns (row : row_builder) :
  forall (indicators : dict) (items out : list value),
    unify row indicators items = Ok out ->
    Forall walkable (map snd indicators).
Proof.
  induction indicators as [| [name data] rest IH]; intros items out H;
    [constructor |].
  cbn [unify] in H. cbn [map snd].
  destruct data as [| | | | | | d];
    try (constructor; [exact I | exact (IH _ _ H)]).
  unfold Dict.has, Dict.get_or_none, Dict.get_default in H.
  destruct (Dict.get "items" d) as [v |] eqn:Eg.
  - destruct v as [| | | | | | entries]; try discriminate H.
    cbn [value_items rbind] in H.
    destruct (capped_loop (row name) entries 0 items) as [items' |] eqn:E;
      [| discriminate H].
    cbn [rbind] in H. constructor; [| exact (IH _ _ H)].
    unfold walkable. rewrite Eg.
    exact (capped_loop_returns _ _ _ _ _ E).
  - constructor; [| exact (IH _ _ H)].
    unfold walkable. now rewrite Eg.
Qed.

(** ** Running a pack against a Data Source *)

Lemma run_await {A} (ds : data_source) (hist : list ds_call) (c : ds_call)
  (k : value -> prog A) (v : value) :
  ds hist c = Ok v ->
  run ds hist (Await c k)
  = (c :: fst (run ds (hist ++ [c]) (k v)), snd (run ds (hist ++ [c]) (k v))).
Proof.
  intros H. cbn [run]. rewrite H. now destruct (run ds (hist ++ [c]) (k v)).
Qed.

Lemma run_lift_ret {A B} (ds : data_source) (hist : list ds_call)
  (r : result A) (f : A -> B) :
  run ds hist (x <- lift r ;; Ret (f x)) = ([], rbind r (fun x => Ok (f x))).
Proof. now destruct r. Qed.

Ltac step_await H :=
  rewrite bind_await; rewrite (run_await _ _ _ _ _ H); cbv beta;
  cbn [fst snd].

(** Once its calls are answered, a pack has issued exactly those calls and
    returns the rows of [pack_items] under the metadata of the request. *)
Lemma pack_handler_run (P : pack) (ds : data_source)
  (symbol interval preset : string) (responses : list value) :
  In P all_packs ->
  answers ds [] (pack_calls P symbol interval preset) responses ->
  run ds [] (pack_handler P symbol interval preset)
  = (pack_calls P symbol interval preset,
     rbind (pack_items P interval responses)
       (fun items => Ok (pack_result symbol interval preset items))).
Proof.
  intros HP Hans.
  destruct HP as [<- | [<- | [<- | [<- | []]]]].
  - destruct responses as [| v1 [| v2 [| v3 [| v4 [| v5 rest]]]]];
      cbn [answers pack_calls trend_pack] in Hans; cbv zeta in Hans;
      cbn [answers] in Hans; try tauto.
    destruct Hans as (H1 & H2 & H3 & H4 & _).
    cbn [pack_handler pack_calls trend_pack]. unfold get_trend_indicators.
    cbv zeta.
    step_await H1. step_await H2. step_await H3. step_await H4.
    rewrite run_lift_ret. reflexivity.
  - destruct responses as [| v1 [| v2 [| v3 [| v4 [| v5 rest]]]]];
      cbn [answers pack_calls momentum_pack] in Hans; cbv zeta in Hans;
      cbn [answers] in Hans; try tauto.
    destruct Hans as (H1 & H2 & H3 & H4 & _).
    cbn [pack_handler pack_calls momentum_pack].
    unfold get_momentum_indicators. cbv zeta.
    step_await H1. step_await H2. step_await H3. step_await H4.
    rewrite run_lift_ret. reflexivity.
  - destruct responses as [| v1 [| v2 [| v3 [| v4 rest]]]];
      cbn [answers pack_calls volatility_pack] in Hans; cbv zeta in Hans;
      cbn [answers] in Hans; try tauto.
    destruct Hans as (H1 & H2 & H3 & _).
    cbn [pack_handler pack_calls volatility_pack].
    unfold get_volatility_indicators. cbv zeta.
    step_await H1. step_await H2. step_await H3.
    rewrite run_lift_ret. reflexivity.
  - destruct responses as [| v1 [| v2 [| v3 [| v4 rest]]]];
      cbn [answers pack_calls volume_pack] in Hans; cbv zeta in Hans;
      cbn [answers] in Hans; try tauto.
    destruct Hans as (H1 & H2 & H3 & _).
    cbn [pack_handler pack_calls volume_pack].
    unfold get_volume_indicators. cbv zeta.
    step_await H1. step_await H2. step_await H3.
    rewrite run_lift_ret. reflexivity.
Qed.

(** Answered calls come one payload per indicator, and no two indicators
    of a pack share their lower-case name. *)
Lemma pack_shape (P : pack) (ds : data_source)
  (symbol interval preset : string) (responses : list value) :
  In P all_packs ->
  answers ds [] (pack_calls P symbol interval preset) responses ->
  Dict.keys (indicators_of P responses) = pack_names P /\
  map snd (indicators_of P responses) = responses /\
  NoDup (map lower (pack_names P)).
Proof.
  intros HP Hans.
  destruct HP as [<- | [<- | [<- | [<- | []]]]];
    destruct responses as [| v1 [| v2 [| v3 [| v4 [| v5 rest]]]]];
    cbn [answers pack_calls trend_pack momentum_pack volatility_pack
           volume_pack] in Hans;
    cbv zeta in Hans; cbn [answers] in Hans; try tauto;
    (split; [reflexivity | split; [reflexivity |]]);
    repeat constructor; simpl; intuition discriminate.
Qed.

(** ** The rows of one indicator *)

Lemma row_is_observation (tag timestamp indicator component : string)
  (v : value) :
  row_is tag (observation timestamp indicator component v)
  = String.eqb indicator tag.
Proof. reflexivity. Qed.

Lemma row_timestamp_observation (timestamp indicator component : string)
  (v : value) :
  row_timestamp (observation timestamp indicator component v) = timestamp.
Proof. reflexivity. Qed.

Lemma rows_of_app (tag : string) (l1 l2 : list value) :
  rows_of tag (l1 ++ l2) = rows_of tag l1 ++ rows_of tag l2.
Proof. apply filter_app. Qed.

Section PackRows.

Variable P : pack.
Hypothesis HP : In P all_packs.
Variable interval : string.

Let row : row_builder := pack_rows P interval.

(** Every row a pack builds for an indicator is tagged with the lower-case
    name of that indicator and stamped with the normalized timestamp. *)
Lemma pack_rows_tag (name timestamp key : string) (v : value) :
  exists component,
    row name timestamp key v
    = observation (_normalize_timestamp timestamp interval) (lower name)
        component v.
Proof.
  unfold row. clear row.
  destruct HP as [<- | [<- | [<- | [<- | []]]]];
    cbn [pack_rows trend_pack momentum_pack volatility_pack volume_pack];
    unfold trend_row, momentum_row, volatility_row, volume_row, pack_row;
    try (eexists; reflexivity);
    match goal with
    | |- context [String.eqb name ?m] =>
        destruct (String.eqb name m) eqn:E;
        [apply String.eqb_eq in E; subst name |];
        eexists; reflexivity
    end.
Qed.

Lemma rows_of_entry (name tag timestamp : string) (fields : dict) :
  rows_of tag (expand_entry (row name) timestamp fields)
  = if String.eqb (lower name) tag
    then expand_entry (row name) timestamp fields else [].
Proof.
  unfold expand_entry, rows_of.
  induction fields as [| [key v] fields IH].
  - simpl. now case_test.
  - cbn [map filter fst snd].
    destruct (pack_rows_tag name timestamp key v) as [component ->].
    rewrite row_is_observation, IH.
    now destruct (String.eqb (lower name) tag).
Qed.

Lemma rows_of_expansion (name tag : string) (entries : dict) :
  rows_of tag (expansion (row name) entries)
  = if String.eqb (lower name) tag
    then expansion (row name) entries else [].
Proof.
  unfold expansion.
  induction (firstn 20 entries) as [| [timestamp values] l IH].
  - simpl. now case_test.
  - cbn [flat_map fst snd]. rewrite rows_of_app, IH, rows_of_entry.
    now destruct (String.eqb (lower name) tag).
Qed.

Lemma rows_of_contribution (name tag : string) (data : value) :
  rows_of tag (contribution row name data)
  = if String.eqb (lower name) tag
    then contribution row name data else [].
Proof.
  unfold contribution.
  destruct data as [| | | | | | d]; try (simpl; now case_test).
  destruct (Dict.get "items" d) as [v |]; [| simpl; now case_test].
  destruct v as [| | | | | | entries]; try (simpl; now case_test).
  apply rows_of_expansion.
Qed.

(** No row is tagged with a name that no indicator has. *)
Lemma rows_of_absent :
  forall (indicators : dict) (tag : string),
    ~ In tag (map lower (Dict.keys indicators)) ->
    rows_of tag
      (flat_map (fun nd => contribution row (fst nd) (snd nd)) indicators)
    = [].
Proof.
  induction indicators as [| [n d] rest IH]; intros tag Hnot; [reflexivity |].
  cbn [flat_map fst snd]. rewrite rows_of_app, rows_of_contribution.
  simpl in Hnot.
  destruct (String.eqb (lower n) tag) eqn:E;
    [apply String.eqb_eq in E; exfalso; apply Hnot; now left |].
  apply IH. intros Hin. apply Hnot. now right.
Qed.

(** Among the contributions of indicators with distinct lower-case names,
    the rows tagged with one name are the contribution of that indicator. *)
Lemma rows_of_contributions :
  forall (indicators : dict) (name : string) (data : value),
    NoDup (map lower (Dict.keys indicators)) ->
    In (name, data) indicators ->
    rows_of (lower name)
      (flat_map (fun nd => contribution row (fst nd) (snd nd)) indicators)
    = contribution row name data.
Proof.
  induction indicators as [| [n d] rest IH]; intros name data Hnd Hin;
    [contradiction |].
  cbn [flat_map fst snd]. rewrite rows_of_app, rows_of_contribution.
  simpl in Hnd. inversion Hnd as [| x l Hfresh Hrest]; subst.
  destruct Hin as [Heq | Hin].
  - inversion Heq; subst. rewrite String.eqb_refl.
    rewrite (rows_of_absent rest (lower name) Hfresh).
    apply app_nil_r.
  - destruct (String.eqb (lower n) (lower name)) eqn:E.
    + apply String.eqb_eq in E. exfalso. apply Hfresh. rewrite E.
      apply in_map. change name with (fst (name, data)).
      now apply in_map.
    + simpl. now apply IH.
Qed.

(** The timestamps of the rows of an expansion are normalized timestamps
    of retained entries. *)
Lemma expansion_timestamps (name : string) (entries : dict) :
  incl (map row_timestamp (expansion (row name) entries))
       (map (fun kv => _normalize_timestamp (fst kv) interval)
            (firstn 20 entries)).
Proof.
  intros t. unfold expansion.
  induction (firstn 20 entries) as [| [timestamp values] l IH]; [easy |].
  cbn [flat_map map fst snd]. rewrite map_app, in_app_iff.
  intros [Hin | Hin]; [left | right; now apply IH].
  unfold expand_entry in Hin. rewrite map_map in Hin.
  apply in_map_iff in Hin. destruct Hin as ([key v] & Ht & _).
  cbn [fst snd] in Ht.
  destruct (pack_rows_tag name timestamp key v) as [component Hrow].
  rewrite Hrow, row_timestamp_observation in Ht. now symmetry.
Qed.

End PackRows.

(** The rows of an indicator in a pack whose results are all walkable. *)
Lemma pack_items_rows (P : pack) (ds : data_source)
  (symbol interval preset : string) (responses : list value)
  (name : string) (data : value) :
  In P all_packs ->
  answers ds [] (pack_calls P symbol interval preset) responses ->
  Forall walkable responses ->
  In (name, data) (indicators_of P responses) ->
  exists items,
    pack_items P interval responses = Ok items /\
    outcome ds (pack_handler P symbol interval preset)
    = Ok (pack_result symbol interval preset items) /\
    calls ds (pack_handler P symbol interval preset)
    = pack_calls P symbol interval preset /\
    rows_of (lower name) items
    = contribution (pack_rows P interval) name data.
Proof.
  intros HP Hans Hw Hin.
  destruct (pack_shape P ds symbol interval preset responses HP Hans)
    as (Hkeys & Hsnd & Hnd).
  assert (Hitems : pack_items P interval responses
                   = Ok (flat_map (fun nd => contribution (pack_rows P interval)
                                               (fst nd) (snd nd))
                           (indicators_of P responses))).
  { unfold pack_items. rewrite unify_contributions; [reflexivity |].
    now rewrite Hsnd. }
  eexists. split; [exact Hitems |].
  unfold outcome, calls.
  rewrite (pack_handler_run P ds symbol interval preset responses HP Hans).
  rewrite Hitems. cbn [fst snd rbind]. repeat split.
  apply rows_of_contributions; [exact HP | now rewrite Hkeys | exact Hin].
Qed.

(** A pack whose calls are answered returns its mapping exactly when the
    results can be walked; otherwise the walk raises. *)
Lemma pack_returns_iff_walkable (P : pack) (ds : data_source)
  (symbol interval preset : string) (responses : list value) :
  In P all_packs ->
  answers ds [] (pack_calls P symbol interval preset) responses ->
  (exists out, outcome ds (pack_handler P symbol interval preset) = Ok out)
  <-> Forall walkable responses.
Proof.
  intros HP Hans.
  destruct (pack_shape P ds symbol interval preset responses HP Hans)
    as (_ & Hsnd & _).
  unfold outcome.
  rewrite (pack_handler_run P ds symbol interval preset responses HP Hans).
  cbn [snd]. unfold pack_items. split.
  - intros (out & H).
    destruct (unify (pack_rows P interval) (indicators_of P responses) [])
      as [items |] eqn:E; [| discriminate H].
    rewrite <- Hsnd. exact (unify_returns _ _ _ _ E).
  - intros Hw. rewrite unify_contributions by now rewrite Hsnd.
    eexists. reflexivity.
Qed.

Lemma expansion_length (row : string -> string -> value -> value)
  (entries : dict) (k : nat) :
  Forall (fun kv => List.length (fields_of_entry (snd kv)) = k)
    (firstn 20 entries) ->
  List.length (expansion row entries) = k * List.length (firstn 20 entries).
Proof.
  unfold expansion. induction (firstn 20 entries) as [| kv l IH]; intros H.
  - simpl. lia.
  - inversion H as [| x l' Hk Hl]; subst.
    cbn [flat_map]. rewrite length_app, (IH Hl).
    unfold expand_entry. rewrite length_map. cbn [List.length]. lia.
Qed.

(** ** C3: the cap of 20 timestamps *)

(** The row of every pack, written out: the normalized timestamp, the
    lower-cased name of the indicator, the component and the value. *)
Lemma pack_rows_observation (P : pack) (interval name timestamp key : string)
  (v : value) :
  In P all_packs ->
  In name (pack_names P) ->
  pack_rows P interval name timestamp key v
  = VDict [ ("timestamp", VStr (_normalize_timestamp timestamp interval));
            ("indicator", VStr (lower name));
            ("component", VStr (component_of name key));
            ("value", v) ].
Proof.
  intros HP Hname.
  destruct HP as [<- | [<- | [<- | [<- | []]]]];
    cbn [pack_names trend_pack momentum_pack volatility_pack volume_pack]
      in Hname;
    repeat (destruct Hname as [<- | Hname]; [reflexivity |]);
    contradiction.
Qed.

(** The rows of the retained entries, written out. *)
Lemma expansion_observations (P : pack) (interval name : string)
  (entries : dict) :
  In P all_packs ->
  In name (pack_names P) ->
  expansion (pack_rows P interval name) entries
  = flat_map
      (fun kv =>
         map (fun f =>
                VDict [ ("timestamp",
                          VStr (_normalize_timestamp (fst kv) interval));
                        ("indicator", VStr (lower name));
                        ("component", VStr (component_of name (fst f)));
                        ("value", snd f) ])
             (fields_of_entry (snd kv)))
      (firstn 20 entries).
Proof.
  intros HP Hname. unfold expansion, expand_entry.
  apply flat_map_ext. intros kv. apply map_ext. intros f.
  now apply pack_rows_observation.
Qed.

Lemma indicator_named (P : pack) (responses : list value) (name : string)
  (data : value) :
  In (name, data) (indicators_of P responses) -> In name (pack_names P).
Proof. unfold indicators_of. apply in_combine_l. Qed.

(** C3. In each of the four packs, for each indicator whose result carries
    an "items" mapping of more than 20 entries, the pack returns its
    mapping of metadata and items, and the rows of that indicator among
    the items are, in this order, the rows of the first 20 entries of the
    mapping, one per field of each entry: the cap is applied to the
    entries, before they are expanded, and the rows show at most 20
    distinct timestamps. *)
Theorem pack_cap_twenty :
  forall (P : pack) (ds : data_source) (symbol interval preset : string)
         (responses : list value) (name : string) (d entries : dict),
    In P all_packs ->
    answers ds [] (pack_calls P symbol interval preset) responses ->
    Forall walkable responses ->
    In (name, VDict d) (indicators_of P responses) ->
    Dict.get "items" d = Some (VDict entries) ->
    20 < List.length entries ->
    exists items,
      outcome ds (pack_handler P symbol interval preset)
      = Ok (VDict [ ("metadata",
                      VDict [ ("symbol", VStr symbol);
                              ("interval", VStr interval);
                              ("preset", VStr preset) ]);
                    ("items", VList items) ]) /\
      rows_of (lower name) items
      = flat_map
          (fun kv =>
             map (fun f =>
                    VDict [ ("timestamp",
                              VStr (_normalize_timestamp (fst kv) interval));
                            ("indicator", VStr (lower name));
                            ("component", VStr (component_of name (fst f)));
                            ("value", snd f) ])
                 (fields_of_entry (snd kv)))
          (firstn 20 entries) /\
      List.length (firstn 20 entries) = 20 /\
      incl (timestamps (rows_of (lower name) items))
           (map (fun kv => _normalize_timestamp (fst kv) interval)
                (firstn 20 entries)) /\
      List.length (timestamps (rows_of (lower name) items)) <= 20.
Proof.
  intros P ds symbol interval preset responses name d entries
    HP Hans Hw Hin Hget Hlen.
  destruct (pack_items_rows P ds symbol interval preset responses name
              (VDict d) HP Hans Hw Hin) as (items & _ & Hout & _ & Hrows).
  exists items. split; [exact Hout |].
  unfold contribution in Hrows. rewrite Hget in Hrows.
  split.
  { rewrite Hrows. apply expansion_observations; [exact HP |].
    exact (indicator_named P responses name (VDict d) Hin). }
  split; [apply firstn_length_le; lia |].
  assert (Hincl : incl (timestamps (rows_of (lower name) items))
                    (map (fun kv => _normalize_timestamp (fst kv) interval)
                         (firstn 20 entries))).
  { intros t Ht. unfold timestamps in Ht. apply nodup_In in Ht.
    rewrite Hrows in Ht.
    now apply (expansion_timestamps P HP interval name entries). }
  split; [exact Hincl |].
  apply Nat.le_trans
    with (List.length (map (fun kv => _normalize_timestamp (fst kv) interval)
                           (firstn 20 entries))).
  - apply NoDup_incl_length; [apply NoDup_nodup | exact Hincl].
  - rewrite length_map. apply firstn_le_length.
Qed.

Lemma pack_cap_twenty_witness :
  exists items,
    outcome Samples.volume_source
      (get_volume_indicators "IBM" "daily" "standard")
    = Ok (VDict [ ("metadata",
                    VDict [ ("symbol", VStr "IBM");
                            ("interval", VStr "daily");
                            ("preset", VStr "standard") ]);
                  ("items", VList items) ]) /\
    rows_of "obv" items
    = map (fun kv =>
             VDict [ ("timestamp", VStr (fst kv ++ " 00:00:00"));
                     ("indicator", VStr "obv");
                     ("component", VStr "value");
                     ("value", VStr "1200.0") ])
          (firstn 20 Samples.obv_entries) /\
    List.length (rows_of "obv" items) = 20 /\
    List.length (timestamps (rows_of "obv" items)) <= 20.
Proof.
  destruct (pack_cap_twenty volume_pack Samples.volume_source "IBM" "daily"
              "standard"
              [ Samples.indicator_payload Samples.obv_entries;
                VDict [("Information", VStr "limit")];
                Samples.indicator_payload [] ]
              "OBV"
              [("metadata", VDict []); ("items", VDict Samples.obv_entries)]
              Samples.obv_entries)
    as (items & Hout & Hrows & _ & _ & Hcap).
  - simpl. auto.
  - simpl. auto.
  - repeat constructor.
  - simpl. auto.
  - reflexivity.
  - simpl. lia.
  - exists items. split; [exact Hout |].
    change (lower "OBV") with "obv" in Hrows, Hcap.
    split; [| split; [| exact Hcap]]; rewrite Hrows; reflexivity.
Defined.

Example volume_pack_sample_rows :
  exists items,
    outcome Samples.volume_source
      (get_volume_indicators "IBM" "daily" "standard")
    = Ok (pack_result "IBM" "daily" "standard" items) /\
    List.length items = 20 /\
    nth_error items 0
    = Some (observation "2024-01-01 00:00:00" "obv" "value" (VStr "1200.0")) /\
    nth_error items 19
    = Some (observation "2024-01-20 00:00:00" "obv" "value" (VStr "1200.0")).
Proof. eexists. repeat split. Qed.

(** ** C4: one row per component *)

(** C4. In each of the four packs, when the results can be walked, the
    pack returns its mapping of metadata and items, and among the items
    every retained entry of an indicator shows as one row per field it
    carries, at the normalized timestamp of the entry, so entries of k
    fields each give k rows each.  In particular the rows of MACD in the
    trend pack are tagged "macd", carry the lower-cased field name as
    component, and number 3 x T when each of the T retained entries has
    3 fields. *)
Theorem pack_one_row_per_component :
  forall (P : pack) (ds : data_source) (symbol interval preset : string)
         (responses : list value) (name : string) (d entries : dict),
    In P all_packs ->
    answers ds [] (pack_calls P symbol interval preset) responses ->
    Forall walkable responses ->
    In (name, VDict d) (indicators_of P responses) ->
    Dict.get "items" d = Some (VDict entries) ->
    exists items,
      outcome ds (pack_handler P symbol interval preset)
      = Ok (VDict [ ("metadata",
                      VDict [ ("symbol", VStr symbol);
                              ("interval", VStr interval);
                              ("preset", VStr preset) ]);
                    ("items", VList items) ]) /\
      rows_of (lower name) items
      = flat_map
          (fun kv =>
             map (fun f =>
                    VDict [ ("timestamp",
                              VStr (_normalize_timestamp (fst kv) interval));
                            ("indicator", VStr (lower name));
                            ("component", VStr (component_of name (fst f)));
                            ("value", snd f) ])
                 (fields_of_entry (snd kv)))
          (firstn 20 entries) /\
      (forall k,
          Forall (fun kv => List.length (fields_of_entry (snd kv)) = k)
            (firstn 20 entries) ->
          List.length (rows_of (lower name) items)
          = k * List.length (firstn 20 entries)) /\
      (P = trend_pack -> name = "MACD" ->
       rows_of "macd" items
       = flat_map
           (fun kv =>
              map (fun f =>
                     VDict [ ("timestamp",
                               VStr (_normalize_timestamp (fst kv) interval));
                             ("indicator", VStr "macd");
                             ("component", VStr (lower (fst f)));
                             ("value", snd f) ])
                  (fields_of_entry (snd kv)))
           (firstn 20 entries) /\
       (Forall (fun kv => List.length (fields_of_entry (snd kv)) = 3)
          (firstn 20 entries) ->
        List.length (rows_of "macd" items)
        = 3 * List.length (firstn 20 entries))).
Proof.
  intros P ds symbol interval preset responses name d entries
    HP Hans Hw Hin Hget.
  destruct (pack_items_rows P ds symbol interval preset responses name
              (VDict d) HP Hans Hw Hin) as (items & _ & Hout & _ & Hrows).
  exists items. split; [exact Hout |].
  unfold contribution in Hrows. rewrite Hget in Hrows.
  pose proof (expansion_observations P interval name entries HP
                (indicator_named P responses name (VDict d) Hin)) as Hspell.
  split; [now rewrite Hrows |].
  split.
  - intros k Hk. rewrite Hrows. now apply expansion_length.
  - intros -> ->. change (lower "MACD") with "macd" in Hrows.
    split.
    + rewrite Hrows. exact Hspell.
    + intros Hk. rewrite Hrows. now apply expansion_length.
Qed.

Lemma pack_one_row_per_component_witness :
  exists items,
    outcome Samples.trend_source
      (get_trend_indicators "IBM" "daily" "standard")
    = Ok (VDict [ ("metadata",
                    VDict [ ("symbol", VStr "IBM");
                            ("interval", VStr "daily");
                            ("preset", VStr "standard") ]);
                  ("items", VList items) ]) /\
    List.length (rows_of "macd" items) = 60 /\
    nth_error (rows_of "macd" items) 1
    = Some (VDict [ ("timestamp", VStr "2024-01-01 00:00:00");
                    ("indicator", VStr "macd");
                    ("component", VStr "macd_signal");
                    ("value", VStr "1.0") ]).
Proof.
  destruct (pack_one_row_per_component trend_pack Samples.trend_source
              "IBM" "daily" "standard"
              [ VNone; Samples.indicator_payload [];
                Samples.indicator_payload [];
                Samples.indicator_payload Samples.macd_entries ]
              "MACD"
              [("metadata", VDict []); ("items", VDict Samples.macd_entries)]
              Samples.macd_entries)
    as (items & Hout & _ & _ & Hmacd).
  - simpl. auto.
  - simpl. auto.
  - repeat constructor.
  - simpl. auto 6.
  - reflexivity.
  - exists items. split; [exact Hout |].
    destruct (Hmacd eq_refl eq_refl) as (Hrows & Hlen).
    split.
    + rewrite Hlen; [reflexivity | repeat constructor].
    + rewrite Hrows. reflexivity.
Defined.

(** ** C10: an indicator without "items" *)

Lemma combine_app_cons {A B} (l1 : list A) (a : A) (l2 : list A)
  (r1 : list B) (b : B) (r2 : list B) :
  List.length r1 = List.length l1 ->
  combine (l1 ++ a :: l2) (r1 ++ b :: r2)
  = combine l1 r1 ++ (a, b) :: combine l2 r2.
Proof.
  revert r1. induction l1 as [| x l1 IH]; intros [| y r1] H;
    try discriminate H; [reflexivity |].
  simpl. f_equal. apply IH. now inversion H.
Qed.

Lemma keys_combine_incl {B} (l : list string) (r : list B) :
  incl (Dict.keys (combine l r)) l.
Proof.
  revert r. induction l as [| x l IH]; intros [| y r] k Hk;
    try contradiction.
  destruct Hk as [<- | Hk]; [now left | right; now apply (IH r)].
Qed.

Lemma snd_combine {A B} (l : list A) (r : list B) :
  List.length r = List.length l -> map snd (combine l r) = r.
Proof.
  revert r. induction l as [| x l IH]; intros [| y r] H;
    try discriminate H; [reflexivity |].
  simpl. f_equal. apply IH. now inversion H.
Qed.

(** C10. In each of the four packs a result that is not a mapping with
    the key "items" is stepped over: the pack returns what the remaining
    indicators give, under the metadata of the request, and raises nothing
    on account of that result; when the remaining results can be walked
    the pack returns its mapping of metadata and items, with no row of the
    skipped indicator. *)
Theorem pack_skips_result_without_items :
  forall (P : pack) (ds : data_source) (symbol interval preset : string)
         (names1 : list string) (name : string) (names2 : list string)
         (r1 : list value) (bad : value) (r2 : list value),
    In P all_packs ->
    pack_names P = names1 ++ name :: names2 ->
    List.length r1 = List.length names1 ->
    answers ds [] (pack_calls P symbol interval preset) (r1 ++ bad :: r2) ->
    has_items bad = false ->
    let others := combine names1 r1 ++ combine names2 r2 in
    outcome ds (pack_handler P symbol interval preset)
    = rbind (unify (pack_rows P interval) others [])
        (fun items => Ok (pack_result symbol interval preset items)) /\
    (Forall walkable (r1 ++ r2) ->
     exists items,
       outcome ds (pack_handler P symbol interval preset)
       = Ok (VDict [ ("metadata",
                       VDict [ ("symbol", VStr symbol);
                               ("interval", VStr interval);
                               ("preset", VStr preset) ]);
                     ("items", VList items) ]) /\
       items = flat_map (fun nd => contribution (pack_rows P interval)
                                     (fst nd) (snd nd)) others /\
       rows_of (lower name) items = []).
Proof.
  intros P ds symbol interval preset names1 name names2 r1 bad r2
    HP Hnames Hlen Hans Hbad others.
  assert (Hout : outcome ds (pack_handler P symbol interval preset)
                 = rbind (unify (pack_rows P interval) others [])
                     (fun items =>
                        Ok (pack_result symbol interval preset items))).
  { unfold outcome.
    rewrite (pack_handler_run P ds symbol interval preset _ HP Hans).
    cbn [snd]. unfold pack_items, indicators_of.
    rewrite Hnames, (combine_app_cons _ _ _ _ _ _ Hlen).
    now rewrite (unify_skip _ name bad Hbad). }
  split; [exact Hout |].
  intros Hw.
  destruct (pack_shape P ds symbol interval preset _ HP Hans)
    as (Hkeys & Hsnd & Hnd).
  assert (Hlen2 : List.length r2 = List.length names2).
  { assert (H : List.length (Dict.keys (indicators_of P (r1 ++ bad :: r2)))
                = List.length (map snd (indicators_of P (r1 ++ bad :: r2))))
      by (unfold Dict.keys; now rewrite !length_map).
    rewrite Hkeys, Hsnd, Hnames, !length_app in H. simpl in H. lia. }
  assert (Hothers : unify (pack_rows P interval) others []
                    = Ok (flat_map (fun nd => contribution
                                                (pack_rows P interval)
                                                (fst nd) (snd nd)) others)).
  { rewrite unify_contributions; [reflexivity |].
    unfold others.
    rewrite map_app, !snd_combine by congruence. exact Hw. }
  eexists. rewrite Hout, Hothers. cbn [rbind].
  split; [reflexivity |]. split; [reflexivity |].
  apply (rows_of_absent P HP interval).
  rewrite Hnames, map_app in Hnd. cbn [map] in Hnd.
  apply NoDup_remove_2 in Hnd.
  intros Hin. apply Hnd.
  apply in_map_iff in Hin. destruct Hin as (k & <- & Hk).
  rewrite <- map_app. apply in_map.
  unfold others, Dict.keys in Hk. rewrite map_app in Hk.
  apply in_app_iff in Hk. apply in_app_iff.
  destruct Hk as [Hk | Hk]; [left | right];
    eapply keys_combine_incl; exact Hk.
Qed.

Lemma pack_skips_result_without_items_witness :
  exists items,
    outcome Samples.trend_source
      (get_trend_indicators "IBM" "daily" "standard")
    = Ok (VDict [ ("metadata",
                    VDict [ ("symbol", VStr "IBM");
                            ("interval", VStr "daily");
                            ("preset", VStr "standard") ]);
                  ("items", VList items) ]) /\
    rows_of "sma" items = [] /\
    List.length items = 60.
Proof.
  destruct (pack_skips_result_without_items trend_pack Samples.trend_source
              "IBM" "daily" "standard"
              [] "SMA" ["EMA"; "WMA"; "MACD"]
              [] VNone
              [ Samples.indicator_payload [];
                Samples.indicator_payload [];
                Samples.indicator_payload Samples.macd_entries ])
    as (_ & H).
  - simpl. auto.
  - reflexivity.
  - reflexivity.
  - simpl. auto.
  - reflexivity.
  - destruct H as (items & Hout & Hitems & Hrows).
    + repeat constructor.
    + exists items. repeat split; [exact Hout | exact Hrows |].
      rewrite Hitems. reflexivity.
Defined.

(** A pack whose every result lacks "items" still returns its mapping,
    with no row at all. *)
Example volume_pack_all_skipped :
  outcome (Samples.by_helper (fun _ => VStr "rate limit"))
    (get_volume_indicators "IBM" "daily" "fast")
  = Ok (VDict [ ("metadata",
                  VDict [ ("symbol", VStr "IBM");
                          ("interval", VStr "daily");
                          ("preset", VStr "fast") ]);
                ("items", VList []) ]).
Proof. reflexivity. Qed.

(** An "items" that is not a mapping is not stepped over: walking it
    raises. *)
Example volume_pack_items_not_a_mapping :
  outcome (Samples.by_helper (fun _ => VDict [("items", VList [])]))
    (get_volume_indicators "IBM" "daily" "fast")
  = Err AttributeError.
Proof. reflexivity. Qed.

(** ** C2: the analytics router *)

Ltac dict_simpl :=
  repeat (rewrite get_set_same || rewrite get_set_other by discriminate).

Lemma update_get_other {A} (k : string) (u d : list (string * A)) :
  ~ In k (Dict.keys u) -> Dict.get k (Dict.update u d) = Dict.get k d.
Proof.
  unfold Dict.update. revert d.
  induction u as [| [k' v'] u IH]; intros d Hk; [reflexivity |].
  cbn [fold_left fst snd]. simpl in Hk.
  rewrite IH by tauto. apply get_set_other. intros ->. tauto.
Qed.

Lemma update_get {A} (k : string) (v : A) (u d : list (string * A)) :
  NoDup (Dict.keys u) -> In (k, v) u ->
  Dict.get k (Dict.update u d) = Some v.
Proof.
  unfold Dict.update. revert d.
  induction u as [| [k' v'] u IH]; intros d Hnd Hin; [contradiction |].
  cbn [fold_left fst snd]. simpl in Hnd.
  inversion Hnd as [| x l Hfresh Hrest]; subst.
  destruct Hin as [Heq | Hin].
  - inversion Heq; subst.
    fold (Dict.update u (Dict.set k v d)).
    rewrite update_get_other by exact Hfresh. apply get_set_same.
  - now apply IH.
Qed.

Lemma placeholder_results_length (symbols calculations : list string) :
  List.length (Analytics.placeholder_results symbols calculations)
  = List.length symbols * List.length calculations.
Proof.
  unfold Analytics.placeholder_results.
  induction symbols as [| s symbols IH]; [reflexivity |].
  cbn [flat_map]. rewrite length_app, length_map, IH. simpl. lia.
Qed.

Lemma ensure_results_get (symbols calculations : list string) (r : dict) :
  Dict.get "results" (Analytics.ensure_results symbols calculations r)
  = Some (match Dict.get "results" r with
          | Some x => x
          | None => VList (Analytics.placeholder_results symbols calculations)
          end).
Proof.
  unfold Analytics.ensure_results, Dict.has.
  destruct (Dict.get "results" r) eqn:E; [exact E | apply get_set_same].
Qed.

Lemma ensure_results_other (symbols calculations : list string) (r : dict)
  (k : string) :
  k <> "results" ->
  Dict.get k (Analytics.ensure_results symbols calculations r) = Dict.get k r.
Proof.
  intros Hk. unfold Analytics.ensure_results.
  destruct (Dict.has "results" r); [reflexivity | now apply get_set_other].
Qed.

(** What [echo_metadata] does to a result whose metadata can be updated:
    the block is there afterwards and holds every echoed pair; nothing
    else changes. *)
Lemma echo_metadata_updatable (echo r : dict) :
  NoDup (Dict.keys echo) ->
  metadata_updatable r = true ->
  exists r' meta,
    Analytics.echo_metadata echo r = Ok r' /\
    Dict.get "metadata" r' = Some (VDict meta) /\
    (forall k v, In (k, v) echo -> Dict.get k meta = Some v) /\
    (forall k, k <> "metadata" -> Dict.get k r' = Dict.get k r).
Proof.
  intros Hnd Hm. unfold metadata_updatable in Hm.
  unfold Analytics.echo_metadata, Dict.has, Dict.get_or_none, Dict.get_default.
  destruct (Dict.get "metadata" r) as [m |] eqn:E.
  - destruct m as [| | | | | | m]; try discriminate Hm.
    rewrite E. do 2 eexists. split; [reflexivity |].
    split; [apply get_set_same |]. split.
    + intros k v Hin. now apply update_get.
    + intros k Hk. now apply get_set_other.
  - rewrite get_set_same. do 2 eexists. split; [reflexivity |].
    split; [apply get_set_same |]. split.
    + intros k v Hin. now apply update_get.
    + intros k Hk. now rewrite !get_set_other by exact Hk.
Qed.

Lemma request_echo_keys (interval series_range ohlc : string)
  (window_size : value) (calculations : list string) :
  NoDup (Dict.keys (Analytics.request_echo interval series_range ohlc
                      window_size calculations)).
Proof. repeat constructor; simpl; intuition discriminate. Qed.

(** The tail of both branches of [analyze_stocks], on a mapping [r0] that
    already carries the window type and the symbols. *)
Lemma analytics_tail (symbols calculations : list string) (echo r0 : dict) :
  NoDup (Dict.keys echo) ->
  metadata_updatable r0 = true ->
  exists out meta,
    Analytics.echo_metadata echo
      (Analytics.ensure_results symbols calculations r0) = Ok out /\
    Dict.get "metadata" out = Some (VDict meta) /\
    (forall k v, In (k, v) echo -> Dict.get k meta = Some v) /\
    Dict.get "results" out
    = Some (match Dict.get "results" r0 with
            | Some x => x
            | None => VList (Analytics.placeholder_results symbols
                               calculations)
            end) /\
    (forall k, k <> "metadata" -> k <> "results" ->
               Dict.get k out = Dict.get k r0).
Proof.
  intros Hnd Hm.
  destruct (echo_metadata_updatable echo
              (Analytics.ensure_results symbols calculations r0) Hnd)
    as (out & meta & Hok & Hmeta & Hecho & Hsame).
  { unfold metadata_updatable in *.
    now rewrite ensure_results_other by discriminate. }
  exists out, meta. repeat split; try assumption.
  - rewrite Hsame by discriminate. apply ensure_results_get.
  - intros k Hk1 Hk2. rewrite Hsame by exact Hk1.
    now apply ensure_results_other.
Qed.

(** C2, as stated, fails on two counts.  The placeholder results are the
    product of the symbols and the calculations, empty when one of them is,
    and results that the Data Source sent are kept as they are; and on the
    fixed-window path the metadata echo a null window size, not the one
    that was passed, while the symbols are echoed beside the metadata, not
    in it. *)
Lemma analyze_stocks_counterexample :
  let out :=
    VDict [ ("window_type", VStr "fixed");
            ("symbols", VList [VStr "AAPL"]);
            ("data_format", VStr "json");
            ("results", VList []);
            ("metadata",
              VDict [ ("interval", VStr "DAILY");
                      ("series_range", VStr "1month");
                      ("ohlc", VStr "close");
                      ("window_size", VNone);
                      ("calculations", VList []) ]) ] in
  outcome (Samples.by_helper (fun _ => VDict []))
    (analyze_stocks ["AAPL"] "DAILY" [] "1month" "close" (Some 5%Z))
  = Ok out /\
  nonempty_results out = false /\
  get_field "window_size" (get_field "metadata" out) <> VInt 5 /\
  get_field "symbols" (get_field "metadata" out) = VNone.
Proof. repeat split. discriminate. Qed.

(** C2, amended.  A window size that is absent or below 10 selects the
    fixed-window operation, one of at least 10 the sliding-window
    operation, and that is the only call.  When the answer is a mapping
    whose metadata, if any, is a mapping, the returned mapping carries the
    window type of the path taken, the symbols, a [results] entry (the
    one received, or else the placeholder rows, one per symbol and
    calculation), and a metadata block that echoes interval, series range,
    OHLC field and calculations, with the window size on the sliding path
    and null on the fixed path.  An answer that is not a mapping is
    returned as it is. *)
Theorem analyze_stocks_window_routing :
  forall (symbols : list string) (interval : string)
         (calculations : list string) (series_range ohlc : string)
         (window_size : option Z),
    let request :=
      [ ("symbols", Analytics.str_list symbols);
        ("interval", VStr interval);
        ("calculations", Analytics.str_list calculations);
        ("series_range", VStr series_range);
        ("ohlc", VStr ohlc) ] in
    let sliding := Analytics.use_sliding window_size in
    let c :=
      if sliding
      then Call fetch_analytics_sliding_window []
             (request ++ [("window_size", Analytics.opt_int window_size)])
      else Call fetch_analytics_fixed_window [] request in
    let p := analyze_stocks symbols interval calculations series_range ohlc
               window_size in
    (window_size = None -> sliding = false) /\
    (forall w, window_size = Some w -> (w < 10)%Z -> sliding = false) /\
    (forall w, window_size = Some w -> (10 <= w)%Z -> sliding = true) /\
    (forall ds, calls ds p = [c]) /\
    (forall ds response,
        ds [] c = Ok response -> is_dict response = false ->
        outcome ds p = Ok response) /\
    (forall ds r,
        ds [] c = Ok (VDict r) -> metadata_updatable r = true ->
        exists out meta,
          outcome ds p = Ok (VDict out) /\
          Dict.get "window_type" out
          = Some (VStr (if sliding then "sliding" else "fixed")) /\
          Dict.get "symbols" out = Some (Analytics.str_list symbols) /\
          Dict.get "results" out
          = Some (match Dict.get "results" r with
                  | Some x => x
                  | None => VList (Analytics.placeholder_results symbols
                                     calculations)
                  end) /\
          List.length (Analytics.placeholder_results symbols calculations)
          = List.length symbols * List.length calculations /\
          Dict.get "metadata" out = Some (VDict meta) /\
          Dict.get "interval" meta = Some (VStr interval) /\
          Dict.get "series_range" meta = Some (VStr series_range) /\
          Dict.get "ohlc" meta = Some (VStr ohlc) /\
          Dict.get "calculations" meta
          = Some (Analytics.str_list calculations) /\
          Dict.get "window_size" meta
          = Some (if sliding then Analytics.opt_int window_size else VNone)).
Proof.
  intros symbols interval calculations series_range ohlc window_size
    request sliding c p.
  split; [now intros -> |].
  split; [intros w -> Hw; apply Z.leb_gt; exact Hw |].
  split; [intros w -> Hw; apply Z.leb_le; exact Hw |].
  subst p. unfold analyze_stocks. fold request. fold sliding.
  destruct sliding eqn:Hs; subst c; rewrite bind_await; unfold calls, outcome;
    cbn [run].
  - split; [| split].
    + intros ds. destruct (ds [] _) as [v |]; [| reflexivity].
      destruct v; try reflexivity. rewrite run_lift_ret. reflexivity.
    + intros ds response -> Hd. now destruct response.
    + intros ds r -> Hm. rewrite run_lift_ret. cbn [fst snd].
      destruct (analytics_tail symbols calculations
                  (Analytics.request_echo interval series_range ohlc
                     (Analytics.opt_int window_size) calculations)
                  (Dict.set "symbols" (Analytics.str_list symbols)
                     (Dict.set "window_type" (VStr "sliding") r)))
        as (out & meta & Hok & Hmeta & Hecho & Hres & Hsame).
      { apply request_echo_keys. }
      { unfold metadata_updatable in *. now dict_simpl. }
      exists out, meta. rewrite Hok. cbn [rbind].
      split; [reflexivity |].
      split; [rewrite Hsame by discriminate; now dict_simpl |].
      split; [rewrite Hsame by discriminate; now dict_simpl |].
      split; [rewrite Hres; now dict_simpl |].
      split; [apply placeholder_results_length |].
      split; [exact Hmeta |].
      repeat split; apply Hecho; simpl; auto 6.
  - split; [| split].
    + intros ds. destruct (ds [] _) as [v |]; [| reflexivity].
      destruct v; try reflexivity. rewrite run_lift_ret. reflexivity.
    + intros ds response -> Hd. now destruct response.
    + intros ds r -> Hm. rewrite run_lift_ret. cbn [fst snd].
      set (r2 := Dict.set "symbols" (Analytics.str_list symbols)
                   (Dict.set "window_type" (VStr "fixed") r)).
      set (r3 := if Dict.has "data_format" r2 then r2
                 else Dict.set "data_format" (VStr "json") r2).
      assert (Hr3 : forall k, k <> "data_format" ->
                              Dict.get k r3 = Dict.get k r2).
      { intros k Hk. unfold r3. destruct (Dict.has "data_format" r2);
          [reflexivity | now apply get_set_other]. }
      destruct (analytics_tail symbols calculations
                  (Analytics.request_echo interval series_range ohlc
                     VNone calculations) r3)
        as (out & meta & Hok & Hmeta & Hecho & Hres & Hsame).
      { apply request_echo_keys. }
      { unfold metadata_updatable in *.
        rewrite Hr3 by discriminate. unfold r2. now dict_simpl. }
      exists out, meta. rewrite Hok. cbn [rbind].
      split; [reflexivity |].
      split; [rewrite Hsame, Hr3 by discriminate; unfold r2; now dict_simpl |].
      split; [rewrite Hsame, Hr3 by discriminate; unfold r2; now dict_simpl |].
      split; [rewrite Hres, Hr3 by discriminate; unfold r2; now dict_simpl |].
      split; [apply placeholder_results_length |].
      split; [exact Hmeta |].
      repeat split; apply Hecho; simpl; auto 6.
Qed.

Lemma analyze_stocks_window_routing_witness :
  calls (Samples.by_helper (fun _ => VDict []))
    (analyze_stocks ["AAPL"; "MSFT"] "DAILY" ["MEAN"] "1month" "close"
       (Some 20%Z))
  = [ Call fetch_analytics_sliding_window []
        [ ("symbols", VList [VStr "AAPL"; VStr "MSFT"]);
          ("interval", VStr "DAILY");
          ("calculations", VList [VStr "MEAN"]);
          ("series_range", VStr "1month");
          ("ohlc", VStr "close");
          ("window_size", VInt 20) ] ] /\
  exists out meta,
    outcome (Samples.by_helper (fun _ => VDict []))
      (analyze_stocks ["AAPL"; "MSFT"] "DAILY" ["MEAN"] "1month" "close"
         (Some 20%Z))
    = Ok (VDict out) /\
    Dict.get "window_type" out = Some (VStr "sliding") /\
    Dict.get "metadata" out = Some (VDict meta) /\
    Dict.get "window_size" meta = Some (VInt 20).
Proof.
  destruct (analyze_stocks_window_routing ["AAPL"; "MSFT"] "DAILY" ["MEAN"]
              "1month" "close" (Some 20%Z))
    as (_ & _ & _ & Hcalls & _ & Hout).
  split; [apply Hcalls |].
  destruct (Hout (Samples.by_helper (fun _ => VDict [])) [] eq_refl eq_refl)
    as (out & meta & H1 & H2 & _ & _ & _ & H3 & _ & _ & _ & _ & H4).
  exists out, meta. repeat split; assumption.
Defined.

Example analyze_stocks_window_five_is_fixed :
  calls (Samples.by_helper (fun _ => VDict []))
    (analyze_stocks ["AAPL"] "DAILY" ["MEAN"] "1month" "close" (Some 5%Z))
  = [ Call fetch_analytics_fixed_window []
        [ ("symbols", VList [VStr "AAPL"]);
          ("interval", VStr "DAILY");
          ("calculations", VList [VStr "MEAN"]);
          ("series_range", VStr "1month");
          ("ohlc", VStr "close") ] ].
Proof. reflexivity. Qed.

(** Results that the Data Source sent are kept, empty or not. *)
Example analyze_stocks_keeps_empty_results :
  get_field "results"
    (match outcome (Samples.by_helper (fun _ => VDict [("results", VList [])]))
             (analyze_stocks ["AAPL"] "DAILY" ["MEAN"] "1month" "close" None)
     with Ok out => out | Err _ => VNone end)
  = VList [].
Proof. reflexivity. Qed.

(** ** C5: the tabular decoders *)

(** A text without the separator is one piece. *)
Lemma split_without_separator (sep : ascii) (s : string) :
  contains (String sep EmptyString) s = false -> split sep s = [s].
Proof.
  induction s as [| c s IH]; intros H; [reflexivity |].
  cbn [contains String.prefix] in H. cbn [split].
  destruct (ascii_dec sep c) as [-> | Hne].
  - now destruct s.
  - destruct (Ascii.eqb_spec c sep) as [-> | _]; [contradiction |].
    now rewrite (IH H).
Qed.

Lemma set_fresh {A} (k : string) (v : A) (d : list (string * A)) :
  ~ In k (Dict.keys d) -> Dict.set k v d = d ++ [(k, v)].
Proof.
  induction d as [| [k' v'] d IH]; intros H; [reflexivity |].
  simpl in *. destruct (String.eqb_spec k k') as [-> | _]; [tauto |].
  rewrite IH by tauto. reflexivity.
Qed.

(** Filling an item from distinct headers pairs them with the values. *)
Lemma fill_item_combine (headers values : list string) :
  forall item : dict,
    NoDup headers ->
    (forall h, In h headers -> ~ In h (Dict.keys item)) ->
    Csv.fill_item headers values item
    = item ++ combine headers (map VStr values).
Proof.
  revert values.
  induction headers as [| h headers IH]; intros values item Hnd Hfresh.
  - simpl. now rewrite app_nil_r.
  - destruct values as [| v values]; [simpl; now rewrite app_nil_r |].
    cbn [Csv.fill_item map combine].
    inversion Hnd as [| x l Hh Hrest]; subst.
    rewrite set_fresh by (apply Hfresh; now left).
    rewrite IH; [now rewrite <- app_assoc | exact Hrest |].
    intros h' Hin Hk. unfold Dict.keys in Hk. rewrite map_app in Hk.
    apply in_app_iff in Hk. destruct Hk as [Hk | [<- | []]].
    + apply (Hfresh h'); [now right | exact Hk].
    + contradiction.
Qed.

(** The loops of the two decoders keep, in order, the lines that pass
    their test. *)
Lemma list_loop (headers : list string) (rows : list string) :
  forall data : list value,
    fold_left (Csv.list_step headers) rows data
    = data ++
      map (fun line => VDict (Csv.fill_item headers (Csv.fields_of line) []))
          (filter (fun line => Nat.eqb (field_count line)
                                 (List.length headers)) rows).
Proof.
  induction rows as [| line rows IH]; intros data.
  - simpl. now rewrite app_nil_r.
  - cbn [fold_left filter]. rewrite IH. unfold Csv.list_step, field_count.
    destruct (Nat.eqb _ _); [| reflexivity].
    cbn [map]. now rewrite <- app_assoc.
Qed.


Lemma short_text_no_rows (lines : list string) :
  Nat.leb (List.length lines) 1 = true -> tl lines = [].
Proof.
  destruct lines as [| l [| l' lines]]; try reflexivity. discriminate.
Qed.

Lemma csv_to_list_rows (csv_data : string) (headers : list string) :
  Csv.csv_to_list csv_data headers
  = map (fun line => VDict (Csv.fill_item headers (Csv.fields_of line) []))
        (filter (fun line => Nat.eqb (field_count line) (List.length headers))
                (tl (Csv.lines_of csv_data))).
Proof.
  unfold Csv.csv_to_list.
  destruct (Nat.leb (List.length (Csv.lines_of csv_data)) 1) eqn:E.
  - now rewrite (short_text_no_rows _ E).
  - now rewrite list_loop.
Qed.


Lemma filter_all {A} (f : A -> bool) (l : list A) :
  Forall (fun x => f x = true) l -> filter f l = l.
Proof.
  induction 1 as [| x l Hx _ IH]; [reflexivity |].
  simpl. now rewrite Hx, IH.
Qed.

(** *** Stripping *)





Lemma lstrip_by_kept (drop : ascii -> bool) (s : string) :
  head_kept drop s -> lstrip_by drop s = s.
Proof.
  destruct s as [| c s]; [reflexivity |].
  cbn [head_kept lstrip_by]. now intros ->.
Qed.



(** *** From a text to its lines *)

Lemma split_app_separator (sep : ascii) (x rest : string) :
  contains (String sep EmptyString) x = false ->
  split sep (x ++ String sep rest) = x :: split sep rest.
Proof.
  induction x as [| c x IH]; intros H.
  - cbn [append split]. now rewrite Ascii.eqb_refl.
  - cbn [contains String.prefix] in H. cbn [append split].
    destruct (ascii_dec sep c) as [-> | Hne].
    + now destruct x.
    + destruct (Ascii.eqb_spec c sep) as [-> | _]; [contradiction |].
      now rewrite (IH H).
Qed.

(** Splitting undoes joining, for lines without a line break. *)
Lemma split_join (sep : ascii) (lines : list string) :
  lines <> [] ->
  Forall (fun l => contains (String sep EmptyString) l = false) lines ->
  split sep (join (String sep EmptyString) lines) = lines.
Proof.
  unfold join. induction lines as [| x lines IH]; intros Hne Hall;
    [contradiction |].
  inversion Hall as [| y l Hx Hrest]; subst.
  destruct lines as [| y lines].
  - cbn [String.concat]. now apply split_without_separator.
  - change (String.concat (String sep EmptyString) (x :: y :: lines))
      with (x ++ String sep (String.concat (String sep EmptyString)
                               (y :: lines)))%string.
    rewrite split_app_separator by exact Hx.
    f_equal. apply IH; [discriminate | exact Hrest].
Qed.

Lemma rstrip_by_app_kept (drop : ascii -> bool) (a b : string) :
  b <> EmptyString -> rstrip_by drop b = b ->
  rstrip_by drop (a ++ b) = (a ++ b)%string.
Proof.
  intros Hne Hb. induction a as [| c a IH]; [exact Hb |].
  cbn [append rstrip_by]. rewrite IH.
  destruct (a ++ b)%string eqn:E; [| reflexivity].
  destruct a; [simpl in E; contradiction | discriminate E].
Qed.

Lemma rstrip_by_app_newline (s : string) :
  rstrip_by is_space (s ++ nl) = rstrip_by is_space s.
Proof.
  induction s as [| c s IH]; [reflexivity |].
  cbn [append rstrip_by]. now rewrite IH.
Qed.

Lemma append_assoc (a b c : string) :
  ((a ++ b) ++ c = a ++ (b ++ c))%string.
Proof. induction a as [| x a IH]; [reflexivity |]. simpl. now rewrite IH. Qed.

Lemma join_ends_with_last (sep : string) (lines : list string) (d : string) :
  lines <> [] ->
  exists a, join sep lines = (a ++ last lines d)%string.
Proof.
  unfold join. induction lines as [| x lines IH]; intros Hne;
    [contradiction |].
  destruct lines as [| y lines].
  - exists EmptyString. reflexivity.
  - destruct IH as (a & Ha); [discriminate |].
    exists (x ++ sep ++ a)%string.
    change (String.concat sep (x :: y :: lines))
      with (x ++ sep ++ String.concat sep (y :: lines))%string.
    rewrite Ha. change (last (x :: y :: lines) d) with (last (y :: lines) d).
    now rewrite !append_assoc.
Qed.

Lemma join_starts_with_head (sep : string) (c : ascii) (x : string)
  (lines : list string) :
  exists t, join sep (String c x :: lines) = String c t.
Proof.
  unfold join. destruct lines as [| y lines]; eexists; reflexivity.
Qed.

(** A text made of a header line and data lines, with or without a final
    line break, is read back as these lines. *)
Lemma lines_of_join (header : string) (rows : list string) :
  header <> EmptyString ->
  head_kept is_space header ->
  Forall one_line (header :: rows) ->
  tail_kept (last (header :: rows) header) ->
  Csv.lines_of (join nl (header :: rows)) = header :: rows /\
  Csv.lines_of (join nl (header :: rows) ++ nl) = header :: rows.
Proof.
  intros Hne Hhead Hlines (Hlast & Hkept).
  destruct header as [| c header]; [contradiction |].
  destruct (join_starts_with_head nl c header rows) as (t & Ht).
  destruct (join_ends_with_last nl (String c header :: rows) (String c header))
    as (a & Ha); [discriminate |].
  assert (Hr : rstrip_by is_space (join nl (String c header :: rows))
               = join nl (String c header :: rows)).
  { rewrite Ha. now apply rstrip_by_app_kept. }
  assert (Hs : strip (join nl (String c header :: rows))
               = join nl (String c header :: rows)).
  { unfold strip. rewrite lstrip_by_kept; [exact Hr |].
    rewrite Ht. exact Hhead. }
  assert (Hsplit : split newline (join nl (String c header :: rows))
                   = String c header :: rows).
  { apply split_join; [discriminate | exact Hlines]. }
  unfold Csv.lines_of. split.
  - now rewrite Hs.
  - assert (Hs' : strip (join nl (String c header :: rows) ++ nl)
                  = join nl (String c header :: rows)).
    { unfold strip. rewrite lstrip_by_kept.
      - now rewrite rstrip_by_app_newline.
      - rewrite Ht. exact Hhead. }
    now rewrite Hs'.
Qed.

(** N data lines of the right field count give N records, in order. *)
Lemma csv_to_list_of_rows (header : string) (rows headers : list string) :
  header <> EmptyString ->
  head_kept is_space header ->
  Forall one_line (header :: rows) ->
  tail_kept (last (header :: rows) header) ->
  NoDup headers ->
  Forall (fun line => field_count line = List.length headers) rows ->
  Csv.csv_to_list (join nl (header :: rows) ++ nl) headers
  = map (record_of headers) rows /\
  Csv.csv_to_list (join nl (header :: rows)) headers
  = map (record_of headers) rows.
Proof.
  intros Hne Hhead Hlines Hlast Hnd Hall.
  destruct (lines_of_join header rows Hne Hhead Hlines Hlast) as (H1 & H2).
  assert (Hrec : forall line,
             VDict (Csv.fill_item headers (Csv.fields_of line) [])
             = record_of headers line).
  { intros line. unfold record_of. now rewrite fill_item_combine. }
  assert (Hf : filter (fun line => Nat.eqb (field_count line)
                                     (List.length headers)) rows = rows).
  { apply filter_all. eapply Forall_impl; [| exact Hall].
    intros line Hline. now apply Nat.eqb_eq. }
  split; rewrite csv_to_list_rows.
  - rewrite H2. cbn [tl]. rewrite Hf. now apply map_ext.
  - rewrite H1. cbn [tl]. rewrite Hf. now apply map_ext.
Qed.




(** The listing example of the design document, through the handler. *)
Example get_listing_status_example :
  outcome (Samples.by_helper (fun _ => VStr Samples.listing_csv))
    (get_listing_status None "active")
  = Ok (VDict [ ("state", VStr "active");
                ("listings",
                  VList [ VDict [ ("symbol", VStr "AAPL");
                                  ("name", VStr "Apple Inc");
                                  ("exchange", VStr "NASDAQ");
                                  ("asset_type", VStr "Stock");
                                  ("ipo_date", VStr "1980-12-12");
                                  ("delisting_date", VStr EmptyString);
                                  ("status", VStr "Active") ] ]) ]).
Proof. reflexivity. Qed.

(** The calendar handler: the earnings always, the IPOs on request. *)
Example get_market_calendar_example :
  run (Samples.by_helper (fun _ => VStr Samples.earnings_csv)) []
    (get_market_calendar None "3month" false)
  = ([ Call fetch_earnings_calendar [VNone; VStr "3month"] [] ],
     Ok (VDict
           [ ("horizon", VStr "3month");
             ("with_ipos", VBool false);
             ("earnings",
               VList [ VDict [ ("symbol", VStr "IBM");
                               ("name",
                                 VStr "International Business Machines");
                               ("report_date", VStr "2024-04-17");
                               ("fiscal_date_ending", VStr "2024-03-31");
                               ("estimate", VStr "1.59");
                               ("currency", VStr "USD") ];
                       VDict [ ("symbol", VStr "MSFT");
                               ("name", VStr "Microsoft Corp");
                               ("report_date", VStr "2024-04-23");
                               ("fiscal_date_ending", VStr "2024-03-31");
                               ("estimate", VStr "2.81");
                               ("currency", VStr "USD") ] ]);
             ("ipos", VList []) ])).
Proof. reflexivity. Qed.

Example csv_empty_text :
  Csv.csv_to_list EmptyString Csv.earnings_headers = [] /\
  Csv.csv_to_listings EmptyString = [].
Proof. split; reflexivity. Qed.

(** ** C7: the key normalizers *)

Lemma renamed_keys (mappings : list (string * string)) (source : dict) :
  incl (Dict.keys (renamed mappings source)) (map snd mappings).
Proof.
  induction mappings as [| [old new] rest IH]; intros k Hk; [contradiction |].
  unfold renamed, Dict.keys in Hk. cbn [flat_map fst snd] in Hk.
  rewrite map_app in Hk. apply in_app_iff in Hk.
  destruct Hk as [Hk | Hk].
  - left. destruct (Dict.get old source); [| contradiction].
    destruct Hk as [<- | []]. reflexivity.
  - right. now apply IH.
Qed.

Lemma get_app {A} (k : string) (d1 d2 : list (string * A)) :
  Dict.get k (d1 ++ d2)
  = match Dict.get k d1 with Some v => Some v | None => Dict.get k d2 end.
Proof.
  induction d1 as [| [k' v'] d1 IH]; [reflexivity |].
  simpl. now destruct (String.eqb k k').
Qed.

Lemma get_absent {A} (k : string) (d : list (string * A)) :
  ~ In k (Dict.keys d) -> Dict.get k d = None.
Proof.
  intros H. destruct (Dict.get k d) eqn:E; [| reflexivity].
  exfalso. apply H. apply has_In_keys. unfold Dict.has. now rewrite E.
Qed.

(** Under a table whose new names are distinct, a new name is present
    exactly when its old name is, with the same value. *)
Lemma renamed_get (mappings : list (string * string)) (source : dict) :
  NoDup (map snd mappings) ->
  forall old new,
    In (old, new) mappings ->
    Dict.get new (renamed mappings source) = Dict.get old source.
Proof.
  induction mappings as [| [o n] rest IH]; intros Hnd old new Hin;
    [contradiction |].
  simpl in Hnd. inversion Hnd as [| x l Hfresh Hrest]; subst.
  unfold renamed. cbn [flat_map fst snd]. rewrite get_app.
  destruct Hin as [Heq | Hin].
  - inversion Heq; subst.
    destruct (Dict.get old source) as [v |] eqn:E.
    + simpl. now rewrite String.eqb_refl.
    + simpl. apply get_absent. intros Hk. apply Hfresh.
      now apply (renamed_keys rest source).
  - assert (Hne : new <> n).
    { intros ->. apply Hfresh. change n with (snd (old, n)).
      now apply in_map. }
    assert (Hhead : Dict.get new
                      (match Dict.get o source with
                       | Some v => [(n, v)]
                       | None => []
                       end) = None).
    { destruct (Dict.get o source); [| reflexivity].
      simpl. now destruct (String.eqb_spec new n). }
    rewrite Hhead. now apply IH.
Qed.

Lemma renamed_keys_nodup (mappings : list (string * string)) (source : dict) :
  NoDup (map snd mappings) -> NoDup (Dict.keys (renamed mappings source)).
Proof.
  induction mappings as [| [o n] rest IH]; intros Hnd; [constructor |].
  simpl in Hnd. inversion Hnd as [| x l Hfresh Hrest]; subst.
  unfold renamed, Dict.keys. cbn [flat_map fst snd]. rewrite map_app.
  destruct (Dict.get o source); [| exact (IH Hrest)].
  simpl. constructor; [| exact (IH Hrest)].
  intros Hk. apply Hfresh. now apply (renamed_keys rest source).
Qed.

(** The renaming loop over a mapping: the new pairs go after the ones
    already there. *)
Lemma rename_present_dict (rate : dict) :
  forall (mappings : list (string * string)) (normalized_rate : dict),
    NoDup (map snd mappings) ->
    (forall new, In new (map snd mappings) ->
                 ~ In new (Dict.keys normalized_rate)) ->
    FxRate.rename_present mappings (VDict rate) normalized_rate
    = Ok (normalized_rate ++ renamed mappings rate).
Proof.
  induction mappings as [| [old new] rest IH]; intros acc Hnd Hfresh.
  - simpl. now rewrite app_nil_r.
  - simpl in Hnd. inversion Hnd as [| x l Hnew Hrest]; subst.
    cbn [FxRate.rename_present py_contains py_getitem rbind].
    unfold renamed. cbn [flat_map fst snd]. unfold Dict.has.
    destruct (Dict.get old rate) as [v |].
    + cbn [rbind]. rewrite set_fresh by (apply Hfresh; now left).
      rewrite IH; [now rewrite <- app_assoc | exact Hrest |].
      intros k Hk Hin. unfold Dict.keys in Hin. rewrite map_app in Hin.
      apply in_app_iff in Hin. destruct Hin as [Hin | [<- | []]].
      * apply (Hfresh k); [now right | exact Hin].
      * contradiction.
    + apply IH; [exact Hrest |].
      intros k Hk. apply Hfresh. now right.
Qed.

(** Whatever the container is, a renaming that returns has only added
    new names of the table. *)
Lemma rename_present_closed (rate_data : value) :
  forall (mappings : list (string * string)) (acc out : dict),
    FxRate.rename_present mappings rate_data acc = Ok out ->
    incl (Dict.keys out) (Dict.keys acc ++ map snd mappings).
Proof.
  induction mappings as [| [old new] rest IH]; intros acc out H.
  - simpl in H. inversion H; subst. rewrite app_nil_r. apply incl_refl.
  - cbn [FxRate.rename_present] in H.
    destruct (py_contains old rate_data) as [present |]; [| discriminate H].
    cbn [rbind] in H. destruct present.
    + destruct (py_getitem old rate_data) as [v |]; [| discriminate H].
      cbn [rbind] in H. apply IH in H.
      intros k Hk. apply H in Hk. rewrite keys_set in Hk.
      apply in_app_iff in Hk. apply in_app_iff.
      destruct Hk as [Hk | Hk]; [| right; now right].
      destruct (Dict.has new acc); [now left |].
      apply in_app_iff in Hk. destruct Hk as [Hk | [<- | []]];
        [now left | right; now left].
    + apply IH in H. intros k Hk. apply H in Hk.
      apply in_app_iff in Hk. apply in_app_iff.
      destruct Hk as [Hk | Hk]; [now left | right; now right].
Qed.

Lemma build_with_defaults_dict (source : dict)
  (entries : list (string * (string * value))) :
  build_with_defaults (VDict source) entries = Ok (defaulted entries source).
Proof.
  induction entries as [| [new [old default]] rest IH]; [reflexivity |].
  cbn [build_with_defaults value_get_default rbind]. now rewrite IH.
Qed.

(** *** The order of strings and the latest date *)

Lemma compare_not_gt_trans :
  forall a b c : string,
    String.compare a b <> Gt -> String.compare b c <> Gt ->
    String.compare a c <> Gt.
Proof.
  induction a as [| x a IH]; intros [| y b] [| z c]; simpl;
    try congruence.
  unfold Ascii.compare.
  destruct (N.compare_spec (N_of_ascii x) (N_of_ascii y));
    destruct (N.compare_spec (N_of_ascii y) (N_of_ascii z));
    destruct (N.compare_spec (N_of_ascii x) (N_of_ascii z));
    try congruence; try lia.
  apply IH.
Qed.

Lemma leb_trans (a b c : string) :
  String.leb a b = true -> String.leb b c = true -> String.leb a c = true.
Proof.
  unfold String.leb. intros Hab Hbc.
  assert (H : String.compare a c <> Gt).
  { apply (compare_not_gt_trans a b c).
    - intros E. now rewrite E in Hab.
    - intros E. now rewrite E in Hbc. }
  now destruct (String.compare a c).
Qed.

Lemma leb_refl (a : string) : String.leb a a = true.
Proof. now destruct (String.leb_total a a). Qed.

(** The head of [sorted(keys, reverse=True)] is a key, and no key is
    above it. *)
Lemma sorted_desc_head (l : list string) :
  l <> [] ->
  exists latest rest,
    Sorting.sorted_desc l = latest :: rest /\
    In latest l /\
    forall k, In k l -> String.leb k latest = true.
Proof.
  induction l as [| a l IH]; intros Hne; [contradiction |].
  unfold Sorting.sorted_desc. cbn [fold_right].
  fold (Sorting.sorted_desc l).
  destruct l as [| b l'].
  - exists a, []. repeat split; [now left |].
    intros k [<- | []]. apply leb_refl.
  - destruct IH as (m & rest & Hs & Hin & Hmax); [discriminate |].
    rewrite Hs. cbn [Sorting.insert_desc].
    destruct (String.leb m a) eqn:E.
    + exists a, (m :: rest). repeat split; [now left |].
      intros k [<- | Hk]; [apply leb_refl |].
      apply (leb_trans k m a); [now apply Hmax | exact E].
    + exists m, (Sorting.insert_desc a rest). repeat split; [now right |].
      intros k [<- | Hk]; [| now apply Hmax].
      destruct (String.leb_total a m) as [H | H]; [exact H | congruence].
Qed.


Lemma find_key_none (p : string -> bool) (d : dict) :
  (forall k, In k (Dict.keys d) -> p k = false) -> find_key p d = None.
Proof.
  unfold find_key. induction (Dict.keys d) as [| k l IH]; intros H;
    [reflexivity |].
  simpl. rewrite (H k) by now left. apply IH.
  intros k' Hk'. apply H. now right.
Qed.

(** ** The crypto quote normalizer *)


Lemma get_or_none_dict (k : string) (d fields : dict) :
  Dict.get_or_none k d = VDict fields -> Dict.get k d = Some (VDict fields).
Proof.
  unfold Dict.get_or_none, Dict.get_default.
  destruct (Dict.get k d); [now intros -> | discriminate].
Qed.

(** Whatever it is given, a quote that [normalize_crypto_quote] returns
    is made of the metadata of the payload and of the entry of the latest
    date of its series. *)
Lemma normalize_decoded_inversion (symbol market : string)
  (data out : value) :
  normalize_decoded symbol market data = Ok out ->
  exists (d : dict) (key : string) (series md : dict) (latest : string)
         (prices : dict),
    data = VDict d /\
    Dict.get_default "Meta Data" (VDict []) d = VDict md /\
    find_key is_series_key d = Some key /\
    Dict.get key d = Some (VDict series) /\
    In latest (Dict.keys series) /\
    (forall k, In k (Dict.keys series) -> String.leb k latest = true) /\
    Dict.get latest series = Some (VDict prices) /\
    out = VDict (defaulted (quote_fields symbol market) md ++
                 [("current_quote",
                    VDict (("date", VStr latest)
                           :: defaulted price_fields prices))]).
Proof.
  unfold normalize_decoded. intros H.
  destruct data as [| | | | | | d]; try discriminate H.
  destruct (find_key is_series_key d) as [key |] eqn:Hkey; [| discriminate H].
  destruct (Dict.get_or_none key d) as [| | | | | | series] eqn:Hget;
    try discriminate H.
  apply get_or_none_dict in Hget. cbn [value_items rbind] in H.
  destruct (Sorting.sorted_desc (Dict.keys series)) as [| latest rest] eqn:Hs;
    [discriminate H |].
  destruct (sorted_desc_head (Dict.keys series))
    as (latest' & rest' & Hs' & Hin & Hmax).
  { intros Hnil. rewrite Hnil in Hs. discriminate Hs. }
  rewrite Hs in Hs'. injection Hs' as <- _.
  destruct (Dict.get_default "Meta Data" (VDict []) d)
    as [| | | | | | md] eqn:Hmd; try discriminate H.
  destruct (Dict.get_or_none latest series) as [| | | | | | prices] eqn:Hp;
    try (rewrite build_with_defaults_dict in H; discriminate H).
  apply get_or_none_dict in Hp.
  rewrite !build_with_defaults_dict in H. cbn [rbind] in H.
  rewrite set_fresh in H by (simpl; intuition discriminate).
  injection H as <-.
  exists d, key, series, md, latest, prices. repeat split; assumption.
Qed.

Lemma defaulted_get (entries : list (string * (string * value)))
  (source : dict) :
  NoDup (map fst entries) ->
  forall new old default,
    In (new, (old, default)) entries ->
    Dict.get new (defaulted entries source)
    = Some (Dict.get_default old default source).
Proof.
  induction entries as [| [n [o dflt]] rest IH]; intros Hnd new old default Hin;
    [contradiction |].
  simpl in Hnd. inversion Hnd as [| x l Hfresh Hrest]; subst.
  cbn [defaulted map fst snd Dict.get].
  destruct Hin as [Heq | Hin].
  - inversion Heq; subst. now rewrite String.eqb_refl.
  - destruct (String.eqb_spec new n) as [-> | _].
    + exfalso. apply Hfresh. change n with (fst (n, (old, default))).
      now apply in_map.
    + now apply IH.
Qed.

(** C7, as stated, fails for [normalize_crypto_quote]: a field that the
    payload does not carry is not left out, it is set to a default.  Here
    the metadata have no currency name, no market name, no refresh time
    and no time zone, and the quote shows all four as empty strings. *)
Lemma crypto_quote_placeholder_counterexample :
  outcome (Samples.by_helper (fun _ => VStr "quote"))
    (get_current_crypto_quote Samples.decode "BTC" "USD")
  = Ok (VDict [ ("symbol", VStr "BTC");
                ("name", VStr EmptyString);
                ("market", VStr "EUR");
                ("market_name", VStr EmptyString);
                ("last_refreshed", VStr EmptyString);
                ("time_zone", VStr EmptyString);
                ("current_quote",
                  VDict [ ("date", VStr "2024-01-03");
                          ("open", VStr "41000.0");
                          ("high", VStr "42500.0");
                          ("low", VStr "40500.0");
                          ("close", VStr "42000.0");
                          ("volume", VStr "1234.5") ]) ]) /\
  get_field "3. Digital Currency Name"
    (get_field "Meta Data" Samples.crypto_payload) = VNone.
Proof. split; reflexivity. Qed.

(** C7, amended.  The record that [normalize_fx_rate_keys] makes of a
    payload with the rate container has keys of the nine canonical names
    only; when the container is a mapping, a canonical key is present
    exactly when its upstream key is, with the upstream value, so an
    absent key is absent and never a placeholder; the FX example of the
    design document holds.  The record of [normalize_crypto_quote] also
    has a fixed set of keys, but it always carries all of them: each
    field is read from the "Meta Data" of the payload, or from the entry
    of the latest date of its series, and a field that is absent there is
    set to its default (the empty string, or the requested symbol or
    market). *)
Theorem key_normalizers_closed_schema :
  (forall (d : dict) (rate_data out : value),
      Dict.get FxRate.container_key d = Some rate_data ->
      FxRate.normalize_fx_rate_keys (VDict d) = Ok out ->
      exists o, out = VDict o /\
                incl (Dict.keys o) (map snd FxRate.key_mappings)) /\
  (forall (d rate : dict),
      Dict.get FxRate.container_key d = Some (VDict rate) ->
      FxRate.normalize_fx_rate_keys (VDict d)
      = Ok (VDict (renamed FxRate.key_mappings rate)) /\
      NoDup (Dict.keys (renamed FxRate.key_mappings rate)) /\
      forall old new,
        In (old, new) FxRate.key_mappings ->
        Dict.get new (renamed FxRate.key_mappings rate) = Dict.get old rate) /\
  (forall (ds : data_source) (from_currency to_currency : string),
      ds [] (Call fetch_exchange_rate
               [VStr from_currency; VStr to_currency] [])
      = Ok Samples.fx_payload ->
      outcome ds (get_current_fx_rate from_currency to_currency)
      = Ok (VDict [ ("from_currency_code", VStr "USD");
                    ("exchange_rate", VStr "0.92") ])) /\
  (forall (symbol market : string) (data out : value),
      normalize_decoded symbol market data = Ok out ->
      exists (d : dict) (key : string) (series md : dict) (latest : string)
             (prices : dict),
        data = VDict d /\
        Dict.get_default "Meta Data" (VDict []) d = VDict md /\
        find_key is_series_key d = Some key /\
        Dict.get key d = Some (VDict series) /\
        In latest (Dict.keys series) /\
        (forall k, In k (Dict.keys series) -> String.leb k latest = true) /\
        Dict.get latest series = Some (VDict prices) /\
        let blank := VStr EmptyString in
        let meta k default := Dict.get_default k default md in
        let price k := Dict.get_default k blank prices in
        out
        = VDict
            [ ("symbol", meta "2. Digital Currency Code" (VStr symbol));
              ("name", meta "3. Digital Currency Name" blank);
              ("market", meta "4. Market Code" (VStr market));
              ("market_name", meta "5. Market Name" blank);
              ("last_refreshed", meta "6. Last Refreshed" blank);
              ("time_zone", meta "7. Time Zone" blank);
              ("current_quote",
                VDict [ ("date", VStr latest);
                        ("open", price "1. open");
                        ("high", price "2. high");
                        ("low", price "3. low");
                        ("close", price "4. close");
                        ("volume", price "5. volume") ]) ]).
Proof.
  split; [| split; [| split]].
  - intros d rate_data out Hget H.
    unfold FxRate.normalize_fx_rate_keys in H. rewrite Hget in H.
    destruct (FxRate.rename_present FxRate.key_mappings rate_data [])
      as [o |] eqn:E; [| discriminate H].
    inversion H; subst. exists o. split; [reflexivity |].
    exact (rename_present_closed _ _ _ _ E).
  - intros d rate Hget.
    assert (Hnd : NoDup (map snd FxRate.key_mappings))
      by (repeat constructor; simpl; intuition discriminate).
    split; [| split].
    + unfold FxRate.normalize_fx_rate_keys. rewrite Hget.
      rewrite rename_present_dict; [reflexivity | exact Hnd |].
      intros new _ [].
    + now apply renamed_keys_nodup.
    + now apply renamed_get.
  - intros ds from_currency to_currency Hds.
    unfold outcome, get_current_fx_rate. rewrite bind_await.
    rewrite (run_await _ _ _ _ _ Hds). reflexivity.
  - intros symbol market data out H.
    destruct (normalize_decoded_inversion symbol market data out H)
      as (d & key & series & md & latest & prices
          & Hd & Hmd & Hkey & Hget & Hin & Hmax & Hp & Hout).
    exists d, key, series, md, latest, prices.
    repeat (split; [assumption |]). exact Hout.
Qed.

Lemma key_normalizers_closed_schema_witness :
  FxRate.normalize_fx_rate_keys Samples.fx_payload
  = Ok (VDict [ ("from_currency_code", VStr "USD");
                ("exchange_rate", VStr "0.92") ]) /\
  outcome (Samples.by_helper (fun _ => Samples.fx_payload))
    (get_current_fx_rate "USD" "EUR")
  = Ok (VDict [ ("from_currency_code", VStr "USD");
                ("exchange_rate", VStr "0.92") ]) /\
  exists q, normalize_decoded "BTC" "USD" Samples.crypto_payload = Ok (VDict q)
            /\ Dict.get "name" q = Some (VStr EmptyString)
            /\ Dict.get "market" q = Some (VStr "EUR").
Proof.
  destruct key_normalizers_closed_schema as (_ & Hfx & Hex & Hq).
  split; [| split].
  - destruct (Hfx [ ("Realtime Currency Exchange Rate",
                      VDict [ ("1. From_Currency Code", VStr "USD");
                              ("5. Exchange Rate", VStr "0.92") ]) ]
                [ ("1. From_Currency Code", VStr "USD");
                  ("5. Exchange Rate", VStr "0.92") ] eq_refl) as (H & _).
    exact H.
  - apply Hex. reflexivity.
  - destruct (Hq "BTC" "USD" Samples.crypto_payload _ eq_refl)
      as (d & key & series & md & latest & prices
          & Hd & Hmd & _ & _ & _ & _ & _ & Hout).
    injection Hd as <-. vm_compute in Hmd. injection Hmd as <-.
    injection Hout as Hq'. eexists.
    split; [reflexivity |]. split; reflexivity.
Defined.

(** ** C9: the missing time-series container *)




(** A container that is there but empty also raises. *)
Example crypto_quote_empty_series :
  normalize_decoded "BTC" "EUR"
    (VDict [("Time Series (Digital Currency Daily)", VDict [])])
  = Err (ValueError "No time series data available").
Proof. reflexivity. Qed.

(** * Further properties *)

(** ** Sorting *)

Lemma insert_item_perm {A} (k : string) (a : A) (l : list (string * A)) :
  Permutation (Sorting.insert_item k a l) ((k, a) :: l).
Proof.
  induction l as [| [k' a'] l IH]; [reflexivity |].
  cbn [Sorting.insert_item]. destruct (String.leb k k'); [reflexivity |].
  rewrite IH. apply perm_swap.
Qed.

Lemma sorted_items_perm {A} (l : list (string * A)) :
  Permutation (Sorting.sorted_items l) l.
Proof.
  unfold Sorting.sorted_items. induction l as [| [k a] l IH]; [reflexivity |].
  cbn [fold_right fst snd]. rewrite insert_item_perm. now constructor.
Qed.

Lemma insert_item_sorted {A} (k : string) (a : A) (l : list (string * A)) :
  StronglySorted (fun x y => String.leb (fst x) (fst y) = true) l ->
  StronglySorted (fun x y => String.leb (fst x) (fst y) = true)
    (Sorting.insert_item k a l).
Proof.
  induction l as [| [k' a'] l IH]; intros Hs.
  - repeat constructor.
  - apply StronglySorted_inv in Hs. destruct Hs as (Hl & Hall).
    cbn [Sorting.insert_item]. destruct (String.leb k k') eqn:E.
    + constructor; [now constructor |].
      constructor; [exact E |].
      eapply Forall_impl; [| exact Hall].
      intros y Hy. cbn [fst] in *. now apply (leb_trans k k' (fst y)).
    + constructor; [now apply IH |].
      eapply Permutation_Forall; [symmetry; apply insert_item_perm |].
      constructor; [| exact Hall]. cbn [fst].
      destruct (String.leb_total k' k) as [H | H]; [exact H | congruence].
Qed.

Lemma sorted_items_sorted {A} (l : list (string * A)) :
  StronglySorted (fun x y => String.leb (fst x) (fst y) = true)
    (Sorting.sorted_items l).
Proof.
  unfold Sorting.sorted_items. induction l as [| [k a] l IH]; [constructor |].
  cbn [fold_right fst snd]. now apply insert_item_sorted.
Qed.

Lemma ascending_keys {A B} (f : A -> string) (g : A -> B) (h : B -> string)
  (l : list A) :
  (forall x, h (g x) = f x) ->
  StronglySorted (fun x y => String.leb (f x) (f y) = true) l ->
  ascending (map h (map g l)).
Proof.
  intros Hfg. unfold ascending. induction 1 as [| x l Hl IH Hall];
    [constructor |].
  cbn [map]. constructor; [exact IH |].
  rewrite map_map. apply Forall_map. eapply Forall_impl; [| exact Hall].
  intros y Hy. now rewrite !Hfg.
Qed.

(** ** The cleaning of [get_stock_time_series] *)

Lemma drop_none_keys (l : dict) : incl (Dict.keys (drop_none l)) (Dict.keys l).
Proof.
  intros k Hk. unfold Dict.keys, drop_none in *.
  apply in_map_iff in Hk. destruct Hk as (kv & <- & Hin).
  apply filter_In in Hin. now apply in_map.
Qed.

Lemma drop_none_nodup (l : dict) :
  NoDup (Dict.keys l) -> NoDup (Dict.keys (drop_none l)).
Proof.
  induction l as [| [k v] l IH]; intros H; [constructor |].
  inversion H as [| x l' Hk Hl]; subst.
  unfold drop_none. cbn [filter snd].
  destruct (negb (is_none v)); [| now apply IH].
  cbn [Dict.keys map fst]. constructor; [| now apply IH].
  intros Hin. apply Hk. now apply (drop_none_keys l).
Qed.

Lemma drop_none_non_null (l : dict) :
  Forall (fun kv => snd kv <> VNone) (drop_none l).
Proof.
  apply Forall_forall. intros [k v] Hin. apply filter_In in Hin.
  destruct Hin as (_ & Hv). cbn [snd] in *. now destruct v.
Qed.

(** Looking a key up after the nulls are dropped. *)
Lemma drop_none_get (k : string) (l : dict) :
  NoDup (Dict.keys l) ->
  Dict.get k (drop_none l) = non_null (Dict.get k l).
Proof.
  induction l as [| [k' v] l IH]; intros H; [reflexivity |].
  inversion H as [| x l' Hk Hl]; subst.
  unfold drop_none. cbn [filter snd Dict.get].
  destruct (String.eqb_spec k k') as [-> | Hne].
  - destruct v; cbn [is_none negb non_null Dict.get];
      rewrite ?String.eqb_refl; try reflexivity.
    fold (drop_none l). apply get_absent.
    intros Hin. apply Hk. now apply (drop_none_keys l).
  - destruct (negb (is_none v)); cbn [Dict.get].
    + destruct (String.eqb_spec k k'); [contradiction |]. now apply IH.
    + now apply IH.
Qed.

Lemma non_null_get_or_none (k : string) (d : dict) :
  non_null (Some (Dict.get_or_none k d)) = non_null (Dict.get k d).
Proof.
  unfold Dict.get_or_none, Dict.get_default. now destruct (Dict.get k d).
Qed.

(** Updating with fresh, distinct keys appends them in order. *)
Lemma update_fresh {A} (u d : list (string * A)) :
  NoDup (Dict.keys u) ->
  (forall k, In k (Dict.keys u) -> ~ In k (Dict.keys d)) ->
  Dict.update u d = d ++ u.
Proof.
  unfold Dict.update. revert d.
  induction u as [| [k v] u IH]; intros d Hnd Hfresh.
  - simpl. now rewrite app_nil_r.
  - inversion Hnd as [| x l Hk Hu]; subst.
    cbn [fold_left fst snd].
    rewrite set_fresh by (apply Hfresh; now left).
    rewrite IH; [now rewrite <- app_assoc | exact Hu |].
    intros k' Hin Hd. unfold Dict.keys in Hd. rewrite map_app in Hd.
    apply in_app_iff in Hd. destruct Hd as [Hd | [<- | []]].
    + apply (Hfresh k'); [now right | exact Hd].
    + contradiction.
Qed.

Lemma cleaned_point_keys (data : value) :
  incl (Dict.keys (cleaned_point data)) stock_point_keys /\
  NoDup (Dict.keys (cleaned_point data)) /\
  Forall (fun kv => snd kv <> VNone) (cleaned_point data).
Proof.
  unfold cleaned_point, StockSeries.clean_point.
  destruct data as [| | | | | | d];
    try (split; [intros k [] | split; constructor]).
  split; [| split].
  - intros k Hk. apply drop_none_keys in Hk. exact Hk.
  - apply drop_none_nodup. repeat constructor; simpl; intuition discriminate.
  - apply drop_none_non_null.
Qed.

(** The loop that fills [cleaned_time_series], over entries that are
    mappings under distinct dates. *)
Lemma clean_series_entries :
  forall (entries : dict) (cleaned : list (string * dict)),
    Forall (fun kv => is_dict (snd kv) = true) entries ->
    NoDup (Dict.keys entries) ->
    (forall k, In k (Dict.keys entries) -> ~ In k (Dict.keys cleaned)) ->
    StockSeries.clean_series entries cleaned
    = Ok (cleaned ++
          map (fun kv => (fst kv, cleaned_point (snd kv))) entries).
Proof.
  induction entries as [| [date data] rest IH]; intros cleaned Hd Hnd Hfresh.
  - simpl. now rewrite app_nil_r.
  - inversion Hd as [| x l Hdata Hrest]; subst.
    inversion Hnd as [| x l Hdate Hnd']; subst.
    cbn [StockSeries.clean_series map fst snd].
    destruct data as [| | | | | | d]; try discriminate Hdata.
    unfold cleaned_point. cbn [StockSeries.clean_point rbind].
    rewrite set_fresh by (apply Hfresh; now left).
    rewrite IH; [now rewrite <- app_assoc | exact Hrest | exact Hnd' |].
    intros k Hin Hk. unfold Dict.keys in Hk. rewrite map_app in Hk.
    apply in_app_iff in Hk. destruct Hk as [Hk | [<- | []]].
    + apply (Hfresh k); [now right | exact Hk].
    + contradiction.
Qed.

Lemma dated_item_shape (date : string) (data : value) :
  StockSeries.dated_item (date, cleaned_point data)
  = VDict (("date", VStr date) :: cleaned_point data).
Proof.
  unfold StockSeries.dated_item. cbn [fst snd].
  destruct (cleaned_point_keys data) as (Hincl & Hnd & _).
  rewrite update_fresh; [reflexivity | exact Hnd |].
  intros k Hk [<- | []]. apply Hincl in Hk.
  simpl in Hk. intuition discriminate.
Qed.

Lemma insert_item_map {A B} (g : A -> B) (k : string) (a : A)
  (l : list (string * A)) :
  Sorting.insert_item k (g a) (map (fun kv => (fst kv, g (snd kv))) l)
  = map (fun kv => (fst kv, g (snd kv))) (Sorting.insert_item k a l).
Proof.
  induction l as [| [k' a'] l IH]; [reflexivity |].
  cbn [map Sorting.insert_item fst snd].
  destruct (String.leb k k'); [reflexivity |]. now rewrite IH.
Qed.

(** Sorting by key commutes with a change of the values. *)
Lemma sorted_items_map {A B} (g : A -> B) (l : list (string * A)) :
  Sorting.sorted_items (map (fun kv => (fst kv, g (snd kv))) l)
  = map (fun kv => (fst kv, g (snd kv))) (Sorting.sorted_items l).
Proof.
  unfold Sorting.sorted_items. induction l as [| [k a] l IH]; [reflexivity |].
  cbn [map fold_right fst snd]. rewrite IH. apply insert_item_map.
Qed.

(** What [clean] returns for a payload with a series of mappings. *)
Lemma clean_with_series (interval : string) (raw : dict) (key : string)
  (series : dict) :
  find_key (contains "Time Series") raw = Some key ->
  Dict.get key raw = Some (VDict series) ->
  Forall (fun kv => is_dict (snd kv) = true) series ->
  NoDup (Dict.keys series) ->
  metadata_cleanable raw = true ->
  exists cleaned,
    StockSeries.clean interval (VDict raw) = Ok (VDict cleaned) /\
    Dict.get "items" cleaned
    = Some (VList
              (map (fun kv => VDict (("date", VStr (fst kv))
                                     :: cleaned_point (snd kv)))
                   (Sorting.sorted_items series))) /\
    forall k, k <> "items" -> k <> "metadata" -> Dict.get k cleaned = None.
Proof.
  intros Hkey Hget Hd Hnd Hm.
  assert (Hitems :
            map StockSeries.dated_item
              (Sorting.sorted_items
                 (map (fun kv => (fst kv, cleaned_point (snd kv))) series))
            = map (fun kv => VDict (("date", VStr (fst kv))
                                    :: cleaned_point (snd kv)))
                  (Sorting.sorted_items series)).
  { rewrite sorted_items_map, map_map.
    apply map_ext. intros [date data]. apply dated_item_shape. }
  assert (Hseries : StockSeries.clean_series series []
                    = Ok (map (fun kv => (fst kv, cleaned_point (snd kv)))
                              series)).
  { rewrite (clean_series_entries series [] Hd Hnd) by (intros k _ []).
    reflexivity. }
  unfold StockSeries.clean, metadata_cleanable in *. rewrite Hkey.
  unfold Dict.get_or_none, Dict.get_default. rewrite Hget.
  destruct (Dict.get "Meta Data" raw) as [meta |].
  - destruct meta as [| | | | | | m]; try discriminate Hm.
    cbn [StockSeries.clean_metadata rbind value_items].
    rewrite Hseries. cbn [rbind]. rewrite Hitems. eexists.
    split; [reflexivity |]. split; [apply get_set_same |].
    intros k Hi Hmeta. now rewrite !get_set_other by assumption.
  - cbn [rbind value_items]. rewrite Hseries. cbn [rbind]. rewrite Hitems.
    eexists. split; [reflexivity |]. split; [apply get_set_same |].
    intros k Hi Hmeta. now rewrite get_set_other by assumption.
Qed.

Lemma item_date_dated (date : string) (fields : dict) :
  item_date (VDict (("date", VStr date) :: fields)) = date.
Proof. reflexivity. Qed.

(** X1. For a payload whose series is a mapping of mappings,
    [get_stock_time_series] returns one item per date of the series, in
    ascending order of the dates, whatever the order of the payload. *)
Theorem stock_series_items_ascending :
  forall (interval : string) (raw : dict) (key : string) (series : dict),
    find_key (contains "Time Series") raw = Some key ->
    Dict.get key raw = Some (VDict series) ->
    Forall (fun kv => is_dict (snd kv) = true) series ->
    NoDup (Dict.keys series) ->
    metadata_cleanable raw = true ->
    exists cleaned items,
      StockSeries.clean interval (VDict raw) = Ok (VDict cleaned) /\
      Dict.get "items" cleaned = Some (VList items) /\
      List.length items = List.length series /\
      Permutation (map item_date items) (Dict.keys series) /\
      ascending (map item_date items).
Proof.
  intros interval raw key series Hkey Hget Hd Hnd Hm.
  destruct (clean_with_series interval raw key series Hkey Hget Hd Hnd Hm)
    as (cleaned & Hok & Hitems & _).
  eexists. eexists. split; [exact Hok |]. split; [exact Hitems |].
  split; [| split].
  - rewrite length_map. apply Permutation_length, sorted_items_perm.
  - rewrite map_map. cbn [item_date get_field Dict.get_or_none].
    change (map (fun x : string * value => fst x)
              (Sorting.sorted_items series))
      with (Dict.keys (Sorting.sorted_items series)).
    unfold Dict.keys. apply Permutation_map, sorted_items_perm.
  - apply (ascending_keys fst); [reflexivity | apply sorted_items_sorted].
Qed.

Lemma stock_series_items_ascending_witness :
  exists cleaned items,
    StockSeries.clean "daily" (VDict MoreSamples.stock_raw)
    = Ok (VDict cleaned) /\
    Dict.get "items" cleaned = Some (VList items) /\
    List.length items = 2 /\
    Permutation (map item_date items) ["2024-01-03"; "2024-01-02"] /\
    ascending (map item_date items).
Proof.
  apply (stock_series_items_ascending "daily" MoreSamples.stock_raw
           "Time Series (Daily)" MoreSamples.stock_series).
  - reflexivity.
  - reflexivity.
  - repeat constructor.
  - repeat constructor; simpl; intuition discriminate.
  - reflexivity.
Defined.

(** The fields of a cleaned point, read off the entry. *)
Lemma cleaned_point_fields (entry : dict) :
  let point := cleaned_point (VDict entry) in
  Dict.get "open" point = non_null (Dict.get "1. open" entry) /\
  Dict.get "high" point = non_null (Dict.get "2. high" entry) /\
  Dict.get "low" point = non_null (Dict.get "3. low" entry) /\
  Dict.get "close" point = non_null (Dict.get "4. close" entry) /\
  Dict.get "adjusted_close" point
  = non_null (Dict.get "5. adjusted close" entry) /\
  Dict.get "volume" point
  = non_null (Some (py_or (Dict.get_or_none "5. volume" entry)
                          (Dict.get_or_none "6. volume" entry))) /\
  Dict.get "dividend_amount" point
  = non_null (Dict.get "7. dividend amount" entry) /\
  Dict.get "split_coefficient" point
  = non_null (Dict.get "8. split coefficient" entry).
Proof.
  unfold cleaned_point, StockSeries.clean_point.
  assert (Hnd : NoDup stock_point_keys)
    by (repeat constructor; simpl; intuition discriminate).
  repeat split; rewrite drop_none_get by exact Hnd;
    cbn [Dict.get String.eqb Ascii.eqb Bool.eqb];
    try apply non_null_get_or_none; reflexivity.
Qed.

(** X2. Every item of [get_stock_time_series] comes from an entry of the
    series: it starts with the date, then carries only names of the fixed
    list, each with the value the entry has under the upstream key; a
    field that the entry lacks, or holds as null, is left out, so no value
    is null.  The volume is the one under "5. volume" unless that is
    missing or falsy, and then the one under "6. volume". *)
Theorem stock_series_item_fields :
  forall (interval : string) (raw : dict) (key : string) (series : dict),
    find_key (contains "Time Series") raw = Some key ->
    Dict.get key raw = Some (VDict series) ->
    Forall (fun kv => is_dict (snd kv) = true) series ->
    NoDup (Dict.keys series) ->
    metadata_cleanable raw = true ->
    exists cleaned items,
      StockSeries.clean interval (VDict raw) = Ok (VDict cleaned) /\
      Dict.get "items" cleaned = Some (VList items) /\
      forall item,
        In item items ->
        exists date entry fields,
          In (date, VDict entry) series /\
          item = VDict (("date", VStr date) :: fields) /\
          incl (Dict.keys fields) stock_point_keys /\
          NoDup (Dict.keys fields) /\
          Forall (fun kv => snd kv <> VNone) fields /\
          Dict.get "open" fields = non_null (Dict.get "1. open" entry) /\
          Dict.get "high" fields = non_null (Dict.get "2. high" entry) /\
          Dict.get "low" fields = non_null (Dict.get "3. low" entry) /\
          Dict.get "close" fields = non_null (Dict.get "4. close" entry) /\
          Dict.get "adjusted_close" fields
          = non_null (Dict.get "5. adjusted close" entry) /\
          Dict.get "volume" fields
          = non_null (Some (py_or (Dict.get_or_none "5. volume" entry)
                                  (Dict.get_or_none "6. volume" entry))) /\
          Dict.get "dividend_amount" fields
          = non_null (Dict.get "7. dividend amount" entry) /\
          Dict.get "split_coefficient" fields
          = non_null (Dict.get "8. split coefficient" entry).
Proof.
  intros interval raw key series Hkey Hget Hd Hnd Hm.
  destruct (clean_with_series interval raw key series Hkey Hget Hd Hnd Hm)
    as (cleaned & Hok & Hitems & _).
  eexists. eexists. split; [exact Hok |]. split; [exact Hitems |].
  intros item Hin. apply in_map_iff in Hin.
  destruct Hin as ([date data] & <- & Hin). cbn [fst snd].
  apply (Permutation_in _ (sorted_items_perm series)) in Hin.
  assert (Hdata : is_dict data = true).
  { rewrite Forall_forall in Hd. exact (Hd _ Hin). }
  destruct data as [| | | | | | entry]; try discriminate Hdata.
  exists date, entry, (cleaned_point (VDict entry)).
  destruct (cleaned_point_keys (VDict entry)) as (Hincl & Hnodup & Hnn).
  split; [exact Hin |]. split; [reflexivity |].
  split; [exact Hincl |]. split; [exact Hnodup |]. split; [exact Hnn |].
  apply cleaned_point_fields.
Qed.

Lemma stock_series_item_fields_witness :
  exists cleaned items,
    StockSeries.clean "daily" (VDict MoreSamples.stock_raw)
    = Ok (VDict cleaned) /\
    Dict.get "items" cleaned = Some (VList items) /\
    nth_error items 0
    = Some (VDict [ ("date", VStr "2024-01-02");
                    ("open", VStr "160.0");
                    ("close", VStr "161.2");
                    ("volume", VStr "3900000") ]).
Proof.
  destruct (stock_series_item_fields "daily" MoreSamples.stock_raw
              "Time Series (Daily)" MoreSamples.stock_series)
    as (cleaned & items & Hok & Hitems & _).
  - reflexivity.
  - reflexivity.
  - repeat constructor.
  - repeat constructor; simpl; intuition discriminate.
  - reflexivity.
  - exists cleaned, items. split; [exact Hok |]. split; [exact Hitems |].
    assert (H : Ok (VDict cleaned)
                = StockSeries.clean "daily" (VDict MoreSamples.stock_raw))
      by (symmetry; exact Hok).
    vm_compute in H. inversion H; subst cleaned.
    vm_compute in Hitems. inversion Hitems; subst items. reflexivity.
Defined.

(** X3. A payload that is a mapping without "Meta Data" and without a
    key containing "Time Series" (an upstream note, say) comes back from
    [get_stock_time_series] as the empty mapping: what it carried is
    dropped, and nothing raises.  A payload that is no mapping is
    returned as it is. *)
Theorem stock_series_note_dropped :
  forall (interval : string) (raw_data : value),
    (is_dict raw_data = false ->
     StockSeries.clean interval raw_data = Ok raw_data) /\
    (forall raw,
        raw_data = VDict raw ->
        Dict.get "Meta Data" raw = None ->
        (forall k, In k (Dict.keys raw) -> contains "Time Series" k = false) ->
        StockSeries.clean interval raw_data = Ok (VDict [])).
Proof.
  intros interval raw_data. split.
  - intros H. now destruct raw_data.
  - intros raw -> Hmeta Hnone. unfold StockSeries.clean.
    now rewrite Hmeta, (find_key_none _ _ Hnone).
Qed.

Lemma stock_series_note_dropped_witness :
  StockSeries.clean "daily" (VStr "rate limit") = Ok (VStr "rate limit") /\
  StockSeries.clean "daily"
    (VDict [("Information", VStr "API rate limit reached")])
  = Ok (VDict []).
Proof.
  split.
  - apply (stock_series_note_dropped "daily" (VStr "rate limit")).
    reflexivity.
  - destruct (stock_series_note_dropped "daily"
                (VDict [("Information", VStr "API rate limit reached")]))
      as (_ & H).
    apply (H _ eq_refl); [reflexivity |].
    intros k [<- | []]. reflexivity.
Defined.


(** ** Presets and failures in the aggregator packs *)

Lemma preset_config_unknown (presets : preset_table) (preset : string) :
  Dict.keys presets = preset_names ->
  ~ In preset preset_names ->
  preset_config presets preset = preset_config presets "standard".
Proof.
  intros Hkeys Hnot. unfold preset_config.
  rewrite (get_absent preset presets) by now rewrite Hkeys.
  destruct (Dict.get "standard" presets) eqn:E; [reflexivity |].
  exfalso.
  assert (H : Dict.has "standard" presets = true).
  { apply has_In_keys. rewrite Hkeys. simpl. auto. }
  unfold Dict.has in H. now rewrite E in H.
Qed.

Ltac step_both :=
  cbn [run bind];
  match goal with
  | |- context [match ?ds ?h ?c with Ok _ => _ | Err _ => _ end] =>
      destruct (ds h c) as [?v | ?e]; [| split; reflexivity]
  end.

Ltac finish_both :=
  match goal with
  | |- context [lift ?r] => destruct r as [?items | ?e]; split; reflexivity
  end.

(** X5. A pack asked for a preset it does not know fetches what the
    standard preset fetches and builds the same rows; the unknown name
    shows only in the metadata, which echo it. *)
Theorem pack_unknown_preset_is_standard :
  forall (P : pack) (symbol interval preset : string),
    In P all_packs ->
    ~ In preset preset_names ->
    forall ds : data_source,
      calls ds (pack_handler P symbol interval preset)
      = calls ds (pack_handler P symbol interval "standard") /\
      outcome ds (pack_handler P symbol interval preset)
      = rbind (outcome ds (pack_handler P symbol interval "standard"))
          (fun out =>
             Ok (pack_result symbol interval preset (result_items out))).
Proof.
  intros P symbol interval preset HP Hnot ds. unfold calls, outcome.
  destruct HP as [<- | [<- | [<- | [<- | []]]]];
    cbn [pack_handler trend_pack momentum_pack volatility_pack volume_pack];
    unfold get_trend_indicators, get_momentum_indicators,
      get_volatility_indicators, get_volume_indicators; cbv zeta;
    rewrite (preset_config_unknown _ preset) by (reflexivity || exact Hnot);
    repeat step_both; cbn [run bind]; finish_both.
Qed.

Lemma pack_unknown_preset_is_standard_witness :
  let ds := Samples.by_helper (fun _ => VDict []) in
  calls ds (pack_handler volume_pack "IBM" "daily" "turbo")
  = calls ds (pack_handler volume_pack "IBM" "daily" "standard").
Proof.
  intro ds.
  refine (proj1 (pack_unknown_preset_is_standard volume_pack "IBM" "daily"
                   "turbo" _ _ ds)).
  - simpl. auto.
  - simpl. intros [H | [H | [H | []]]]; discriminate H.
Defined.

(** X6. A pack awaits its upstream calls one after another and nothing
    catches a failure: when the calls before some call were answered and
    that call fails, the pack raises that very failure and the calls after
    it are never issued. *)
Theorem pack_failure_aborts :
  forall (P : pack) (symbol interval preset : string) (ds : data_source)
         (answered rest : list ds_call) (c : ds_call)
         (responses : list value) (e : error),
    In P all_packs ->
    pack_calls P symbol interval preset = answered ++ c :: rest ->
    answers ds [] answered responses ->
    ds answered c = Err e ->
    run ds [] (pack_handler P symbol interval preset)
    = (answered ++ [c], Err e).
Proof.
  intros P symbol interval preset ds answered rest c responses e
    HP Hcalls Hans Hfail.
  destruct HP as [<- | [<- | [<- | [<- | []]]]];
    cbn [pack_calls pack_handler trend_pack momentum_pack volatility_pack
           volume_pack] in *;
    unfold get_trend_indicators, get_momentum_indicators,
      get_volatility_indicators, get_volume_indicators; cbv zeta in *;
    repeat (destruct answered as [| ? answered];
            [ cbn [app] in Hcalls; injection Hcalls as Hc _; subst c;
              repeat (destruct responses as [| ? responses];
                      cbn [answers app] in Hans; try tauto);
              cbn [run bind app];
              repeat match goal with
                     | H : _ /\ _ |- _ => destruct H as [?Ha H]
                     end;
              repeat match goal with
                     | Ha : ds _ _ = Ok _ |- _ =>
                         cbn [app] in Ha; rewrite Ha; clear Ha;
                         cbn [run bind app]
                     end;
              cbn [app] in Hfail; rewrite Hfail; reflexivity
            | cbn [app] in Hcalls;
              first [ injection Hcalls as <- Hcalls
                    | discriminate Hcalls ] ]);
    destruct answered; discriminate Hcalls.
Qed.

Lemma pack_failure_aborts_witness :
  let first := indicator_call fetch_obv "IBM" "daily" [] in
  let second := indicator_call fetch_ad "IBM" "daily" [] in
  let ds : data_source :=
    fun hist _ => match hist with
                  | [] => Ok (VDict [])
                  | _ => Err (UpstreamFailure "rate limit")
                  end in
  run ds [] (pack_handler volume_pack "IBM" "daily" "standard")
  = ([first; second], Err (UpstreamFailure "rate limit")).
Proof.
  intros first second ds.
  refine (pack_failure_aborts volume_pack "IBM" "daily" "standard" ds
            [first] _ second [VDict []] _ _ _ _ _).
  - simpl. auto.
  - reflexivity.
  - simpl. auto.
  - reflexivity.
Defined.

(** ** The supported routes of the statement router *)

(** X7. [get_financial_statements] matches the statement type without
    regard to case.  For "all" it awaits the income statement, the balance
    sheet and the cash flow, in this order, and returns the three payloads
    untouched under fixed keys beside the symbol; for one of the three
    types it is the single helper call, whose payload it returns as it
    is. *)
Theorem financial_statements_routes :
  forall (symbol statement_type : string),
    let income_call := Call fetch_income_statement [VStr symbol] [] in
    let balance_call := Call fetch_balance_sheet [VStr symbol] [] in
    let cash_call := Call fetch_cash_flow [VStr symbol] [] in
    (lower statement_type = "all" ->
     forall (ds : data_source) (income balance cash : value),
       answers ds [] [income_call; balance_call; cash_call]
         [income; balance; cash] ->
       run ds [] (get_financial_statements symbol statement_type)
       = ([income_call; balance_call; cash_call],
          Ok (VDict [ ("symbol", VStr symbol);
                      ("income_statement", income);
                      ("balance_sheet", balance);
                      ("cash_flow", cash) ]))) /\
    (lower statement_type = "income" ->
     get_financial_statements symbol statement_type = await income_call) /\
    (lower statement_type = "balance" ->
     get_financial_statements symbol statement_type = await balance_call) /\
    (lower statement_type = "cash_flow" ->
     get_financial_statements symbol statement_type = await cash_call).
Proof.
  intros symbol statement_type income_call balance_call cash_call.
  unfold get_financial_statements. cbv zeta.
  repeat split; intros ->; try reflexivity.
  intros ds income balance cash (Hi & Hb & Hc & _).
  subst income_call balance_call cash_call. cbn [app] in Hb, Hc.
  cbn [String.eqb Ascii.eqb Bool.eqb].
  cbn [run bind app]. now rewrite Hi, Hb, Hc.
Qed.

Lemma financial_statements_routes_witness :
  get_financial_statements "IBM" "Cash_Flow"
  = await (Call fetch_cash_flow [VStr "IBM"] []).
Proof.
  refine (proj2 (proj2 (proj2
            (financial_statements_routes "IBM" "Cash_Flow"))) _).
  reflexivity.
Defined.

(** ** The calendar and the listing handlers *)

(** X8. [get_market_calendar] always fetches the earnings calendar and
    fetches the IPO calendar exactly when IPOs are asked for.  The result
    echoes the horizon and the flag, holds the decoded earnings, always has
    "ipos" (empty when not asked for), and has "symbol" exactly when a
    non-empty symbol was given. *)
Theorem market_calendar_shape :
  forall (symbol : option string) (horizon : string) (with_ipos : bool)
         (ds : data_source) (earnings_text ipo_text : string),
    let earnings_call :=
      Call fetch_earnings_calendar [opt_str symbol; VStr horizon] [] in
    let ipo_call := Call fetch_ipo_calendar [] [] in
    ds [] earnings_call = Ok (VStr earnings_text) ->
    (with_ipos = true -> ds [earnings_call] ipo_call = Ok (VStr ipo_text)) ->
    exists out : dict,
      run ds [] (get_market_calendar symbol horizon with_ipos)
      = (earnings_call :: (if with_ipos then [ipo_call] else []),
         Ok (VDict out)) /\
      Dict.keys out
      = ["horizon"; "with_ipos"; "earnings"] ++
        (if truthy (opt_str symbol) then ["symbol"] else []) ++ ["ipos"] /\
      Dict.get "horizon" out = Some (VStr horizon) /\
      Dict.get "with_ipos" out = Some (VBool with_ipos) /\
      Dict.get "earnings" out
      = Some (VList (Csv.csv_to_list earnings_text Csv.earnings_headers)) /\
      Dict.get "symbol" out
      = (if truthy (opt_str symbol) then Some (opt_str symbol) else None) /\
      Dict.get "ipos" out
      = Some (VList (if with_ipos
                     then Csv.csv_to_list ipo_text Csv.ipo_headers
                     else [])).
Proof.
  intros symbol horizon with_ipos ds earnings_text ipo_text
    earnings_call ipo_call Hearn Hipo.
  unfold get_market_calendar. fold earnings_call ipo_call.
  cbn [run bind]. rewrite Hearn. cbn [Csv.as_text lift bind run app].
  destruct with_ipos.
  - cbn [run bind]. rewrite (Hipo eq_refl).
    cbn [Csv.as_text lift bind run app].
    destruct (truthy (opt_str symbol)); eexists;
      (split; [reflexivity | repeat split; reflexivity]).
  - cbn [run]. destruct (truthy (opt_str symbol)); eexists;
      (split; [reflexivity | repeat split; reflexivity]).
Qed.

Lemma market_calendar_shape_witness :
  exists out : dict,
    run (Samples.by_helper (fun _ => VStr Samples.earnings_csv)) []
      (get_market_calendar (Some EmptyString) "3month" false)
    = ([Call fetch_earnings_calendar [VStr EmptyString; VStr "3month"] []],
       Ok (VDict out)) /\
    Dict.get "symbol" out = None /\
    Dict.get "ipos" out = Some (VList []).
Proof.
  destruct (market_calendar_shape (Some EmptyString) "3month" false
              (Samples.by_helper (fun _ => VStr Samples.earnings_csv))
              Samples.earnings_csv EmptyString eq_refl)
    as (out & Hrun & _ & _ & _ & _ & Hsym & Hipos).
  - intros H. discriminate H.
  - exists out. repeat split; assumption.
Defined.

(** X9. [get_listing_status] issues one call, which is given the date as
    it came (also an empty one); the result echoes the state, holds the
    decoded listings, and has "date" exactly when a non-empty date was
    given.  A payload that is not text makes it raise. *)
Theorem listing_status_shape :
  forall (date : option string) (state : string) (ds : data_source)
         (payload : value),
    let listing_call :=
      Call fetch_listing_status [opt_str date; VStr state] [] in
    ds [] listing_call = Ok payload ->
    calls ds (get_listing_status date state) = [listing_call] /\
    outcome ds (get_listing_status date state)
    = match payload with
      | VStr csv_text =>
          Ok (VDict ([ ("state", VStr state);
                       ("listings", VList (Csv.csv_to_listings csv_text)) ]
                     ++ (if truthy (opt_str date)
                         then [("date", opt_str date)] else [])))
      | _ => Err AttributeError
      end.
Proof.
  intros date state ds payload listing_call Hcall.
  unfold calls, outcome, get_listing_status. fold listing_call.
  cbn [run bind]. rewrite Hcall.
  destruct payload; cbn [Csv.as_text lift bind run fst snd];
    try (split; reflexivity).
  destruct (truthy (opt_str date)); split; reflexivity.
Qed.

Lemma listing_status_shape_witness :
  outcome (Samples.by_helper (fun _ => VNone))
    (get_listing_status (Some "2020-01-02") "delisted")
  = Err AttributeError.
Proof.
  refine (proj2 (listing_status_shape (Some "2020-01-02") "delisted"
                   (Samples.by_helper (fun _ => VNone)) VNone _)).
  reflexivity.
Defined.

(** ** Coroutines over the wider port *)

Lemma perform_bind {A B} (ep : endpoint) (t : task A) (f : A -> task B) :
  forall hist,
    perform ep hist (task_bind t f)
    = match perform ep hist t with
      | (rs, Ok a) =>
          (rs ++ fst (perform ep (hist ++ rs) (f a)),
           snd (perform ep (hist ++ rs) (f a)))
      | (rs, Err e) => (rs, Err e)
      end.
Proof.
  induction t as [a | e | r k IH]; intros hist; cbn [task_bind perform].
  - rewrite app_nil_r. cbn [app]. now destruct (perform ep hist (f a)).
  - reflexivity.
  - destruct (ep hist r) as [v | e]; [| reflexivity].
    rewrite IH. destruct (perform ep (hist ++ [r]) (k v)) as [rs [a | e]];
      [| reflexivity].
    rewrite <- app_assoc. cbn [app].
    now destruct (perform ep (hist ++ r :: rs) (f a)).
Qed.

Lemma perform_bind_done {A B} (ep : endpoint) (t : task A) (g : A -> B)
  (hist : list request) :
  perform ep hist (x <~ t ;; Done (g x))
  = (fst (perform ep hist t),
     rbind (snd (perform ep hist t)) (fun x => Ok (g x))).
Proof.
  rewrite perform_bind. destruct (perform ep hist t) as [rs [a | e]];
    cbn [perform fst snd rbind]; [now rewrite app_nil_r | reflexivity].
Qed.

Lemma wait_with_fresh (h : helper) (named params : dict) :
  existsb (fun k => Dict.has k params) (Dict.keys named) = false ->
  wait_with h named params = wait (Request h [] (named ++ params)).
Proof. unfold wait_with. now intros ->. Qed.

(** ** Rates and yields *)

Lemma treasury_yields_perform (ep : endpoint) (params : dict) :
  Dict.has "maturity" params = false ->
  forall (maturities : list string) (hist : list request)
         (results ys : list value),
    replies ep hist (map (yield_request params) maturities) ys ->
    perform ep hist (treasury_yields maturities params results)
    = (map (yield_request params) maturities,
       Ok (results ++ map yield_entry (combine maturities ys))).
Proof.
  intros Hfresh maturities.
  induction maturities as [| m rest IH]; intros hist results ys Hrep.
  - destruct ys; [| contradiction]. cbn. now rewrite app_nil_r.
  - destruct ys as [| y ys]; [contradiction |].
    destruct Hrep as [Hm Hrest].
    cbn [treasury_yields]. rewrite wait_with_fresh
      by (cbn [Dict.keys map fst existsb]; now rewrite Hfresh).
    cbn [app task_bind perform]. fold (yield_request params m).
    rewrite Hm. rewrite (IH _ _ ys Hrest).
    cbn [map combine]. rewrite <- app_assoc. reflexivity.
Qed.

(** X10. [get_rates_yields] sends the federal funds request first, when
    the target range is wanted, and then one treasury request per maturity,
    in the order of the list; the default list is the ten-year yield
    alone.  The data hold one entry per request, in that order, each
    treasury entry naming its maturity. *)
Theorem rates_yields_one_request_per_maturity :
  forall (maturities : option (list string)) (yield_basis : string)
         (include_target_range : bool) (frequency : string) (params : dict)
         (ep : endpoint) (fed : value) (ys : list value),
    let ms := maturities_in_force maturities in
    let fed_request := Request fetch_federal_funds_rate [] params in
    let rs := (if include_target_range then [fed_request] else []) ++
              map (yield_request params) ms in
    Dict.has "maturity" params = false ->
    replies ep [] rs ((if include_target_range then [fed] else []) ++ ys) ->
    perform ep []
      (get_rates_yields maturities yield_basis include_target_range
         frequency params)
    = (rs,
       Ok (VDict
             [ ("frequency", VStr frequency);
               ("yield_basis", VStr yield_basis);
               ("maturities", VList (map VStr ms));
               ("data",
                 VList ((if include_target_range
                         then [metric "federal_funds_rate" fed
                                 "Federal Funds Rate"]
                         else []) ++
                        map yield_entry (combine ms ys))) ])).
Proof.
  intros maturities yield_basis include_target_range frequency params ep
    fed ys ms fed_request rs Hfresh Hrep.
  unfold get_rates_yields. fold (maturities_in_force maturities). fold ms.
  subst rs. destruct include_target_range.
  - cbn [app replies] in Hrep. destruct Hrep as [Hfed Hrest].
    unfold wait_with at 1. cbn [Dict.keys map fst existsb app].
    cbn [task_bind]. fold fed_request. cbn [perform]. rewrite Hfed.
    rewrite perform_bind_done.
    rewrite (treasury_yields_perform ep params Hfresh ms _ _ ys Hrest).
    reflexivity.
  - cbn [app] in Hrep. cbn [task_bind]. rewrite perform_bind_done.
    rewrite (treasury_yields_perform ep params Hfresh ms _ _ ys Hrep).
    reflexivity.
Qed.

Lemma rates_yields_one_request_per_maturity_witness :
  requests (MoreSamples.endpoint_of (fun _ => VDict []))
    (get_rates_yields (Some ["2year"; "30year"]) "actual" false "monthly" [])
  = [ yield_request [] "2year"; yield_request [] "30year" ].
Proof.
  unfold requests.
  rewrite (rates_yields_one_request_per_maturity (Some ["2year"; "30year"])
             "actual" false "monthly" []
             (MoreSamples.endpoint_of (fun _ => VDict []))
             VNone [VDict []; VDict []]).
  - reflexivity.
  - reflexivity.
  - simpl. auto.
Defined.

(** X11. Any keyword that [get_rates_yields] does not know is passed on
    to the helpers; one called "maturity" collides with the maturity the
    handler passes itself.  Then, as soon as there is a maturity to fetch,
    the handler raises a TypeError: after the federal funds request when
    the target range is wanted, and else before any request. *)
Theorem rates_yields_maturity_keyword_clash :
  forall (maturities : option (list string)) (yield_basis : string)
         (include_target_range : bool) (frequency : string) (params : dict)
         (ep : endpoint) (fed : value),
    let fed_request := Request fetch_federal_funds_rate [] params in
    Dict.has "maturity" params = true ->
    maturities_in_force maturities <> [] ->
    (include_target_range = true -> ep [] fed_request = Ok fed) ->
    perform ep []
      (get_rates_yields maturities yield_basis include_target_range
         frequency params)
    = (if include_target_range then [fed_request] else [], Err TypeError).
Proof.
  intros maturities yield_basis include_target_range frequency params ep
    fed fed_request Hclash Hne Hfed.
  unfold get_rates_yields. fold (maturities_in_force maturities).
  destruct (maturities_in_force maturities) as [| m rest]; [contradiction |].
  cbn [treasury_yields]. unfold wait_with at 2.
  cbn [Dict.keys map fst existsb]. rewrite Hclash. cbn [orb task_bind].
  destruct include_target_range.
  - unfold wait_with. cbn [Dict.keys map fst existsb app task_bind perform].
    fold fed_request. now rewrite (Hfed eq_refl).
  - reflexivity.
Qed.

Lemma rates_yields_maturity_keyword_clash_witness :
  perform (MoreSamples.endpoint_of (fun _ => VDict []))  []
    (get_rates_yields None "actual" false "monthly"
       [("maturity", VStr "5year")])
  = ([], Err TypeError).
Proof.
  refine (rates_yields_maturity_keyword_clash None "actual" false "monthly"
            [("maturity", VStr "5year")]
            (MoreSamples.endpoint_of (fun _ => VDict [])) VNone _ _ _).
  - reflexivity.
  - discriminate.
  - discriminate.
Defined.

(** ** Parameters that are only echoed *)

Ltac perform_both :=
  cbn [task_bind perform];
  match goal with
  | |- context [match ?ep ?h ?r with Ok _ => _ | Err _ => _ end] =>
      destruct (ep h r) as [?v | ?e]; [| split; reflexivity]
  end.

(** X12. The frequency, the seasonal adjustment, the yield basis, the
    core and the annualized flags of the economic handlers never reach a
    helper: two calls that differ in these parameters alone send the same
    requests and return the same data; the parameters show only in the
    echo beside the data. *)
Theorem economic_parameters_only_echoed :
  forall (ep : endpoint) (params : dict),
    (forall frequency frequency' adjusted adjusted',
        let h := get_growth_metrics frequency adjusted params in
        let h' := get_growth_metrics frequency' adjusted' params in
        requests ep h = requests ep h' /\
        data_of (returned ep h) = data_of (returned ep h')) /\
    (forall maturities include_target_range basis basis' frequency
            frequency',
        let h := get_rates_yields maturities basis include_target_range
                   frequency params in
        let h' := get_rates_yields maturities basis' include_target_range
                    frequency' params in
        requests ep h = requests ep h' /\
        data_of (returned ep h) = data_of (returned ep h')) /\
    (forall core core' annualized annualized' frequency frequency'
            adjusted adjusted',
        let h := get_prices_inflation core annualized frequency adjusted
                   params in
        let h' := get_prices_inflation core' annualized' frequency'
                    adjusted' params in
        requests ep h = requests ep h' /\
        data_of (returned ep h) = data_of (returned ep h')) /\
    (forall include_demand frequency frequency' adjusted adjusted',
        let h := get_labor_activity include_demand frequency adjusted
                   params in
        let h' := get_labor_activity include_demand frequency' adjusted'
                    params in
        requests ep h = requests ep h' /\
        data_of (returned ep h) = data_of (returned ep h')).
Proof.
  intros ep params. unfold requests, returned, data_of.
  split; [| split; [| split]].
  - intros. cbv zeta. unfold get_growth_metrics, wait_with.
    cbn [Dict.keys map fst existsb app].
    repeat perform_both. split; reflexivity.
  - intros. cbv zeta. unfold get_rates_yields. cbv zeta.
    rewrite !perform_bind.
    match goal with
    | |- context [perform ep [] ?t] =>
        destruct (perform ep [] t) as [rs [results | e]]
    end; [| split; reflexivity].
    rewrite !perform_bind_done. cbn [fst snd].
    split; [reflexivity |].
    match goal with
    | |- context [snd ?p] => now destruct (snd p)
    end.
  - intros. cbv zeta. unfold get_prices_inflation, wait_with.
    cbn [Dict.keys map fst existsb app].
    repeat perform_both. split; reflexivity.
  - intros. cbv zeta. unfold get_labor_activity, wait_with.
    cbn [Dict.keys map fst existsb app].
    repeat perform_both. rewrite !perform_bind_done. cbn [fst snd].
    split; [reflexivity |].
    match goal with
    | |- context [snd ?p] => now destruct (snd p)
    end.
Qed.

(** ** Commodities *)




(** ** Labor and activity *)



(** ** Quotes, symbol search and corporate actions *)

Lemma display_dict (fields : list (string * (string * value))) (d : dict) :
  build_with_defaults (VDict d) fields
  = Ok (match display fields (VDict d) with VDict q => q | _ => [] end).
Proof. now rewrite build_with_defaults_dict. Qed.

(** X14. [get_current_stock_quote] sends one request.  A payload with a
    "Global Quote" mapping gives a quote with the ten fields, always all
    of them and in a fixed order, a field being null where the upstream
    has nothing: unlike the other cleaners this one keeps nulls.  A dict
    without "Global Quote" is returned as it is; a null payload makes the
    membership test raise. *)
Theorem stock_quote_ten_fields :
  forall (symbol : string) (ep : endpoint) (payload : value),
    let sent := Request fetch_quote []
                  [("symbol", VStr symbol); ("datatype", VStr "json")] in
    ep [] sent = Ok payload ->
    requests ep (get_current_stock_quote symbol) = [sent] /\
    (forall raw global_quote,
        payload = VDict raw ->
        Dict.get "Global Quote" raw = Some (VDict global_quote) ->
        returned ep (get_current_stock_quote symbol)
        = Ok (VDict [("quote",
                       display global_quote_fields (VDict global_quote))])) /\
    (forall raw,
        payload = VDict raw ->
        Dict.has "Global Quote" raw = false ->
        returned ep (get_current_stock_quote symbol) = Ok payload) /\
    (payload = VNone ->
     returned ep (get_current_stock_quote symbol) = Err TypeError).
Proof.
  intros symbol ep payload sent Hsent.
  unfold requests, returned, get_current_stock_quote. fold sent.
  cbn [task_bind perform]. rewrite Hsent.
  repeat split.
  - match goal with
    | |- context [task_lift ?r] => now destruct r
    end.
  - intros raw global_quote -> Hquote.
    cbn [py_contains py_getitem rbind]. unfold Dict.has. rewrite Hquote.
    cbn [rbind]. rewrite display_dict. reflexivity.
  - intros raw -> Hnone. cbn [py_contains rbind]. now rewrite Hnone.
  - now intros ->.
Qed.

Lemma stock_quote_ten_fields_witness :
  returned
    (MoreSamples.endpoint_of
       (fun _ => VDict [("Global Quote", VDict [("05. price", VStr "1.5")])]))
    (get_current_stock_quote "IBM")
  = Ok (VDict
          [("quote",
             VDict [ ("symbol", VNone); ("open", VNone); ("high", VNone);
                     ("low", VNone); ("price", VStr "1.5");
                     ("volume", VNone); ("latest_trading_day", VNone);
                     ("previous_close", VNone); ("change", VNone);
                     ("change_percent", VNone) ])]).
Proof.
  refine (proj1 (proj2 (stock_quote_ten_fields "IBM"
                          (MoreSamples.endpoint_of
                             (fun _ => VDict [("Global Quote",
                                               VDict [("05. price",
                                                       VStr "1.5")])]))
                          (VDict [("Global Quote",
                                   VDict [("05. price", VStr "1.5")])]) _))
            [("Global Quote", VDict [("05. price", VStr "1.5")])]
            [("05. price", VStr "1.5")] eq_refl _).
  - reflexivity.
  - reflexivity.
Defined.

Lemma clean_matches_map :
  forall matches cleaned_matches,
    all_dicts matches ->
    clean_matches matches cleaned_matches
    = Ok (cleaned_matches ++
          map (fun m => without_nulls (display match_fields m)) matches).
Proof.
  induction matches as [| m rest IH]; intros cleaned_matches Hall.
  - cbn. now rewrite app_nil_r.
  - inversion Hall as [| x l Hm Hrest]; subst.
    destruct m as [| | | | | | d]; try discriminate Hm.
    cbn [clean_matches]. rewrite display_dict. cbn [rbind].
    rewrite (IH _ Hrest). rewrite <- app_assoc. reflexivity.
Qed.

(** X15. [lookup_stock_symbol]: when the payload lists its best matches,
    the result has one cleaned match per upstream match, in the same
    order, [total_matches] is their number, and a cleaned match holds the
    nine fields without those that are missing or null upstream.  A
    payload without "bestMatches" is returned as it is. *)
Theorem lookup_matches_counted :
  forall (keywords : string) (ep : endpoint) (payload : value),
    let sent := Request search_endpoint []
                  [("keywords", VStr keywords); ("datatype", VStr "json")] in
    ep [] sent = Ok payload ->
    (forall raw matches,
        payload = VDict raw ->
        Dict.get "bestMatches" raw = Some (VList matches) ->
        all_dicts matches ->
        returned ep (lookup_stock_symbol keywords)
        = Ok (VDict
                [ ("keywords", VStr keywords);
                  ("total_matches", VInt (Z.of_nat (List.length matches)));
                  ("matches",
                    VList (map (fun m =>
                                  without_nulls (display match_fields m))
                               matches)) ])) /\
    (match payload with
     | VDict raw => Dict.has "bestMatches" raw = false
     | _ => True
     end ->
     returned ep (lookup_stock_symbol keywords) = Ok payload).
Proof.
  intros keywords ep payload sent Hsent.
  unfold returned, lookup_stock_symbol. fold sent.
  cbn [task_bind perform]. rewrite Hsent. split.
  - intros raw matches -> Hget Hall.
    unfold Dict.has, Dict.get_or_none, Dict.get_default. rewrite Hget.
    cbn [py_iter rbind]. rewrite (clean_matches_map _ _ Hall).
    cbn [rbind app task_lift perform snd]. unfold get_len.
    now rewrite length_map.
  - intros Hshape. destruct payload as [| | | | | | raw]; try reflexivity.
    now rewrite Hshape.
Qed.

Lemma lookup_matches_counted_witness :
  returned
    (MoreSamples.endpoint_of (fun _ => VDict MoreSamples.search_payload))
    (lookup_stock_symbol "tesco")
  = Ok (VDict
          [ ("keywords", VStr "tesco");
            ("total_matches", VInt 2);
            ("matches",
              VList [ VDict [ ("symbol", VStr "TSCO.LON");
                              ("match_score", VStr "0.7273") ];
                      VDict [] ]) ]).
Proof.
  refine (proj1 (lookup_matches_counted "tesco"
                   (MoreSamples.endpoint_of
                      (fun _ => VDict MoreSamples.search_payload))
                   (VDict MoreSamples.search_payload) _)
            MoreSamples.search_payload MoreSamples.search_matches
            eq_refl _ _).
  - reflexivity.
  - reflexivity.
  - repeat constructor.
Defined.

Lemma format_each_map (fields : list (string * (string * value))) :
  forall items formatted,
    all_dicts items ->
    format_each fields items formatted
    = Ok (formatted ++ map (display fields) items).
Proof.
  induction items as [| item rest IH]; intros formatted Hall.
  - cbn. now rewrite app_nil_r.
  - inversion Hall as [| x l Hitem Hrest]; subst.
    destruct item as [| | | | | | d]; try discriminate Hitem.
    cbn [format_each]. rewrite display_dict. cbn [rbind].
    rewrite (IH _ Hrest). rewrite <- app_assoc. reflexivity.
Qed.

(** X17. [get_corporate_actions] always sends both requests, dividends
    first, before it looks at either answer.  When both answers are dicts
    whose "data" are lists of records, the result has one dividend and one
    split per record, in order, each with a fixed set of fields (null
    where the record has nothing); an answer without "data" counts as no
    records.  An answer that is not a dict makes the handler raise, after
    both requests. *)
Theorem corporate_actions_records :
  forall (symbol : string) (ep : endpoint)
         (dividends_response splits_response : value),
    let dividends_request := Request company_dividends [VStr symbol] [] in
    let splits_request := Request fetch_company_splits [VStr symbol] [] in
    replies ep [] [dividends_request; splits_request]
      [dividends_response; splits_response] ->
    requests ep (get_corporate_actions symbol)
    = [dividends_request; splits_request] /\
    (forall dividends splits,
        field_or "data" (VList []) dividends_response = VList dividends ->
        field_or "data" (VList []) splits_response = VList splits ->
        is_dict dividends_response = true ->
        is_dict splits_response = true ->
        all_dicts dividends ->
        all_dicts splits ->
        returned ep (get_corporate_actions symbol)
        = Ok (VDict
                [ ("symbol", VStr symbol);
                  ("dividends",
                    VList (map (display dividend_fields) dividends));
                  ("splits", VList (map (display split_fields) splits)) ])) /\
    (is_dict dividends_response = false \/ is_dict splits_response = false ->
     returned ep (get_corporate_actions symbol) = Err AttributeError).
Proof.
  intros symbol ep dividends_response splits_response dividends_request
    splits_request (Hd & Hs & _).
  cbn [app] in Hs.
  unfold requests, returned, get_corporate_actions.
  fold dividends_request splits_request.
  cbn [task_bind perform app]. rewrite Hd, Hs.
  repeat split.
  - match goal with
    | |- context [task_lift ?r] => now destruct r
    end.
  - intros dividends splits Hdd Hsd Hdr Hsr Hda Hsa.
    destruct dividends_response as [| | | | | | dr]; try discriminate Hdr.
    destruct splits_response as [| | | | | | sr]; try discriminate Hsr.
    cbn [field_or] in Hdd, Hsd. cbn [value_get_default rbind].
    rewrite Hdd, Hsd. cbn [py_iter rbind].
    rewrite (format_each_map _ _ _ Hda). cbn [rbind app].
    rewrite (format_each_map _ _ _ Hsa). reflexivity.
  - intros [H | H].
    + destruct dividends_response; try discriminate H; reflexivity.
    + destruct splits_response; try discriminate H;
        destruct dividends_response; reflexivity.
Qed.

Lemma corporate_actions_records_witness :
  perform (MoreSamples.endpoint_of (fun _ => VNone)) []
    (get_corporate_actions "IBM")
  = ([ Request company_dividends [VStr "IBM"] [];
       Request fetch_company_splits [VStr "IBM"] [] ],
     Err AttributeError).
Proof.
  destruct (corporate_actions_records "IBM"
              (MoreSamples.endpoint_of (fun _ => VNone)) VNone VNone)
    as (Hreq & _ & Hfail).
  - simpl. auto.
  - unfold requests in Hreq. unfold returned in Hfail.
    rewrite (surjective_pairing (perform _ _ _)).
    rewrite Hreq, Hfail; [reflexivity | now left].
Defined.

(** ** Bulk quotes *)

Lemma split_cons (sep : ascii) (s : string) :
  exists h t, split sep s = h :: t.
Proof.
  induction s as [| c s (h & t & IH)]; [now exists EmptyString, [] |].
  cbn [split]. destruct (Ascii.eqb c sep); [now eexists; eexists |].
  rewrite IH. now eexists; eexists.
Qed.

(** Splitting a text at a character and joining the pieces with it gives
    the text back. *)
Lemma join_split (sep : ascii) (s : string) :
  join (String sep EmptyString) (split sep s) = s.
Proof.
  unfold join. induction s as [| c s IH]; [reflexivity |].
  cbn [split]. destruct (split_cons sep s) as (h & t & Hs).
  rewrite Hs in *. destruct (Ascii.eqb_spec c sep) as [-> | Hne].
  - rewrite <- IH. reflexivity.
  - rewrite <- IH. now destruct t.
Qed.

Lemma split_head_one_line (sep : ascii) (s h : string) (t : list string) :
  split sep s = h :: t -> contains (String sep EmptyString) h = false.
Proof.
  revert h t. induction s as [| c s IH]; intros h t Hs.
  - injection Hs as <- _. reflexivity.
  - cbn [split] in Hs. destruct (Ascii.eqb_spec c sep) as [-> | Hne].
    + injection Hs as <- _. reflexivity.
    + destruct (split_cons sep s) as (h' & t' & Hs'). rewrite Hs' in Hs.
      injection Hs as <- _. cbn [contains String.prefix].
      destruct (ascii_dec sep c) as [-> | _]; [contradiction |].
      rewrite (IH _ _ Hs'). now destruct h'.
Qed.

(** X16. [fetch_bulk_quotes] always asks for CSV with the delayed
    entitlement, and returns the symbols asked for, their number, the
    format and its description, the headers and the body.  A text answer
    is trimmed and cut at its first line break: the headers are the first
    line, the body is everything after it, and headers, line break and
    body put together give the trimmed text back (the headers alone when
    it has one line).  An answer that is not text is returned as its
    string form, with empty headers. *)
Theorem bulk_quotes_headers_and_body :
  forall (py_str : value -> string) (symbols : list string) (ep : endpoint)
         (payload : value),
    let sent := Request fetch_realtime_bulk_quotes []
                  [ ("symbols", VList (map VStr symbols));
                    ("datatype", VStr "csv");
                    ("entitlement", VStr "delayed") ] in
    let answer headers body :=
      Ok (VDict
            [ ("symbols_requested", VList (map VStr symbols));
              ("total_symbols", VInt (Z.of_nat (List.length symbols)));
              ("data_format", VStr "csv");
              ("csv_format_info",
                VStr "CSV format uses comma separators, newline (\n) for row separation");
              ("csv_headers", VStr headers);
              ("csv_body", VStr body) ]) in
    ep [] sent = Ok payload ->
    requests ep (fetch_bulk_quotes py_str symbols) = [sent] /\
    match payload with
    | VStr s =>
        exists headers body,
          returned ep (fetch_bulk_quotes py_str symbols)
          = answer headers body /\
          one_line headers /\
          ((body = EmptyString /\ strip s = headers) \/
           strip s = (headers ++ nl ++ body)%string)
    | _ =>
        returned ep (fetch_bulk_quotes py_str symbols)
        = answer EmptyString (py_str payload)
    end.
Proof.
  intros py_str symbols ep payload sent answer Hsent.
  unfold requests, returned, fetch_bulk_quotes. fold sent.
  cbn [task_bind perform]. rewrite Hsent.
  destruct payload as [| | | | s | |]; try (split; reflexivity).
  cbv zeta. destruct (split_cons newline (strip s)) as (h & t & Hs).
  pose proof (join_split newline (strip s)) as Hjoin.
  pose proof (split_head_one_line _ _ _ _ Hs) as Hline.
  rewrite Hs in *. split; [reflexivity |].
  exists h. destruct t as [| x t].
  - exists EmptyString. repeat split; [exact Hline |].
    left. split; [reflexivity |]. now rewrite <- Hjoin.
  - exists (join nl (x :: t)). repeat split; [exact Hline |].
    right. rewrite <- Hjoin. reflexivity.
Qed.

Lemma bulk_quotes_headers_and_body_witness :
  returned (MoreSamples.endpoint_of (fun _ => VStr MoreSamples.bulk_csv))
    (fetch_bulk_quotes (fun _ => EmptyString) ["IBM"; "MSFT"])
  = Ok (VDict
          [ ("symbols_requested", VList [VStr "IBM"; VStr "MSFT"]);
            ("total_symbols", VInt 2);
            ("data_format", VStr "csv");
            ("csv_format_info",
              VStr "CSV format uses comma separators, newline (\n) for row separation");
            ("csv_headers", VStr "symbol,close");
            ("csv_body", VStr ("IBM,1.5" ++ nl ++ "MSFT,2.5")) ]).
Proof.
  destruct (bulk_quotes_headers_and_body (fun _ => EmptyString)
              ["IBM"; "MSFT"]
              (MoreSamples.endpoint_of (fun _ => VStr MoreSamples.bulk_csv))
              (VStr MoreSamples.bulk_csv) eq_refl)
    as (_ & headers & body & Hret & _ & _).
  rewrite Hret. vm_compute in Hret. injection Hret as <- <-. reflexivity.
Defined.

(** ** FX and crypto time series *)

Lemma rename_non_null_dict (metadata : dict) :
  forall (mappings : list (string * string)) (normalized : dict),
    NoDup (map snd mappings) ->
    (forall new, In new (map snd mappings) ->
                 ~ In new (Dict.keys normalized)) ->
    rename_non_null mappings (VDict metadata) normalized
    = Ok (normalized ++ normalized_metadata_of mappings metadata).
Proof.
  unfold normalized_metadata_of.
  induction mappings as [| [old new] rest IH]; intros normalized Hnd Hfresh.
  - cbn. now rewrite app_nil_r.
  - inversion Hnd as [| x l Hnew Hrest]; subst.
    cbn [rename_non_null py_contains py_getitem rbind renamed flat_map
           fst snd].
    unfold Dict.has. destruct (Dict.get old metadata) as [v |] eqn:Hget.
    + cbn [rbind app]. destruct (is_none v) eqn:Hv.
      * unfold drop_none at 1. cbn [filter snd]. rewrite Hv. cbn [negb].
        apply IH; [exact Hrest |].
        intros k Hk. apply Hfresh. now right.
      * rewrite set_fresh by (apply Hfresh; now left).
        rewrite IH; [| exact Hrest |].
        -- unfold drop_none at 2. cbn [filter snd]. rewrite Hv. cbn [negb].
           now rewrite <- app_assoc.
        -- intros k Hk Hin. unfold Dict.keys in Hin. rewrite map_app in Hin.
           apply in_app_iff in Hin. destruct Hin as [Hin | [<- | []]].
           ++ apply (Hfresh k); [now right | exact Hin].
           ++ contradiction.
    + cbn [app]. apply IH; [exact Hrest |].
      intros k Hk. apply Hfresh. now right.
Qed.



Section SeriesItems.

Variable update_from : dict -> value -> result dict.
Variable rename : dict -> dict.
Hypothesis rename_nodup : forall v, NoDup (Dict.keys (rename v)).
Hypothesis rename_no_date : forall v, ~ In "date" (Dict.keys (rename v)).



End SeriesItems.




Ltac not_a_name :=
  cbn; intros H; repeat (destruct H as [H | H]; [discriminate H |]); exact H.

Lemma mapping_names_nodup :
  NoDup (map snd fx_value_key_mappings) /\
  NoDup (map snd crypto_value_key_mappings) /\
  NoDup (map snd fx_metadata_key_mappings) /\
  NoDup (map snd crypto_metadata_key_mappings).
Proof.
  repeat split;
    repeat (constructor;
            [ cbn; intros H;
              repeat (destruct H as [H | H]; [discriminate H |]);
              exact H |]);
    constructor.
Qed.


(** X18. The FX and the crypto series handlers accept the five intraday
    intervals and daily, weekly and monthly; any other interval raises a
    ValueError that names it, and no request is sent. *)
Theorem series_unsupported_interval :
  forall (json_loads : string -> result value) (py_str : value -> string)
         (update_from : dict -> value -> result dict)
         (first second interval : string) (params : dict) (ep : endpoint),
    ~ In interval (intraday_intervals ++ ["daily"; "weekly"; "monthly"]) ->
    perform ep []
      (get_fx_time_series update_from first second interval params)
    = ([], Err (ValueError ("Unsupported interval: " ++ interval))) /\
    perform ep []
      (get_crypto_time_series json_loads py_str update_from first second
         interval params)
    = ([], Err (ValueError ("Unsupported interval: " ++ interval))).
Proof.
  intros json_loads py_str update_from first second interval params ep Hnot.
  assert (Hintra : str_in interval intraday_intervals = false).
  { apply str_in_not_In. intros H. apply Hnot. apply in_app_iff. now left. }
  assert (Hd : String.eqb interval "daily" = false).
  { apply String.eqb_neq. intros ->. apply Hnot. apply in_app_iff.
    right. cbn. auto. }
  assert (Hw : String.eqb interval "weekly" = false).
  { apply String.eqb_neq. intros ->. apply Hnot. apply in_app_iff.
    right. cbn. auto. }
  assert (Hm : String.eqb interval "monthly" = false).
  { apply String.eqb_neq. intros ->. apply Hnot. apply in_app_iff.
    right. cbn. auto. }
  unfold get_fx_time_series, get_crypto_time_series.
  rewrite Hintra, Hd, Hw, Hm. split; reflexivity.
Qed.

Lemma series_unsupported_interval_witness :
  perform (MoreSamples.endpoint_of (fun _ => VNone)) []
    (get_fx_time_series (fun d _ => Ok d) "EUR" "USD" "Daily" [])
  = ([], Err (ValueError "Unsupported interval: Daily")).
Proof.
  refine (proj1 (series_unsupported_interval (fun _ => Err TypeError)
                   (fun _ => EmptyString) (fun d _ => Ok d)
                   "EUR" "USD" "Daily" []
                   (MoreSamples.endpoint_of (fun _ => VNone)) _)).
  not_a_name.
Defined.

(** X19. Off the intraday intervals, [get_crypto_time_series] does not
    pass the extra keyword parameters on: called with different ones it
    is the same coroutine, so it sends the same request and returns the
    same result. *)
Theorem crypto_series_drops_params :
  forall (json_loads : string -> result value) (py_str : value -> string)
         (update_from : dict -> value -> result dict)
         (symbol market interval : string) (params params' : dict),
    str_in interval intraday_intervals = false ->
    get_crypto_time_series json_loads py_str update_from symbol market
      interval params
    = get_crypto_time_series json_loads py_str update_from symbol market
        interval params'.
Proof.
  intros json_loads py_str update_from symbol market interval params params'
    Hintra.
  unfold get_crypto_time_series. now rewrite Hintra.
Qed.

Lemma crypto_series_drops_params_witness :
  get_crypto_time_series (fun _ => Err TypeError) (fun _ => EmptyString)
    (fun d _ => Ok d) "BTC" "USD" "weekly" [("outputsize", VStr "full")]
  = get_crypto_time_series (fun _ => Err TypeError) (fun _ => EmptyString)
      (fun d _ => Ok d) "BTC" "USD" "weekly" [].
Proof.
  apply (crypto_series_drops_params (fun _ => Err TypeError)
           (fun _ => EmptyString) (fun d _ => Ok d) "BTC" "USD" "weekly").
  reflexivity.
Defined.





(** X22. The metadata of both series normalizers: for a "Meta Data"
    mapping the loop gives, under each new name, the upstream value of
    the old name unless that is missing or null, and no other key. *)
Theorem series_metadata_fields :
  forall (mappings : list (string * string)) (metadata : dict),
    mappings = fx_metadata_key_mappings \/
    mappings = crypto_metadata_key_mappings ->
    exists normalized,
      rename_non_null mappings (VDict metadata) [] = Ok normalized /\
      incl (Dict.keys normalized) (map snd mappings) /\
      Forall (fun kv => snd kv <> VNone) normalized /\
      forall old new,
        In (old, new) mappings ->
        Dict.get new normalized = non_null (Dict.get old metadata).
Proof.
  intros mappings metadata Hm.
  assert (Hnd : NoDup (map snd mappings)).
  { destruct mapping_names_nodup as (_ & _ & Hfxm & Hcm).
    now destruct Hm as [-> | ->]. }
  exists (normalized_metadata_of mappings metadata).
  split; [| split; [| split]].
  - now rewrite rename_non_null_dict by (exact Hnd || intros k _ []).
  - intros k Hk. apply drop_none_keys in Hk. now apply renamed_keys in Hk.
  - apply drop_none_non_null.
  - intros old new Hin. unfold normalized_metadata_of.
    rewrite drop_none_get by now apply renamed_keys_nodup.
    now rewrite (renamed_get mappings metadata Hnd old new Hin).
Qed.

Lemma series_metadata_fields_witness :
  exists normalized,
    rename_non_null fx_metadata_key_mappings
      (VDict [("2. From Symbol", VStr "EUR"); ("6. Time Zone", VNone)]) []
    = Ok normalized /\
    Dict.get "from_symbol" normalized = Some (VStr "EUR") /\
    Dict.get "time_zone" normalized = None.
Proof.
  destruct (series_metadata_fields fx_metadata_key_mappings
              [("2. From Symbol", VStr "EUR"); ("6. Time Zone", VNone)]
              (or_introl eq_refl))
    as (normalized & Hok & _ & _ & Hget).
  exists normalized. split; [exact Hok |]. split.
  - apply (Hget "2. From Symbol" "from_symbol"). cbn. auto.
  - apply (Hget "6. Time Zone" "time_zone"). cbn. auto 10.
Defined.

(** ** Earnings: names, quarters and the quarter filter *)

Ltac each_character c :=
  destruct c as [[] [] [] [] [] [] [] []]; vm_compute;
  try reflexivity; try discriminate; auto.

Lemma lower_char_underscore (c : ascii) :
  Ascii.eqb (lower_char c) Earnings.underscore
  = Ascii.eqb c Earnings.underscore.
Proof. each_character c. Qed.

Lemma lower_char_fixed (c : ascii) :
  lower_char c = c -> Earnings.is_upper_az c = false.
Proof. each_character c. Qed.

Lemma lower_char_lower (c : ascii) : lower_char (lower_char c) = lower_char c.
Proof. each_character c. Qed.

Lemma capital_is_no_underscore (c : ascii) :
  Earnings.is_upper_az c = true -> Ascii.eqb c Earnings.underscore = false.
Proof. each_character c. Qed.

Lemma small_is_no_underscore (c : ascii) :
  Earnings.is_lower_az c = true -> Ascii.eqb c Earnings.underscore = false.
Proof. each_character c. Qed.

Lemma without_underscores_lower (s : string) :
  without_underscores (lower s) = lower (without_underscores s).
Proof.
  induction s as [| c s IH]; [reflexivity |].
  cbn [lower without_underscores]. rewrite lower_char_underscore.
  destruct (Ascii.eqb c Earnings.underscore); [exact IH |].
  cbn [lower]. now rewrite IH.
Qed.

Lemma without_underscores_cons (c : ascii) (s t : string) :
  without_underscores s = without_underscores t ->
  without_underscores (String c s) = without_underscores (String c t).
Proof. intros H. cbn [without_underscores]. now rewrite H. Qed.

(** The first substitution adds underscores and nothing else. *)
Lemma split_words_letters (n : nat) :
  forall (s : string) (in_run : bool),
    String.length s <= n ->
    without_underscores (Earnings.split_words in_run s)
    = without_underscores s.
Proof.
  induction n as [| n IH]; intros s in_run Hlen.
  - destruct s; [reflexivity | cbn in Hlen; lia].
  - destruct s as [| c s]; [reflexivity |]. cbn [String.length] in Hlen.
    cbn [Earnings.split_words].
    destruct (in_run && Earnings.is_lower_az c).
    + apply without_underscores_cons, IH. lia.
    + destruct s as [| u [| l s']].
      * reflexivity.
      * apply without_underscores_cons, IH. lia.
      * destruct (negb (Ascii.eqb c newline) && Earnings.is_upper_az u
                  && Earnings.is_lower_az l) eqn:Hmatch.
        -- apply andb_prop in Hmatch. destruct Hmatch as [Hmatch Hl].
           apply andb_prop in Hmatch. destruct Hmatch as [_ Hu].
           apply without_underscores_cons.
           cbn [without_underscores]. rewrite Ascii.eqb_refl.
           rewrite (capital_is_no_underscore u Hu).
           rewrite (small_is_no_underscore l Hl).
           rewrite (IH s' true); [reflexivity |].
           cbn [String.length] in Hlen. lia.
        -- apply without_underscores_cons, IH. lia.
Qed.

(** So does the second. *)
Lemma split_humps_letters (n : nat) :
  forall s : string,
    String.length s <= n ->
    without_underscores (Earnings.split_humps s) = without_underscores s.
Proof.
  induction n as [| n IH]; intros s Hlen.
  - destruct s; [reflexivity | cbn in Hlen; lia].
  - destruct s as [| c s]; [reflexivity |]. cbn [String.length] in Hlen.
    cbn [Earnings.split_humps]. destruct s as [| u s']; [reflexivity |].
    destruct ((Earnings.is_lower_az c || Earnings.is_digit c)
              && Earnings.is_upper_az u) eqn:Hmatch.
    + apply andb_prop in Hmatch. destruct Hmatch as [_ Hu].
      apply without_underscores_cons.
      cbn [without_underscores]. rewrite Ascii.eqb_refl.
      rewrite (capital_is_no_underscore u Hu).
      rewrite (IH s'); [reflexivity |]. cbn [String.length] in Hlen. lia.
    + apply without_underscores_cons, IH. lia.
Qed.

(** A name without capitals is left alone by both substitutions. *)
Lemma split_words_fixed (s : string) :
  forall in_run, lower s = s -> Earnings.split_words in_run s = s.
Proof.
  induction s as [| c s IH]; intros in_run Hlow; [reflexivity |].
  cbn [lower] in Hlow. injection Hlow as Hc Hs.
  cbn [Earnings.split_words].
  destruct (in_run && Earnings.is_lower_az c); [now rewrite IH |].
  destruct s as [| u [| l s']]; [reflexivity | now rewrite IH |].
  pose proof Hs as Hs'. cbn [lower] in Hs'. injection Hs' as Hu _.
  rewrite (lower_char_fixed u Hu), andb_false_r. cbn [andb].
  now rewrite (IH false Hs).
Qed.

Lemma split_humps_fixed (s : string) :
  lower s = s -> Earnings.split_humps s = s.
Proof.
  induction s as [| c s IH]; intros Hlow; [reflexivity |].
  cbn [lower] in Hlow. injection Hlow as Hc Hs.
  cbn [Earnings.split_humps]. destruct s as [| u s']; [reflexivity |].
  pose proof Hs as Hs'. cbn [lower] in Hs'. injection Hs' as Hu _.
  rewrite (lower_char_fixed u Hu), andb_false_r.
  now rewrite (IH Hs).
Qed.

Lemma lower_lower (s : string) : lower (lower s) = lower s.
Proof.
  induction s as [| c s IH]; [reflexivity |].
  cbn [lower]. now rewrite lower_char_lower, IH.
Qed.

Lemma camel_to_snake_fixed (name : string) :
  lower name = name -> Earnings.camel_to_snake name = name.
Proof.
  intros H. unfold Earnings.camel_to_snake.
  now rewrite (split_words_fixed name false H), (split_humps_fixed name H).
Qed.

(** X23. [camel_to_snake] changes a name in two ways only: it puts its
    letters in lower case and it inserts underscores.  A name that has no
    capital is returned as it is; so converting twice is converting
    once. *)
Theorem camel_to_snake_shape :
  forall name : string,
    without_underscores (Earnings.camel_to_snake name)
    = without_underscores (lower name) /\
    Earnings.camel_to_snake (Earnings.camel_to_snake name)
    = Earnings.camel_to_snake name /\
    (lower name = name -> Earnings.camel_to_snake name = name).
Proof.
  intros name. split; [| split].
  - unfold Earnings.camel_to_snake.
    rewrite !without_underscores_lower. f_equal.
    rewrite (split_humps_letters _ _ (Nat.le_refl _)).
    apply (split_words_letters _ _ _ (Nat.le_refl _)).
  - apply camel_to_snake_fixed. unfold Earnings.camel_to_snake.
    apply lower_lower.
  - apply camel_to_snake_fixed.
Qed.

Lemma camel_to_snake_shape_witness :
  Earnings.camel_to_snake "fiscal_date_ending" = "fiscal_date_ending".
Proof.
  apply (proj2 (proj2 (camel_to_snake_shape "fiscal_date_ending"))).
  reflexivity.
Defined.

(** *** The quarter of a fiscal date *)

Lemma digit_digit_char (k : nat) :
  k < 10 -> Earnings.digit (digit_char k) = Some k.
Proof.
  intros H. do 10 (destruct k as [| k]; [reflexivity |]). lia.
Qed.

Lemma scan_year_four_digits (year : nat) (rest : string) :
  year / 1000 <= 9 ->
  Earnings.scan_year (four_digits year ++ String Earnings.dash rest)
  = Some (year, rest).
Proof.
  intros Hyear.
  pose proof (Nat.div_mod_eq year 100) as H100.
  pose proof (Nat.div_mod_eq (year / 100) 10) as Hhi.
  pose proof (Nat.div_mod_eq (year mod 100) 10) as Hlo.
  pose proof (Nat.mod_upper_bound year 100) as B100.
  pose proof (Nat.mod_upper_bound (year / 100) 10) as Bhi.
  pose proof (Nat.mod_upper_bound (year mod 100) 10) as Blo.
  assert (Hthousands : year / 100 / 10 = year / 1000)
    by (now rewrite Nat.Div0.div_div).
  unfold four_digits, two_digits. cbn [append Earnings.scan_year].
  rewrite !digit_digit_char by lia.
  rewrite Ascii.eqb_refl. f_equal. f_equal. lia.
Qed.

Lemma scan_month_two_digits (month : nat) (rest : string) :
  1 <= month <= 12 ->
  Earnings.scan_month (two_digits month ++ String Earnings.dash rest)
  = Some (month, rest).
Proof.
  intros H. do 13 (destruct month as [| month]; [try lia; reflexivity |]).
  lia.
Qed.

Lemma scan_day_two_digits (day : nat) :
  1 <= day <= 31 ->
  Earnings.scan_day (two_digits day) = Some (day, EmptyString).
Proof.
  intros H. do 32 (destruct day as [| day]; [try lia; reflexivity |]).
  lia.
Qed.

Lemma days_in_month_le (year month : nat) :
  Earnings.days_in_month year month <= 31.
Proof.
  unfold Earnings.days_in_month.
  do 12 (destruct month as [| month]; [try destruct (Earnings.is_leap year);
                                       lia |]).
  lia.
Qed.

Lemma quarter_num_of_month (month : nat) :
  1 <= month <= 12 ->
  Earnings.quarter_num month
  = ("Q" ++ Earnings.str_of_nat ((month + 2) / 3))%string.
Proof.
  intros H. do 13 (destruct month as [| month]; [try lia; reflexivity |]).
  lia.
Qed.

(** X24. [fiscal_date_to_quarter] gives a date written YYYY-MM-DD the
    calendar quarter of its month, as "<year>-Q<n>" with n = 1 for
    January to March up to n = 4 for October to December, the year
    without leading zeros; so 2024-09-30 is 2024-Q3.  A day that the month
    does not have, and anything that is not a string, gives "Unknown". *)
Theorem fiscal_quarter_of_iso_date :
  forall year month day : nat,
    (calendar_day year month day ->
     Earnings.fiscal_date_to_quarter (VStr (iso_date year month day))
     = (Earnings.str_of_nat year ++ "-Q" ++
        Earnings.str_of_nat ((month + 2) / 3))%string) /\
    (calendar_day year month 1 ->
     Earnings.days_in_month year month < day <= 31 ->
     Earnings.fiscal_date_to_quarter (VStr (iso_date year month day))
     = "Unknown") /\
    (forall v, (forall s, v <> VStr s) ->
               Earnings.fiscal_date_to_quarter v = "Unknown").
Proof.
  intros year month day. split; [| split].
  - intros (Hy1 & Hy & Hm & Hd).
    pose proof (days_in_month_le year month) as Hle.
    unfold Earnings.fiscal_date_to_quarter, Earnings.strptime, iso_date.
    change ("-" ++ two_digits month ++ "-" ++ two_digits day)%string
      with (String Earnings.dash
              (two_digits month ++ String Earnings.dash (two_digits day))).
    rewrite (scan_year_four_digits year _ Hy).
    rewrite (scan_month_two_digits month _ Hm).
    rewrite scan_day_two_digits by lia.
    replace (1 <=? year)%nat with true by (symmetry; apply Nat.leb_le; lia).
    replace (day <=? Earnings.days_in_month year month)%nat with true
      by (symmetry; apply Nat.leb_le; lia).
    cbn [andb]. now rewrite (quarter_num_of_month month Hm).
  - intros (Hy1 & Hy & Hm & _) Hd.
    unfold Earnings.fiscal_date_to_quarter, Earnings.strptime, iso_date.
    change ("-" ++ two_digits month ++ "-" ++ two_digits day)%string
      with (String Earnings.dash
              (two_digits month ++ String Earnings.dash (two_digits day))).
    rewrite (scan_year_four_digits year _ Hy).
    rewrite (scan_month_two_digits month _ Hm).
    rewrite scan_day_two_digits by lia.
    replace (day <=? Earnings.days_in_month year month)%nat with false
      by (symmetry; apply Nat.leb_gt; lia).
    now rewrite andb_false_r.
  - intros v Hv. destruct v; try reflexivity. now destruct (Hv s).
Qed.

Lemma fiscal_quarter_of_iso_date_witness :
  Earnings.fiscal_date_to_quarter (VStr "2024-09-30") = "2024-Q3".
Proof.
  apply (proj1 (fiscal_quarter_of_iso_date 2024 9 30)).
  unfold calendar_day. vm_compute. repeat split; repeat constructor.
Defined.

(** *** The records and the quarter filter *)




Lemma transform_items_dicts (with_quarter : bool) :
  forall (items earnings out : list value),
    all_dicts earnings ->
    Earnings.transform_items with_quarter items earnings = Ok out ->
    all_dicts out.
Proof.
  induction items as [| item rest IH]; intros earnings out Hall Hok.
  - cbn in Hok. now injection Hok as <-.
  - cbn [Earnings.transform_items] in Hok.
    destruct (Earnings.transform_item with_quarter item) as [t | e] eqn:Ht;
      [| discriminate Hok].
    cbn [rbind] in Hok.
    apply (IH (earnings ++ [t]) out); [| exact Hok].
    apply Forall_app. split; [exact Hall |]. constructor; [| constructor].
    unfold Earnings.transform_item in Ht.
    destruct (value_items item) as [fields | e]; [| discriminate Ht].
    cbn [rbind] in Ht. cbv zeta in Ht.
    destruct (with_quarter && Dict.has "fiscalDateEnding" fields);
      now injection Ht as <-.
Qed.

Lemma keep_quarter_filter (quarter : string) (items : list value) :
  all_dicts items ->
  Earnings.keep_quarter quarter items = Ok (of_quarter quarter items).
Proof.
  induction items as [| item rest IH]; intros Hall; [reflexivity |].
  inversion Hall as [| x l Hitem Hrest]; subst.
  destruct item as [| | | | | | d]; try discriminate Hitem.
  cbn [Earnings.keep_quarter Earnings.in_quarter value_get_default rbind].
  rewrite (IH Hrest). cbn [rbind of_quarter filter get_field].
  unfold Dict.get_or_none. reflexivity.
Qed.

(** X26. The quarter filter of [get_earning_data] works on what the
    handler returns without a quarter: the request is the same, an empty
    quarter filters nothing, and a quarter keeps, of the quarterly
    earnings, the records whose "quarter" is that string, in their order.
    Everything else in the result, the annual earnings included, is as
    without the filter. *)
Theorem earnings_quarter_filter :
  forall (symbol quarter : string) (ep : endpoint) (payload : value)
         (out : dict),
    let sent := Request fetch_earnings [VStr symbol] [] in
    ep [] sent = Ok payload ->
    returned ep (get_earning_data symbol None) = Ok (VDict out) ->
    requests ep (get_earning_data symbol (Some quarter)) = [sent] /\
    (quarter = EmptyString ->
     returned ep (get_earning_data symbol (Some quarter)) = Ok (VDict out)) /\
    (quarter <> EmptyString ->
     returned ep (get_earning_data symbol (Some quarter))
     = Ok (VDict
             match Dict.get "quarterly_earnings" out with
             | Some (VList items) =>
                 Dict.set "quarterly_earnings"
                   (VList (of_quarter quarter items)) out
             | _ => out
             end)).
Proof.
  intros symbol quarter ep payload out sent Hsent Hnone.
  unfold requests, returned, get_earning_data in *. fold sent in Hnone |- *.
  cbn [task_bind perform] in *. rewrite Hsent in *.
  destruct payload as [| | | | | | data]; try discriminate Hnone.
  unfold Earnings.transform in *. cbv zeta in *.
  destruct (Earnings.transform_list false "annualEarnings" "annual_earnings"
              data _) as [annual | e] eqn:Hannual; [| discriminate Hnone].
  cbn [rbind] in *.
  destruct (Earnings.transform_list true "quarterlyEarnings"
              "quarterly_earnings" data annual) as [both | e] eqn:Hboth;
    [| discriminate Hnone].
  cbn [rbind Earnings.filter_quarter task_lift perform snd] in Hnone.
  injection Hnone as <-. cbn [rbind].
  assert (Hshape :
            (exists items, Dict.get "quarterly_earnings" both
                           = Some (VList items) /\ all_dicts items) \/
            Dict.get "quarterly_earnings" both = None).
  { unfold Earnings.transform_list in Hannual, Hboth.
    destruct (Dict.has "quarterlyEarnings" data).
    - left.
      destruct (py_iter (Dict.get_or_none "quarterlyEarnings" data))
        as [items | e]; [| discriminate Hboth].
      cbn [rbind] in Hboth.
      destruct (Earnings.transform_items true items [])
        as [earnings | e] eqn:Hitems; [| discriminate Hboth].
      cbn [rbind] in Hboth. injection Hboth as <-.
      exists earnings. split; [apply get_set_same |].
      apply (transform_items_dicts true items [] earnings); [constructor |].
      exact Hitems.
    - right. injection Hboth as <-.
      destruct (Dict.has "annualEarnings" data).
      + destruct (py_iter (Dict.get_or_none "annualEarnings" data))
          as [items | e]; [| discriminate Hannual].
        cbn [rbind] in Hannual.
        destruct (Earnings.transform_items false items [])
          as [earnings | e]; [| discriminate Hannual].
        cbn [rbind] in Hannual. injection Hannual as <-. reflexivity.
      + injection Hannual as <-. reflexivity. }
  split; [| split].
  - match goal with
    | |- context [task_lift ?r] => now destruct r
    end.
  - intros ->. reflexivity.
  - intros Hq. unfold Earnings.filter_quarter.
    replace (String.eqb quarter EmptyString) with false
      by (symmetry; now apply String.eqb_neq).
    cbn [negb andb]. unfold Dict.has, Dict.get_or_none, Dict.get_default.
    destruct Hshape as [(items & Hget & Hall) | Hget]; rewrite Hget.
    + cbn [py_iter rbind]. rewrite (keep_quarter_filter quarter items Hall).
      reflexivity.
    + reflexivity.
Qed.

Lemma earnings_quarter_filter_witness :
  returned (MoreSamples.endpoint_of (fun _ => VDict MoreSamples.earnings))
    (get_earning_data "IBM" (Some "2024-Q3"))
  = Ok (VDict
          [ ("symbol", VStr "IBM");
            ("quarterly_earnings",
              VList [ VDict [ ("fiscal_date_ending", VStr "2024-09-30");
                              ("quarter", VStr "2024-Q3") ] ]) ]).
Proof.
  refine (proj2 (proj2 (earnings_quarter_filter "IBM" "2024-Q3"
                          (MoreSamples.endpoint_of
                             (fun _ => VDict MoreSamples.earnings))
                          (VDict MoreSamples.earnings)
                          [ ("symbol", VStr "IBM");
                            ("quarterly_earnings",
                              VList
                                [ VDict [ ("fiscal_date_ending",
                                            VStr "2024-09-30");
                                          ("quarter", VStr "2024-Q3") ];
                                  VDict [ ("fiscal_date_ending",
                                            VStr "2024-06-30");
                                          ("quarter", VStr "2024-Q2") ] ]) ]
                          _ _)) _).
  - reflexivity.
  - reflexivity.
  - discriminate.
Defined.
